(** * iot_backend: the MQTT-to-HTTP bridge of [server.js]

    A shallow embedding of the message handler
    [mqttClient.on('message', ...)], of the shared record [latestAirData]
    and of the read-only HTTP routes, together with the part of the
    JavaScript run time the handler relies on:
    - text ([String.prototype.trim], [toUpperCase], [startsWith]);
    - IEEE-754 binary64 numbers, [Number(...)] on text and
      [Number::toString];
    - [JSON.parse], property reads on the parsed value, and the
      conversions [Number(v)] / [String(v)] with the [TypeError]s they
      can raise.

    Text is modelled by its UTF-8 bytes (Rocq's [string]); numbers are
    [spec_float] values for binary64 (precision 53, emax 1024). The
    limits of an engine (stack depth, memory) are not modelled, and the
    order of the members of a response body is not either. *)

From Stdlib Require Import ZArith Ascii String SpecFloat DecimalString.
From stdpp Require Import gmap strings list.

Local Open Scope string_scope.
Local Open Scope Z_scope.

(* ================================================================== *)
(** ** Text                                                            *)
(* ================================================================== *)

Definition code (c : ascii) : Z := Z.of_N (N_of_ascii c).

(** One-byte white space and line terminators: TAB, LF, VT, FF, CR, SP. *)
Definition ws1 (a : ascii) : bool :=
  let n := code a in ((9 <=? n) && (n <=? 13)) || (n =? 32).

(** U+00A0 in UTF-8. *)
Definition ws2 (a b : ascii) : bool :=
  (code a =? 194) && (code b =? 160).

(** U+1680, U+2000..U+200A, U+2028, U+2029, U+202F, U+205F, U+3000 and
    U+FEFF in UTF-8. *)
Definition ws3 (a b c : ascii) : bool :=
  let '(x, y, z) := (code a, code b, code c) in
  ((x =? 225) && (y =? 154) && (z =? 128))
  || ((x =? 226) && (y =? 128)
      && (((128 <=? z) && (z <=? 138)) || (z =? 168) || (z =? 169) || (z =? 175)))
  || ((x =? 226) && (y =? 129) && (z =? 159))
  || ((x =? 227) && (y =? 128) && (z =? 128))
  || ((x =? 239) && (y =? 187) && (z =? 191)).

(** Drops leading white space. With [back = true] the text is read from
    its end (it is given reversed), so multi-byte characters arrive last
    byte first. *)
Fixpoint trim_from (back : bool) (s : string) : string :=
  match s with
  | String a r1 =>
      if ws1 a then trim_from back r1
      else match r1 with
           | String b r2 =>
               if (if back then ws2 b a else ws2 a b) then trim_from back r2
               else match r2 with
                    | String c r3 =>
                        if (if back then ws3 c b a else ws3 a b c)
                        then trim_from back r3 else s
                    | EmptyString => s
                    end
           | EmptyString => s
           end
  | EmptyString => s
  end.

(** [String.prototype.trim]. *)
Definition trim (s : string) : string :=
  String.rev (trim_from true (String.rev (trim_from false s))).

Definition upper_ascii (c : ascii) : ascii :=
  let n := code c in
  if (97 <=? n) && (n <=? 122) then ascii_of_N (Z.to_N (n - 32)) else c.

(** [String.prototype.toUpperCase], on the ASCII letters. The handler
    only compares the result with ['ON'], and no other character has an
    upper case of [O] or [N]. *)
Fixpoint toUpperCase (s : string) : string :=
  match s with
  | String c r => String (upper_ascii c) (toUpperCase r)
  | EmptyString => EmptyString
  end.

(** [String.prototype.startsWith]. *)
Definition startsWith (s p : string) : bool := String.prefix p s.

(* ================================================================== *)
(** ** Numbers                                                         *)
(* ================================================================== *)

Abbreviation number := spec_float.

Definition prec64 : Z := 53.
Definition emax64 : Z := 1024.

Definition NaN : number := S754_nan.
Definition num_zero : number := S754_zero false.
Definition num_one : number := Eval vm_compute in binary_normalize prec64 emax64 1 0 false.

(** The global [isNaN] on a number. *)
Definition isNaN (x : number) : bool :=
  match x with S754_nan => true | _ => false end.

(** [===] on two numbers. *)
Definition num_eq (x y : number) : bool := SFeqb x y.

Definition is_finite (x : number) : bool :=
  match x with S754_nan | S754_infinity _ => false | _ => true end.

(** The binary64 value nearest to [(-1)^neg * m * 10^e], ties to even. *)
Definition round_decimal (neg : bool) (m e : Z) : number :=
  if m <=? 0 then S754_zero neg
  else if 0 <=? e then binary_round prec64 emax64 neg (Z.to_pos (m * 10 ^ e)) 0
  else let '(q, e2, l) := SFdiv_core_binary prec64 emax64 m 0 (10 ^ (- e)) 0 in
       binary_round_aux prec64 emax64 neg q e2 l.

Definition digit_of (base : Z) (c : ascii) : option Z :=
  let n := code c in
  let v := if (48 <=? n) && (n <=? 57) then n - 48
           else if (97 <=? n) && (n <=? 102) then n - 87
           else if (65 <=? n) && (n <=? 70) then n - 55
           else base in
  if v <? base then Some v else None.

(** Reads a run of digits in [base]: the accumulated value, the number
    of digits read and the text left. *)
Fixpoint digits (base : Z) (s : string) (acc cnt : Z) : Z * Z * string :=
  match s with
  | String c r =>
      match digit_of base c with
      | Some d => digits base r (base * acc + d) (cnt + 1)
      | None => (acc, cnt, s)
      end
  | EmptyString => (acc, cnt, s)
  end.

Definition sign_of (s : string) : option bool * string :=
  match s with
  | String "-" r => (Some true, r)
  | String "+" r => (Some false, r)
  | _ => (None, s)
  end.

(** An optional exponent part [e|E [+|-] digits]; [None] when an [e] is
    not followed by digits. *)
Definition exponent_part (s : string) : option (Z * string) :=
  match s with
  | String c r =>
      if (code c =? 101) || (code c =? 69) then
        let '(sg, r1) := sign_of r in
        let '(v, cnt, r2) := digits 10 r1 0 0 in
        if cnt =? 0 then None
        else Some (if default false sg then - v else v, r2)
      else Some (0, s)
  | EmptyString => Some (0, s)
  end.

(** What a scan of an unsigned decimal literal found. *)
Record decimal := {
  int_count : Z;       (* digits before the point *)
  lead_zero : bool;    (* the first of them is 0 *)
  has_point : bool;
  frac_count : Z;      (* digits after the point *)
  mantissa : Z;        (* all digits read as one integer *)
  exponent : Z;        (* of the exponent part, 0 without one *)
  rest : string
}.

Definition scan_decimal (s : string) : option decimal :=
  let '(iv, ic, r1) := digits 10 s 0 0 in
  let lz := match s with String "0" _ => true | _ => false end in
  let '(m, fc, r2, pt) :=
    match r1 with
    | String "." r => let '(m, fc, r2) := digits 10 r iv 0 in (m, fc, r2, true)
    | _ => (iv, 0, r1, false)
    end in
  match exponent_part r2 with
  | Some (ev, r3) =>
      Some {| int_count := ic; lead_zero := lz; has_point := pt; frac_count := fc;
              mantissa := m; exponent := ev; rest := r3 |}
  | None => None
  end.

Definition decimal_value (neg : bool) (d : decimal) : number :=
  round_decimal neg (mantissa d) (exponent d - frac_count d).

(** [s] without its prefix [p]. *)
Fixpoint strip_prefix (p s : string) : option string :=
  match p with
  | EmptyString => Some s
  | String a p1 =>
      match s with
      | String b s1 => if Ascii.eqb a b then strip_prefix p1 s1 else None
      | EmptyString => None
      end
  end.

(** Nothing but white space. *)
Definition blank (s : string) : bool := String.eqb (trim_from false s) "".

(** [0x], [0o] and [0b] integer literals (no sign), up to white space
    at the end; [None] when [s] does not start like one. *)
Definition nondecimal_literal (s : string) : option number :=
  match s with
  | String "0" (String c r) =>
      let n := code c in
      let base := if (n =? 120) || (n =? 88) then 16
                  else if (n =? 111) || (n =? 79) then 8
                  else if (n =? 98) || (n =? 66) then 2 else 0 in
      if base =? 0 then None
      else let '(v, cnt, r1) := digits base r 0 0 in
           if (cnt =? 0) || negb (blank r1) then Some NaN
           else Some (round_decimal false v 0)
  | _ => None
  end.

(** A signed decimal literal or [Infinity], up to white space at the
    end. *)
Definition decimal_literal (s : string) : number :=
  let '(sg, r) := sign_of s in
  let neg := default false sg in
  match strip_prefix "Infinity" r with
  | Some r1 => if blank r1 then S754_infinity neg else NaN
  | None =>
      match scan_decimal r with
      | Some d =>
          if (int_count d + frac_count d =? 0) || negb (blank (rest d))
          then NaN else decimal_value neg d
      | None => NaN
      end
  end.

(** [Number(s)] for a string [s] (StringToNumber): white space, a
    numeric literal, white space; the empty text counts as 0. *)
Definition string_to_number (s : string) : number :=
  let t := trim_from false s in
  if String.eqb t "" then num_zero
  else match nondecimal_literal t with
       | Some v => v
       | None => decimal_literal t
       end.

(** *** Number::toString *)

Definition string_of_Z (z : Z) : string :=
  NilZero.string_of_uint (N.to_uint (Z.to_N z)).

Fixpoint zeros (n : nat) : string :=
  match n with O => "" | S k => String "0" (zeros k) end.

(** A positive finite value [m * 2^e] over [10^p], as a fraction. *)
Definition scaled (m : positive) (e p : Z) : Z * Z :=
  let num := if 0 <=? e then Zpos m * 2 ^ e else Zpos m in
  let den := if 0 <=? e then 1 else 2 ^ (- e) in
  if 0 <=? p then (num, den * 10 ^ p) else (num * 10 ^ (- p), den).

(** The least [n] from [n0] on with [m * 2^e < 10^n]. *)
Fixpoint magnitude (fuel : nat) (m : positive) (e n : Z) : Z :=
  match fuel with
  | O => n
  | S k => let '(a, b) := scaled m e n in
           if a <? b then n else magnitude k m e (n + 1)
  end.

(** The [k]-digit decimals next to [m * 2^e] that read back as it, the
    nearest first: pairs [(s, n)] standing for [s * 10^(n-k)]. *)
Definition candidates (m : positive) (e n k : Z) : list (Z * Z) :=
  let '(a, b) := scaled m e (n - k) in
  let lo := a / b in
  let r := a mod b in
  let hi := lo + 1 in
  let reads s := match round_decimal false s (n - k) with
                 | S754_finite false m' e' => Pos.eqb m' m && (e' =? e)
                 | _ => false
                 end in
  let norm s := if s =? 10 ^ k then (10 ^ (k - 1), n + 1) else (s, n) in
  let up_first := if r =? 0 then false
                  else match 2 * r ?= b with
                       | Gt => true | Lt => false | Eq => Z.odd lo
                       end in
  let order := if up_first then [hi; lo] else if r =? 0 then [lo] else [lo; hi] in
  norm <$> filter (λ s, reads s = true) order.

Fixpoint shortest (fuel : nat) (m : positive) (e n k : Z) : Z * Z * Z :=
  match fuel with
  | O => (0, n, k)
  | S f => match candidates m e n k with
           | (s, n') :: _ => (s, n', k)
           | [] => shortest f m e n (k + 1)
           end
  end.

Definition substring_from (i : Z) (s : string) : string :=
  String.substring (Z.to_nat i) (String.length s - Z.to_nat i)%nat s.

Definition format_digits (ds : string) (n k : Z) : string :=
  if (k <=? n) && (n <=? 21) then ds +:+ zeros (Z.to_nat (n - k))
  else if (0 <? n) && (n <=? 21) then
    String.substring 0 (Z.to_nat n) ds +:+ "." +:+ substring_from n ds
  else if (-6 <? n) && (n <=? 0) then "0." +:+ zeros (Z.to_nat (- n)) +:+ ds
  else
    let e := n - 1 in
    let ex := (if e <? 0 then "e-" else "e+") +:+ string_of_Z (Z.abs e) in
    if k =? 1 then ds +:+ ex
    else String.substring 0 1 ds +:+ "." +:+ substring_from 1 ds +:+ ex.

(** [String(x)] for a number [x]: the shortest decimal that reads back
    as [x]. The 640 steps of [magnitude] cover the decimal exponents of
    binary64 (from -324 to 309), and 17 digits always read back. *)
Definition number_to_string (x : number) : string :=
  match x with
  | S754_nan => "NaN"
  | S754_zero _ => "0"
  | S754_infinity neg => if neg then "-Infinity" else "Infinity"
  | S754_finite neg m e =>
      let n0 := magnitude 640 m e (-324) in
      let '(s, n, k) := shortest 17 m e n0 1 in
      (if neg then "-" else "") +:+ format_digits (string_of_Z s) n k
  end.

(* ================================================================== *)
(** ** JSON values and [JSON.parse]                                    *)
(* ================================================================== *)

#[local] Set Warnings "-register-all".

Inductive json : Type :=
| JNull
| JBool (b : bool)
| JNum (x : number)
| JStr (s : string)
| JArr (xs : list json)
| JObj (ms : list (string * json)).

(** JSON white space: SP, TAB, LF, CR. *)
Definition json_ws (c : ascii) : bool :=
  let n := code c in (n =? 32) || (n =? 9) || (n =? 10) || (n =? 13).

Fixpoint skip_ws (s : string) : string :=
  match s with
  | String c r => if json_ws c then skip_ws r else s
  | EmptyString => s
  end.

Definition byte (z : Z) : ascii := ascii_of_N (Z.to_N z).

(** The UTF-8 bytes of a code point (of a lone surrogate too). *)
Definition utf8 (u : Z) : string :=
  if u <? 128 then String (byte u) ""
  else if u <? 2048 then String (byte (192 + u / 64)) (String (byte (128 + u mod 64)) "")
  else if u <? 65536 then
    String (byte (224 + u / 4096))
      (String (byte (128 + (u / 64) mod 64)) (String (byte (128 + u mod 64)) ""))
  else
    String (byte (240 + u / 262144))
      (String (byte (128 + (u / 4096) mod 64))
         (String (byte (128 + (u / 64) mod 64)) (String (byte (128 + u mod 64)) ""))).

Definition hex4 (a b c d : ascii) : option Z :=
  match digit_of 16 a, digit_of 16 b, digit_of 16 c, digit_of 16 d with
  | Some x, Some y, Some z, Some w => Some (((x * 16 + y) * 16 + z) * 16 + w)
  | _, _, _, _ => None
  end.

(** The character a one-letter escape stands for. *)
Definition simple_escape (c : ascii) : option ascii :=
  let n := code c in
  if (n =? 34) || (n =? 92) || (n =? 47) then Some c
  else if n =? 98 then Some (byte 8)
  else if n =? 102 then Some (byte 12)
  else if n =? 110 then Some (byte 10)
  else if n =? 114 then Some (byte 13)
  else if n =? 116 then Some (byte 9)
  else None.

Definition cons_text (p : string) (r : option (string * string)) : option (string * string) :=
  match r with
  | Some (t, s) => Some (p +:+ t, s)
  | None => None
  end.

Definition high_surrogate (u : Z) : bool := (55296 <=? u) && (u <=? 56319).
Definition low_surrogate (u : Z) : bool := (56320 <=? u) && (u <=? 57343).

(** Reads a string literal after its opening quote: the text it denotes
    and what follows the closing quote. *)
Fixpoint scan_string (s : string) : option (string * string) :=
  match s with
  | EmptyString => None
  | String c r =>
      let n := code c in
      if n =? 34 then Some ("", r)
      else if n <? 32 then None
      else if n =? 92 then
        match r with
        | String e r1 =>
            match simple_escape e with
            | Some ch => cons_text (String ch "") (scan_string r1)
            | None =>
                if code e =? 117 then
                  match r1 with
                  | String h1 (String h2 (String h3 (String h4 r2))) =>
                      match hex4 h1 h2 h3 h4 with
                      | Some u =>
                          match r2 with
                          | String b (String e2 (String l1 (String l2 (String l3 (String l4 r3))))) =>
                              match hex4 l1 l2 l3 l4 with
                              | Some v =>
                                  if high_surrogate u && (code b =? 92) && (code e2 =? 117)
                                     && low_surrogate v
                                  then cons_text (utf8 (65536 + (u - 55296) * 1024 + (v - 56320)))
                                         (scan_string r3)
                                  else cons_text (utf8 u) (scan_string r2)
                              | None => cons_text (utf8 u) (scan_string r2)
                              end
                          | _ => cons_text (utf8 u) (scan_string r2)
                          end
                      | None => None
                      end
                  | _ => None
                  end
                else None
            end
        | EmptyString => None
        end
      else cons_text (String c "") (scan_string r)
  end.

(** A JSON number at the head of [s]: an optional minus, an integer
    part without a superfluous leading zero, an optional fraction with
    at least one digit, an optional exponent. *)
Definition scan_number (s : string) : option (number * string) :=
  let '(neg, r) := match s with String "-" r => (true, r) | _ => (false, s) end in
  match scan_decimal r with
  | Some d =>
      if (1 <=? int_count d)
         && (negb (lead_zero d) || (int_count d =? 1))
         && (negb (has_point d) || (1 <=? frac_count d))
      then Some (decimal_value neg d, rest d)
      else None
  | None => None
  end.

Inductive parsed (A : Type) : Type :=
| Parsed (a : A) (r : string)
| SyntaxError
| OutOfFuel.
Arguments Parsed {A} a r.
Arguments SyntaxError {A}.
Arguments OutOfFuel {A}.

Definition scalar (s : string) : parsed json :=
  match strip_prefix "true" s, strip_prefix "false" s, strip_prefix "null" s with
  | Some r, _, _ => Parsed (JBool true) r
  | _, Some r, _ => Parsed (JBool false) r
  | _, _, Some r => Parsed JNull r
  | _, _, _ => match scan_number s with
               | Some (x, r) => Parsed (JNum x) r
               | None => SyntaxError
               end
  end.

(** One JSON value at the head of [s] (after white space), and the text
    after it. [parse_elements] and [parse_members] read the inside of an
    array and of an object that has at least one entry. *)
Fixpoint parse_value (fuel : nat) (s : string) : parsed json :=
  match fuel with
  | O => OutOfFuel
  | S f =>
      match skip_ws s with
      | EmptyString => SyntaxError
      | String c r =>
          let n := code c in
          if n =? 34 then
            match scan_string r with
            | Some (t, r1) => Parsed (JStr t) r1
            | None => SyntaxError
            end
          else if n =? 91 then
            match skip_ws r with
            | String c1 r1 =>
                if code c1 =? 93 then Parsed (JArr []) r1 else parse_elements f r []
            | EmptyString => SyntaxError
            end
          else if n =? 123 then
            match skip_ws r with
            | String c1 r1 =>
                if code c1 =? 125 then Parsed (JObj []) r1 else parse_members f r []
            | EmptyString => SyntaxError
            end
          else scalar (String c r)
      end
  end
with parse_elements (fuel : nat) (s : string) (acc : list json) : parsed json :=
  match fuel with
  | O => OutOfFuel
  | S f =>
      match parse_value f s with
      | Parsed v r =>
          match skip_ws r with
          | String c r1 =>
              if code c =? 44 then parse_elements f r1 (v :: acc)
              else if code c =? 93 then Parsed (JArr (rev (v :: acc))) r1
              else SyntaxError
          | EmptyString => SyntaxError
          end
      | SyntaxError => SyntaxError
      | OutOfFuel => OutOfFuel
      end
  end
with parse_members (fuel : nat) (s : string) (acc : list (string * json)) : parsed json :=
  match fuel with
  | O => OutOfFuel
  | S f =>
      match skip_ws s with
      | String q r =>
          if code q =? 34 then
            match scan_string r with
            | Some (k, r1) =>
                match skip_ws r1 with
                | String c1 r2 =>
                    if code c1 =? 58 then
                      match parse_value f r2 with
                      | Parsed v r3 =>
                          match skip_ws r3 with
                          | String c r4 =>
                              if code c =? 44 then parse_members f r4 ((k, v) :: acc)
                              else if code c =? 125 then Parsed (JObj (rev ((k, v) :: acc))) r4
                              else SyntaxError
                          | EmptyString => SyntaxError
                          end
                      | SyntaxError => SyntaxError
                      | OutOfFuel => OutOfFuel
                      end
                    else SyntaxError
                | EmptyString => SyntaxError
                end
            | None => SyntaxError
            end
          else SyntaxError
      | EmptyString => SyntaxError
      end
  end.

(** How a JavaScript operation ends: with a value, or by throwing. *)
Inductive completion (A : Type) : Type :=
| Normal (a : A)
| Throw.
Arguments Normal {A} a.
Arguments Throw {A}.

Definition parse_fuel (s : string) : nat := 2 * String.length s + 1.

(** [JSON.parse(s)]: the value, or a thrown [SyntaxError]. *)
Definition JSON_parse (s : string) : completion json :=
  match parse_value (parse_fuel s) s with
  | Parsed v r => if String.eqb (skip_ws r) "" then Normal v else Throw
  | _ => Throw
  end.

(* ================================================================== *)
(** ** Property reads and conversions on parsed values                 *)
(* ================================================================== *)

(** The own property [name] of a parsed object: of several members with
    one name the last one stays. *)
Fixpoint own (name : string) (ms : list (string * json)) : option json :=
  match ms with
  | [] => None
  | (k, v) :: r =>
      match own name r with
      | Some x => Some x
      | None => if String.eqb k name then Some v else None
      end
  end.

(** [obj.name] for a name that no built-in prototype defines (the
    handler reads no other): [None] is [undefined]. Reading a property
    of [null] throws a [TypeError]. *)
Definition get (obj : json) (name : string) : completion (option json) :=
  match obj with
  | JNull => Throw
  | JObj ms => Normal (own name ms)
  | _ => Normal None
  end.

(** [String(v)] (ToString). An array is joined with commas, [null]
    entries giving the empty text; a plain object gives
    ["[object Object]"] through the inherited [toString], unless it has
    a member of that name: a parsed member is never callable, the
    inherited [valueOf] returns the object, and the conversion throws a
    [TypeError]. *)
Fixpoint to_string (v : json) : completion string :=
  match v with
  | JNull => Normal "null"
  | JBool b => Normal (if b then "true" else "false")
  | JNum x => Normal (number_to_string x)
  | JStr s => Normal s
  | JArr xs =>
      (fix join (l : list json) : completion string :=
         match l with
         | [] => Normal ""
         | x :: r =>
             match (match x with JNull => Normal "" | _ => to_string x end) with
             | Throw => Throw
             | Normal a =>
                 match r with
                 | [] => Normal a
                 | _ :: _ => match join r with
                             | Normal b => Normal (a +:+ "," +:+ b)
                             | Throw => Throw
                             end
                 end
             end
         end) xs
  | JObj ms => match own "toString" ms with
               | Some _ => Throw
               | None => Normal "[object Object]"
               end
  end.

(** [Number(v)] (ToNumber); arrays and objects go through their text. *)
Definition to_number (v : json) : completion number :=
  match v with
  | JNull => Normal num_zero
  | JBool b => Normal (if b then num_one else num_zero)
  | JNum x => Normal x
  | JStr s => Normal (string_to_number s)
  | JArr _ | JObj _ =>
      match to_string v with
      | Normal s => Normal (string_to_number s)
      | Throw => Throw
      end
  end.

(** [v === x] for a number, a string and a boolean literal. *)
Definition is_number (v : json) (x : number) : bool :=
  match v with JNum y => num_eq y x | _ => false end.
Definition is_string (v : json) (s : string) : bool :=
  match v with JStr t => String.eqb t s | _ => false end.
Definition is_bool (v : json) (b : bool) : bool :=
  match v with JBool c => Bool.eqb c b | _ => false end.

(* ================================================================== *)
(** ** The shared record and the effects of the handler                *)
(* ================================================================== *)

(** What a property of [latestAirData] holds. *)
Inductive value : Type :=
| VNull
| VNum (x : number)
| VStr (s : string).

(** [let latestAirData = { temperature: null, ... }] (lines 24-32). *)
Definition latestAirData : gmap string value :=
  list_to_map [("temperature", VNull); ("humidity", VNull); ("co2_eq_ppm", VNull);
               ("timestamp", VNull); ("device_status", VNull); ("last_topic", VNull)].

Definition TOPIC_TEMP : string := "esp32/telemetry".
Definition TOPIC_HUM : string := "esp32/state".
Definition TOPIC_CO2 : string := "esp32/control/cmd".

(** The record, and the names assigned while one message is handled
    (the latest first). *)
Record world : Type := World {
  store : gmap string value;
  assigned : list string
}.

Definition M (A : Type) : Type := world → world * completion A.

Definition ret {A} (a : A) : M A := λ w, (w, Normal a).

Definition bind {A B} (m : M A) (k : A → M B) : M B :=
  λ w, match m w with
       | (w1, Normal a) => k a w1
       | (w1, Throw) => (w1, Throw)
       end.

Definition lift {A} (c : completion A) : M A := λ w, (w, c).

(** [try { body } catch (err) { handler }]: what [body] assigned before
    it threw stays assigned. *)
Definition try_catch {A} (body handler : M A) : M A :=
  λ w, match body w with
       | (w1, Normal a) => (w1, Normal a)
       | (w1, Throw) => handler w1
       end.

(** [latestAirData[k] = v] for a number, a string or [null]. The name
    [__proto__] is the accessor of [Object.prototype], whose setter
    ignores such values. *)
Definition assign (k : string) (v : value) : M unit :=
  λ w, if String.eqb k "__proto__" then (w, Normal tt)
       else (World (<[k := v]> (store w)) (k :: assigned w), Normal tt).

#[global] Instance M_ret : MRet M := @ret.
#[global] Instance M_bind : MBind M := λ A B k m, bind m k.

Definition when (b : bool) (m : M unit) : M unit := if b then m else ret tt.

(* ================================================================== *)
(** ** [mqttClient.on('message', ...)]                                 *)
(* ================================================================== *)

Definition is_null (v : json) : bool :=
  match v with JNull => true | _ => false end.

(** Lines 86-89. *)
Definition map_temperature (obj : json) : M unit :=
  temperature ← lift (get obj "temperature");
  match temperature with
  | Some v =>
      when (negb (is_null v))
        (t ← lift (to_number v);
         when (negb (isNaN t)) (assign "temperature" (VNum t)))
  | None => ret tt
  end.

(** Lines 90-93. *)
Definition map_humidity (obj : json) : M unit :=
  humidity ← lift (get obj "humidity");
  match humidity with
  | Some v =>
      when (negb (is_null v))
        (h ← lift (to_number v);
         when (negb (isNaN h)) (assign "humidity" (VNum h)))
  | None => ret tt
  end.

(** Lines 94-100. *)
Definition map_gas (obj : json) : M unit :=
  gas_mq135 ← lift (get obj "gas_mq135");
  match gas_mq135 with
  | Some v =>
      g ← lift (to_number v);
      when (negb (isNaN g)) (assign "co2_eq_ppm" (VNum g))
  | None =>
      co2_eq_ppm ← lift (get obj "co2_eq_ppm");
      match co2_eq_ppm with
      | Some v =>
          g ← lift (to_number v);
          when (negb (isNaN g)) (assign "co2_eq_ppm" (VNum g))
      | None => ret tt
      end
  end.

(** Lines 103-112. *)
Definition map_relay_pin (obj : json) : M unit :=
  relay_pin ← lift (get obj "relay_pin");
  match relay_pin with
  | Some v =>
      if is_number v num_one || is_string v "1" || is_bool v true
      then assign "relay_pin" (VNum num_one)
      else if is_number v num_zero || is_string v "0" || is_bool v false
      then assign "relay_pin" (VNum num_zero)
      else match v with
           | JStr s =>
               assign "relay_pin"
                 (VNum (if String.eqb (toUpperCase s) "ON" then num_one else num_zero))
           | _ => ret tt
           end
  | None => ret tt
  end.

(** Lines 115-118. *)
Definition map_state (obj : json) : M unit :=
  state ← lift (get obj "state");
  match state with
  | Some v =>
      s ← lift (to_string v);
      assign "relay_pin"
        (VNum (if String.eqb (toUpperCase s) "ON" then num_one else num_zero))
  | None => ret tt
  end.

(** Lines 119-121. *)
Definition map_status (obj : json) : M unit :=
  status ← lift (get obj "status");
  match status with
  | Some v => s ← lift (to_string v); assign "device_status" (VStr s)
  | None => ret tt
  end.

(** [latestAirData.last_topic = topic; latestAirData.timestamp = new
    Date().toISOString()], with [now] the text of the current time. *)
Definition stamp (topic now : string) : M unit :=
  assign "last_topic" (VStr topic) ;;
  assign "timestamp" (VStr now).

(** Lines 86-121: the fields of the parsed payload, one after another. *)
Definition map_fields (obj : json) : M unit :=
  map_temperature obj ;;
  map_humidity obj ;;
  map_gas obj ;;
  map_relay_pin obj ;;
  map_state obj ;;
  map_status obj.

(** The [try] block, lines 83-127. *)
Definition esp32_json (topic payloadStr now : string) : M unit :=
  obj ← lift (JSON_parse payloadStr);
  map_fields obj ;;
  stamp topic now.

(** The [catch] block, lines 129-141. *)
Definition esp32_numeric (topic payloadStr now : string) : M unit :=
  let num := string_to_number payloadStr in
  if negb (isNaN num) then
    (if String.eqb topic "esp32/temperature" then assign "temperature" (VNum num)
     else if String.eqb topic "esp32/humidity" then assign "humidity" (VNum num)
     else if String.eqb topic "esp32/co2" then assign "co2_eq_ppm" (VNum num)
     else ret tt) ;;
    stamp topic now
  else ret tt.

(** Lines 146-168. *)
Definition flat_numeric (topic payloadStr now : string) : M unit :=
  let numeric := string_to_number payloadStr in
  if negb (isNaN numeric) then
    (if String.eqb topic TOPIC_TEMP then assign "temperature" (VNum numeric)
     else if String.eqb topic TOPIC_HUM then assign "humidity" (VNum numeric)
     else if String.eqb topic TOPIC_CO2 then assign "co2_eq_ppm" (VNum numeric)
     else assign topic (VNum numeric)) ;;
    stamp topic now
  else ret tt.

(** The handler, lines 76-169: [payload] is the text of the message
    buffer, [now] the text [new Date().toISOString()] would give. The
    calls of [console] leave the record alone and are left out. *)
Definition on_message (topic payload now : string) : M unit :=
  let payloadStr := trim payload in
  if startsWith topic "esp32/" then
    try_catch (esp32_json topic payloadStr now) (esp32_numeric topic payloadStr now)
  else flat_numeric topic payloadStr now.

(** One message handled on the record [s]: the record after it, the
    names assigned, and how the handler ended. *)
Definition handle (topic payload now : string) (s : gmap string value)
  : gmap string value * list string * completion unit :=
  let '(w, c) := on_message topic payload now (World s []) in
  (store w, assigned w, c).

Definition after (topic payload now : string) (s : gmap string value) : gmap string value :=
  (handle topic payload now s).1.1.

Definition names_assigned (topic payload now : string) (s : gmap string value) : list string :=
  (handle topic payload now s).1.2.

(** *** The handler with its console report

    Every run of the handler ends in one console call: a
    [console.log('✅ Updated latestAirData ...')] (lines 127, 138 and
    163) or a [console.warn('⚠ Received ... ignoring.')] (lines 140 and
    168). *)
Inductive report : Type :=
| Updated
| Ignored.

(** The [try] block, whose last statement is the call of line 127. *)
Definition esp32_json_reported (topic payloadStr now : string) : M report :=
  esp32_json topic payloadStr now ;;
  ret Updated.

(** The [catch] block with the calls of lines 138 and 140. *)
Definition esp32_numeric_reported (topic payloadStr now : string) : M report :=
  let num := string_to_number payloadStr in
  if negb (isNaN num) then
    (if String.eqb topic "esp32/temperature" then assign "temperature" (VNum num)
     else if String.eqb topic "esp32/humidity" then assign "humidity" (VNum num)
     else if String.eqb topic "esp32/co2" then assign "co2_eq_ppm" (VNum num)
     else ret tt) ;;
    stamp topic now ;;
    ret Updated
  else ret Ignored.

(** Lines 146-168 with the calls of lines 163 and 168. *)
Definition flat_numeric_reported (topic payloadStr now : string) : M report :=
  let numeric := string_to_number payloadStr in
  if negb (isNaN numeric) then
    (if String.eqb topic TOPIC_TEMP then assign "temperature" (VNum numeric)
     else if String.eqb topic TOPIC_HUM then assign "humidity" (VNum numeric)
     else if String.eqb topic TOPIC_CO2 then assign "co2_eq_ppm" (VNum numeric)
     else assign topic (VNum numeric)) ;;
    stamp topic now ;;
    ret Updated
  else ret Ignored.

(** The handler of lines 76-169, giving the report it ends in. *)
Definition on_message_reported (topic payload now : string) : M report :=
  let payloadStr := trim payload in
  if startsWith topic "esp32/" then
    try_catch (esp32_json_reported topic payloadStr now)
      (esp32_numeric_reported topic payloadStr now)
  else flat_numeric_reported topic payloadStr now.

(** What the handler reports for one message on the record [s]. *)
Definition reported (topic payload now : string) (s : gmap string value)
  : completion report :=
  (on_message_reported topic payload now (World s [])).2.

(** *** The earlier copy of the handler

    The repository's second file is an earlier [server.js]: flat topics
    under [home/air/] only, and a record of four properties. *)

Module Earlier.

Definition TOPIC_TEMP : string := "home/air/temperature".
Definition TOPIC_HUM : string := "home/air/humidity".
Definition TOPIC_CO2 : string := "home/air/co2_eq_ppm".

Definition latestAirData : gmap string value :=
  list_to_map [("temperature", VNull); ("humidity", VNull); ("co2_eq_ppm", VNull);
               ("timestamp", VNull)].

(** Its handler (lines 51-76): the payload is not trimmed, and an
    unknown topic is ignored. *)
Definition on_message (topic payload now : string) : M unit :=
  let value' := string_to_number payload in
  if isNaN value' then ret tt
  else if String.eqb topic TOPIC_TEMP
  then assign "temperature" (VNum value') ;; assign "timestamp" (VStr now)
  else if String.eqb topic TOPIC_HUM
  then assign "humidity" (VNum value') ;; assign "timestamp" (VStr now)
  else if String.eqb topic TOPIC_CO2
  then assign "co2_eq_ppm" (VNum value') ;; assign "timestamp" (VStr now)
  else ret tt.

End Earlier.

(** *** Delivery: [mqttClient.subscribe(['home/air/#', 'esp32/#'])] *)

(** The levels of a topic or of a filter, split at [/]. *)
Fixpoint levels (s : string) : list string :=
  match s with
  | EmptyString => [""]
  | String c r =>
      if code c =? 47 then "" :: levels r
      else match levels r with
           | l :: ls => String c l :: ls
           | [] => [String c ""]
           end
  end.

(** MQTT matching of topic levels against filter levels: [+] stands for
    one level, a final [#] for any number of levels, none included. *)
Fixpoint levels_match (f t : list string) : bool :=
  match f with
  | [] => match t with [] => true | _ => false end
  | x :: f1 =>
      if String.eqb x "#" then match f1 with [] => true | _ => false end
      else match t with
           | [] => false
           | y :: t1 => (String.eqb x "+" || String.eqb x y) && levels_match f1 t1
           end
  end.

Definition subscriptions : list string := ["home/air/#"; "esp32/#"].

(** The broker delivers the topics that match a subscription. *)
Definition delivered (topic : string) : bool :=
  existsb (λ f, levels_match (levels f) (levels topic)) subscriptions.

(** The records the process can hold: the initial one, and those one
    more delivered message leads to. *)
Inductive reachable : gmap string value → Prop :=
| reach_init : reachable latestAirData
| reach_message s topic payload now :
    reachable s → delivered topic = true → reachable (after topic payload now s).

(* ================================================================== *)
(** ** The HTTP routes                                                 *)
(* ================================================================== *)

(** How [JSON.stringify] writes a property of the record: a number that
    is not finite becomes [null]. *)
Definition to_json (v : value) : json :=
  match v with
  | VNull => JNull
  | VNum x => if is_finite x then JNum x else JNull
  | VStr s => JStr s
  end.

(** [res.json({ k: latestAirData.k, ... })]: a property the record does
    not have reads as [undefined] and is left out of the body. *)
Definition pick (ks : list string) (s : gmap string value) : gmap string json :=
  list_to_map (omap (λ k, (λ v, (k, to_json v)) <$> s !! k) ks).

Inductive route : Type :=
| Root | MqttHealth | Latest | Temperature | Humidity | Co2.

(** A response body: plain text, or a JSON object given by its members. *)
Inductive body : Type :=
| Text (t : string)
| Json (members : gmap string json).

(** The [app.get] handlers (lines 175-209); [connected] and [broker]
    are [mqttClient.connected] and [MQTT_BROKER_URL]. *)
Definition respond (connected : bool) (broker : string) (r : route)
    (s : gmap string value) : body :=
  match r with
  | Root => Text "Air quality backend is running ✅"
  | MqttHealth => Json (list_to_map [("connected", JBool connected); ("broker", JStr broker)])
  | Latest => Json (to_json <$> s)
  | Temperature => Json (pick ["temperature"; "timestamp"] s)
  | Humidity => Json (pick ["humidity"; "timestamp"] s)
  | Co2 => Json (pick ["co2_eq_ppm"; "timestamp"] s)
  end.

(** The member [f] of a response body. *)
Definition member (f : string) (b : body) : option json :=
  match b with
  | Text _ => None
  | Json ms => ms !! f
  end.

(** A field is absent while it was never given a value: it is still
    [null], or the record has no such property. *)
Definition absent (f : string) (s : gmap string value) : Prop :=
  s !! f = None ∨ s !! f = Some VNull.

(* ================================================================== *)
(** ** Vocabulary of the statements                                    *)
(* ================================================================== *)

(** A computation all of whose runs stay inside the relation [R]. *)
Definition within {A} (R : world → world → Prop) (m : M A) : Prop :=
  ∀ w, R w (m w).1.

(** A computation that never throws. *)
Definition no_throw {A} (m : M A) : Prop :=
  ∀ w, ∃ a, (m w).2 = Normal a.

(** Properties outside [K] keep their value. *)
Definition frame (K : string → Prop) (w w1 : world) : Prop :=
  ∀ k, ¬ K k → store w1 !! k = store w !! k.

(** [relay_pin] is missing, 0 or 1. *)
Definition relay_ok (s : gmap string value) : Prop :=
  s !! "relay_pin" = None
  ∨ s !! "relay_pin" = Some (VNum num_zero)
  ∨ s !! "relay_pin" = Some (VNum num_one).

(** [timestamp] and [last_topic] were assigned, and hold the current
    time and the topic of the message. *)
Definition stamped (topic now : string) (s1 : gmap string value) (l : list string) : Prop :=
  "timestamp" ∈ l ∧ "last_topic" ∈ l
  ∧ s1 !! "timestamp" = Some (VStr now) ∧ s1 !! "last_topic" = Some (VStr topic).

(** [timestamp] and [last_topic] were not assigned and are as before. *)
Definition unstamped (s s1 : gmap string value) (l : list string) : Prop :=
  ("timestamp" ∉ l) ∧ ("last_topic" ∉ l)
  ∧ s1 !! "timestamp" = s !! "timestamp" ∧ s1 !! "last_topic" = s !! "last_topic".

(** Some property other than [timestamp] and [last_topic] was assigned. *)
Definition data_written (l : list string) : Prop :=
  ∃ k, k ∈ l ∧ k ≠ "timestamp" ∧ k ≠ "last_topic".

(** The field of the record a key of a structured update stands for. *)
Definition canonical_field (key : string) : option string :=
  if String.eqb key "temperature" then Some "temperature"
  else if String.eqb key "humidity" then Some "humidity"
  else if String.eqb key "gas_mq135" then Some "co2_eq_ppm"
  else if String.eqb key "co2_eq_ppm" then Some "co2_eq_ppm"
  else if String.eqb key "relay_pin" then Some "relay_pin"
  else if String.eqb key "state" then Some "relay_pin"
  else if String.eqb key "status" then Some "device_status"
  else None.

(** The representations of a relay state the specification recognizes:
    a boolean, the numbers 0 and 1, and the strings ON, OFF, 0 and 1 in
    any case. *)
Definition recognized_relay (v : json) : bool :=
  match v with
  | JBool _ => true
  | JNum x => num_eq x num_zero || num_eq x num_one
  | JStr t =>
      let u := toUpperCase t in
      String.eqb u "ON" || String.eqb u "OFF" || String.eqb u "0" || String.eqb u "1"
  | _ => false
  end.

(** The fields a route puts in its body. *)
Definition shows (r : route) (f : string) : bool :=
  match r with
  | Latest => true
  | Temperature => String.eqb f "temperature" || String.eqb f "timestamp"
  | Humidity => String.eqb f "humidity" || String.eqb f "timestamp"
  | Co2 => String.eqb f "co2_eq_ppm" || String.eqb f "timestamp"
  | Root | MqttHealth => false
  end.

(** The properties the initial record declares. *)
Definition declared : list string :=
  ["temperature"; "humidity"; "co2_eq_ppm"; "timestamp"; "device_status"; "last_topic"].

(** Text with a double quote on each side. *)
Definition quoted (s : string) : string :=
  String (byte 34) s +:+ String (byte 34) "".

(** The payload of an object with one member whose value is written [v]. *)
Definition object1 (key v : string) : string :=
  "{" +:+ quoted key +:+ ":" +:+ v +:+ "}".

(** The property [I] of the record, once true, stays true. *)
Definition keeps (I : gmap string value → Prop) (w w1 : world) : Prop :=
  I (store w) → I (store w1).

(** Every property the initial record declares is there. *)
Definition has_declared (s : gmap string value) : Prop :=
  ∀ f, f ∈ declared → is_Some (s !! f).

(** [timestamp] and [last_topic] are untouched and were not assigned. *)
Definition quiet (w w1 : world) : Prop :=
  store w1 !! "timestamp" = store w !! "timestamp"
  ∧ store w1 !! "last_topic" = store w !! "last_topic"
  ∧ ("timestamp" ∈ assigned w1 → "timestamp" ∈ assigned w)
  ∧ ("last_topic" ∈ assigned w1 → "last_topic" ∈ assigned w).

(** The assignments the handler of a message on [topic] at time [now]
    can make. *)
Inductive assigns (topic now : string) : string → value → Prop :=
| assigns_temperature x : assigns topic now "temperature" (VNum x)
| assigns_humidity x : assigns topic now "humidity" (VNum x)
| assigns_co2 x : assigns topic now "co2_eq_ppm" (VNum x)
| assigns_relay_on : assigns topic now "relay_pin" (VNum num_one)
| assigns_relay_off : assigns topic now "relay_pin" (VNum num_zero)
| assigns_status t : assigns topic now "device_status" (VStr t)
| assigns_last_topic : assigns topic now "last_topic" (VStr topic)
| assigns_timestamp : assigns topic now "timestamp" (VStr now)
| assigns_extension x :
    startsWith topic "esp32/" = false → assigns topic now topic (VNum x).

(** The keys of a structured update other than the two names of the gas
    reading. *)
Definition other_keys : list string :=
  ["temperature"; "humidity"; "relay_pin"; "state"; "status"].

(** Names a topic cannot be stored under: the two the stamp assigns
    after it, and the accessor of [Object.prototype]. *)
Definition reserved : list string := ["timestamp"; "last_topic"; "__proto__"].

(** Sample inputs. *)
Definition sample_now : string := "2026-11-02T10:15:30.000Z".

(** The payload [{"temperature": 23.5, "humidity": 60}]. *)
Definition sample_telemetry : string :=
  "{" +:+ quoted "temperature" +:+ ": 23.5, " +:+ quoted "humidity" +:+ ": 60}".

(** The payload
    [{"temperature":23.5,"status":{"toString":1}}]. *)
Definition sample_half_applied : string :=
  "{" +:+ quoted "temperature" +:+ ":23.5," +:+ quoted "status" +:+ ":{"
  +:+ quoted "toString" +:+ ":1}}".

(** The default of [MQTT_BROKER_URL] (line 15). *)
Definition sample_broker : string := "mqtt://10.41.232.58:1884".

(* ================================================================== *)
(** ** Vocabulary of the further statements                            *)
(* ================================================================== *)

(** The record after a list of assignments, the latest first. *)
Definition written (l : list (string * value)) (s : gmap string value)
  : gmap string value :=
  foldr (λ kv, <[kv.1 := kv.2]>) s l.

(** A computation that never reads the record: what it assigns and how
    it ends are the same on every record. *)
Definition oblivious {A} (m : M A) : Prop :=
  ∃ l c, ∀ w, m w = (World (written l (store w)) ((l.*1) ++ assigned w)%list, c).

(** The assignments the handler can make, with the checks that guard
    them. *)
Inductive checked_assigns (topic now : string) : string → value → Prop :=
| checked_temperature x : isNaN x = false → checked_assigns topic now "temperature" (VNum x)
| checked_humidity x : isNaN x = false → checked_assigns topic now "humidity" (VNum x)
| checked_co2 x : isNaN x = false → checked_assigns topic now "co2_eq_ppm" (VNum x)
| checked_relay_on : checked_assigns topic now "relay_pin" (VNum num_one)
| checked_relay_off : checked_assigns topic now "relay_pin" (VNum num_zero)
| checked_status t : checked_assigns topic now "device_status" (VStr t)
| checked_last_topic : checked_assigns topic now "last_topic" (VStr topic)
| checked_timestamp : checked_assigns topic now "timestamp" (VStr now)
| checked_extension x :
    startsWith topic "esp32/" = false → isNaN x = false →
    checked_assigns topic now topic (VNum x).

(** A reading is still [null] or holds a number that is not [NaN]. *)
Definition reading_ok (f : string) (s : gmap string value) : Prop :=
  s !! f = Some VNull ∨ ∃ x, s !! f = Some (VNum x) ∧ isNaN x = false.

(** A property is still [null] or holds text. *)
Definition text_ok (f : string) (s : gmap string value) : Prop :=
  s !! f = Some VNull ∨ ∃ t, s !! f = Some (VStr t).

(** A property holds a value that is not [null]. *)
Definition holds_value (k : string) (s : gmap string value) : Prop :=
  ∃ v, s !! k = Some v ∧ v ≠ VNull.

(** The number lines 86-100 take from the value under a key: none for a
    missing key, for a value whose conversion gives [NaN], and, where
    the code checks for it, for [null]. *)
Definition reading (skip_null : bool) (o : option json) : option number :=
  match o with
  | Some v =>
      if skip_null && is_null v then None
      else match to_number v with
           | Normal x => if isNaN x then None else Some x
           | Throw => None
           end
  | None => None
  end.

(** The gas reading of an object: the key [gas_mq135] when it is there,
    the key [co2_eq_ppm] otherwise. *)
Definition gas_reading (ms : list (string * json)) : option number :=
  match own "gas_mq135" ms with
  | Some v => reading false (Some v)
  | None => reading false (own "co2_eq_ppm" ms)
  end.

(** A property after an optional new number. *)
Definition updated (o : option number) (old : option value) : option value :=
  match o with
  | Some x => Some (VNum x)
  | None => old
  end.

(** The tests of lines 105 and 107. *)
Definition truthy_relay (v : json) : bool :=
  is_number v num_one || is_string v "1" || is_bool v true.
Definition falsy_relay (v : json) : bool :=
  is_number v num_zero || is_string v "0" || is_bool v false.

(** 1 for the text ON in any case, 0 for any other text. *)
Definition on_off (t : string) : number :=
  if String.eqb (toUpperCase t) "ON" then num_one else num_zero.

(** A parsed value that is neither [null] nor an object: none of the
    keys can be read from it. *)
Definition keyless (v : json) : bool :=
  match v with
  | JNull | JObj _ => false
  | _ => true
  end.

(** The field the [catch] block writes for a topic (lines 133-135). *)
Definition fallback_field (topic : string) : option string :=
  if String.eqb topic "esp32/temperature" then Some "temperature"
  else if String.eqb topic "esp32/humidity" then Some "humidity"
  else if String.eqb topic "esp32/co2" then Some "co2_eq_ppm"
  else None.

(** The two assignments of the stamp, when it is made. *)
Definition stamping (b : bool) (topic now : string) : list (string * value) :=
  if b then [("timestamp", VStr now); ("last_topic", VStr topic)] else [].

(** The names the earlier copy of the handler assigns for a message. *)
Definition earlier_assigned (topic payload now : string) (s : gmap string value)
  : list string :=
  assigned (Earlier.on_message topic payload now (World s [])).1.

(** The record the earlier copy of the handler leaves. *)
Definition earlier_after (topic payload now : string) (s : gmap string value)
  : gmap string value :=
  store (Earlier.on_message topic payload now (World s [])).1.

(** The property a payload that is a number, and no JSON the [try]
    block accepts, is stored under. *)
Definition numeric_target (topic : string) : option string :=
  if startsWith topic "esp32/" then fallback_field topic else Some topic.

(** What lines 103-112 make of the value under [relay_pin], by the kind
    of the value: a boolean, the numbers 1 and 0, and any text (1 for
    the text 1 and for ON in any case, 0 for the rest) set the relay;
    any other value leaves it. *)
Definition relay_reading (v : json) : option number :=
  match v with
  | JBool b => Some (if b then num_one else num_zero)
  | JNum x => if num_eq x num_one then Some num_one
              else if num_eq x num_zero then Some num_zero else None
  | JStr t => Some (if String.eqb t "1" || String.eqb (toUpperCase t) "ON"
                    then num_one else num_zero)
  | _ => None
  end.

(** The topics of the earlier copy, with the field each one fed. *)
Definition earlier_topics : list (string * string) :=
  [(Earlier.TOPIC_TEMP, "temperature"); (Earlier.TOPIC_HUM, "humidity");
   (Earlier.TOPIC_CO2, "co2_eq_ppm")].

(* ================================================================== *)
(** ** The run-time model at work                                      *)
(* ================================================================== *)

(** [Number(...)] on text, shown through [String(...)]. *)
Example string_to_number_samples :
  (λ t, number_to_string (string_to_number t))
    <$> ["412"; " 23.5 "; ""; "0x1F"; "-0"; ".5"; "5."; "012"; "1e3"; "Infinity";
         "-Infinity"; "1e"; "+"; "12px"; "1 2"; "0x"; "not-a-number"; "{}"]
  = ["412"; "23.5"; "0"; "31"; "0"; "0.5"; "5"; "12"; "1000"; "Infinity";
     "-Infinity"; "NaN"; "NaN"; "NaN"; "NaN"; "NaN"; "NaN"; "NaN"].
Proof. vm_compute. reflexivity. Qed.

(** Rounding to binary64 and the shortest text that reads back. *)
Example number_to_string_samples :
  (λ t, number_to_string (string_to_number t))
    <$> ["0.1"; "0.30000000000000004"; "1e21"; "123456789012345680000"; "1e-7"; "0.000001";
         "5e-324"; "2e-324"; "1.7976931348623157e308"; "1e309"; "9007199254740993";
         "1.0000000000000000000001"; "1e23"]
  = ["0.1"; "0.30000000000000004"; "1e+21"; "123456789012345680000"; "1e-7"; "0.000001";
     "5e-324"; "0"; "1.7976931348623157e+308"; "Infinity"; "9007199254740992";
     "1"; "1e+23"].
Proof. vm_compute. reflexivity. Qed.

Example trim_samples :
  trim (String (byte 9) " a b " +:+ utf8 160 +:+ utf8 8232 +:+ utf8 65279) = "a b"
  ∧ trim "   " = "" ∧ toUpperCase "on" = "ON" ∧ startsWith "esp32/state" "esp32/" = true
  ∧ startsWith "esp32" "esp32/" = false.
Proof. vm_compute. repeat split; reflexivity. Qed.

Example JSON_parse_samples :
  JSON_parse "412" = Normal (JNum (string_to_number "412"))
  ∧ JSON_parse " [ ] " = Normal (JArr [])
  ∧ JSON_parse "null" = Normal JNull
  ∧ JSON_parse sample_telemetry
    = Normal (JObj [("temperature", JNum (string_to_number "23.5"));
                    ("humidity", JNum (string_to_number "60"))])
  ∧ JSON_parse ("[1, [true, null], {" +:+ quoted "a" +:+ ": " +:+ quoted "b" +:+ "}]")
    = Normal (JArr [JNum num_one; JArr [JBool true; JNull]; JObj [("a", JStr "b")]])
  ∧ JSON_parse "" = Throw ∧ JSON_parse "not-a-number" = Throw ∧ JSON_parse "01" = Throw
  ∧ JSON_parse "1." = Throw ∧ JSON_parse "+1" = Throw ∧ JSON_parse "[1,]" = Throw
  ∧ JSON_parse "{}x" = Throw ∧ JSON_parse "Infinity" = Throw.
Proof. vm_compute. repeat split; reflexivity. Qed.

(** Where a [TypeError] comes from, and the conversions that go through
    text. *)
Example conversion_samples :
  get JNull "temperature" = Throw
  ∧ get (JNum num_one) "temperature" = Normal None
  ∧ to_number (JObj [("toString", JNum num_one)]) = Throw
  ∧ to_string (JArr [JObj [("toString", JNull)]]) = Throw
  ∧ to_number (JObj []) = Normal NaN
  ∧ to_number (JArr []) = Normal num_zero
  ∧ to_number (JArr [JStr "1"]) = Normal num_one
  ∧ to_number (JStr "abc") = Normal NaN
  ∧ to_string (JArr [JNum num_one; JNull; JArr [JStr "on"; JBool false]]) = Normal "1,,on,false"
  ∧ to_string (JObj [("a", JNull)]) = Normal "[object Object]".
Proof. vm_compute. repeat split; reflexivity. Qed.

(** The [try] block can throw after it has assigned: the handler still
    ends normally, [temperature] stays assigned and nothing is stamped. *)
Example throw_inside_try :
  handle "esp32/telemetry"
    ("{" +:+ quoted "temperature" +:+ ":5," +:+ quoted "humidity" +:+ ":{"
     +:+ quoted "toString" +:+ ":1}}") sample_now latestAirData
  = (<["temperature" := VNum (string_to_number "5")]> latestAirData, ["temperature"],
     Normal tt).
Proof. vm_compute. reflexivity. Qed.

Example delivered_samples :
  delivered <$> ["home/air"; "home/air/co2/x"; "esp32"; "esp32/"; "esp32/state";
                 "home"; "home/airx"; "sensor/pressure"; "relay_pin"; "timestamp"]
  = [true; true; true; true; true; false; false; false; false; false].
Proof. vm_compute. reflexivity. Qed.

(* ================================================================== *)
(** ** [JSON.parse] has fuel enough                                    *)
(* ================================================================== *)

Section Fuel.
Local Open Scope nat_scope.

Lemma skip_ws_length s : String.length (skip_ws s) <= String.length s.
Proof. induction s as [|a s IH]; simpl; [lia |]. destruct (json_ws a); simpl; lia. Qed.

Lemma skip_ws_cons s c r : skip_ws s = String c r → String.length r < String.length s.
Proof. intros H. pose proof (skip_ws_length s) as L. rewrite H in L. simpl in L. lia. Qed.

Lemma cons_text_length p o t r :
  cons_text p o = Some (t, r) → ∃ t0, o = Some (t0, r).
Proof. destruct o as [[t0 r0]|]; simpl; [intros [= _ <-]; eauto | discriminate]. Qed.

Lemma scan_string_length_aux n :
  ∀ s t r, String.length s < n → scan_string s = Some (t, r) →
           String.length r < String.length s.
Proof.
  induction n as [|n IH]; intros s t r Hn; [lia |].
  destruct s as [|c s]; simpl; [discriminate |].
  destruct (code c =? 34)%Z; [intros [= _ <-]; lia |].
  destruct (code c <? 32)%Z; [discriminate |].
  destruct (code c =? 92)%Z.
  2:{ intros H. apply cons_text_length in H as [t0 H]. apply IH in H; simpl in *; lia. }
  destruct s as [|e r1]; [discriminate |].
  destruct (simple_escape e).
  { intros H. apply cons_text_length in H as [t0 H]. apply IH in H; simpl in *; lia. }
  destruct (code e =? 117)%Z; [| discriminate].
  destruct r1 as [|h1 [|h2 [|h3 [|h4 r2]]]]; try discriminate.
  destruct (hex4 h1 h2 h3 h4); [| discriminate].
  assert (Hr2 : ∀ p, cons_text p (scan_string r2) = Some (t, r) →
                     String.length r
                     < String.length
                         (String c (String e (String h1 (String h2 (String h3 (String h4 r2))))))).
  { intros p H. apply cons_text_length in H as [t0 H]. apply IH in H; simpl in *; lia. }
  destruct r2 as [|b [|e2 [|l1 [|l2 [|l3 [|l4 r3]]]]]]; try apply Hr2.
  destruct (hex4 l1 l2 l3 l4); [| apply Hr2].
  destruct (_ && _ && _ && _); [| apply Hr2].
  intros H. apply cons_text_length in H as [t0 H]. apply IH in H; simpl in *; lia.
Qed.

Lemma scan_string_length s t r :
  scan_string s = Some (t, r) → String.length r < String.length s.
Proof. apply (scan_string_length_aux (S (String.length s))). lia. Qed.

Lemma strip_prefix_length p s r :
  strip_prefix p s = Some r → String.length r + String.length p = String.length s.
Proof.
  revert s. induction p as [|a p IH]; intros s; simpl.
  - intros [= ->]. lia.
  - destruct s as [|b s]; [discriminate |]. destruct (Ascii.eqb a b); [| discriminate].
    intros H. apply IH in H. simpl. lia.
Qed.

Lemma digits_length base s acc cnt v c r :
  digits base s acc cnt = (v, c, r) →
  String.length r <= String.length s ∧ ((cnt < c)%Z → String.length r < String.length s)
  ∧ (cnt <= c)%Z.
Proof.
  revert acc cnt. induction s as [|a s IH]; intros acc cnt; simpl.
  - intros [= <- <- <-]. simpl. lia.
  - destruct (digit_of base a).
    + intros H. apply IH in H. lia.
    + intros [= <- <- <-]. simpl. lia.
Qed.

Lemma sign_of_length s sg r : sign_of s = (sg, r) → String.length r <= String.length s.
Proof.
  unfold sign_of. destruct s as [|a s]; [intros [= <- <-]; lia |].
  destruct a as [[] [] [] [] [] [] [] []]; intros [= <- <-]; simpl; lia.
Qed.

Lemma exponent_part_length s v r :
  exponent_part s = Some (v, r) → String.length r <= String.length s.
Proof.
  unfold exponent_part. destruct s as [|c s]; [intros [= <- <-]; lia |].
  destruct (_ || _); [| intros [= <- <-]; lia].
  destruct (sign_of s) as [sg r1] eqn:E1. apply sign_of_length in E1.
  destruct (digits 10 r1 0 0) as [[v0 cnt] r2] eqn:E2. apply digits_length in E2.
  destruct (cnt =? 0)%Z; [discriminate |]. intros [= <- <-]. simpl. lia.
Qed.

Lemma scan_decimal_length s d :
  scan_decimal s = Some d →
  String.length (rest d) <= String.length s
  ∧ ((0 < int_count d)%Z → String.length (rest d) < String.length s).
Proof.
  unfold scan_decimal.
  destruct (digits 10 s 0 0) as [[iv ic] r1] eqn:E1. apply digits_length in E1.
  assert (H : ∀ m fc r2 pt, String.length r2 <= String.length r1 →
    match exponent_part r2 with
    | Some (ev, r3) =>
        Some {| int_count := ic; lead_zero := match s with String "0" _ => true | _ => false end;
                has_point := pt; frac_count := fc; mantissa := m; exponent := ev; rest := r3 |}
    | None => None
    end = Some d →
    String.length (rest d) <= String.length s
    ∧ ((0 < int_count d)%Z → String.length (rest d) < String.length s)).
  { intros m fc r2 pt L. destruct (exponent_part r2) as [[ev r3]|] eqn:E3; [| discriminate].
    apply exponent_part_length in E3. intros [= <-]. simpl. lia. }
  destruct r1 as [|a r]; [apply H; lia |].
  destruct a as [[] [] [] [] [] [] [] []]; try (apply H; lia).
  destruct (digits 10 r iv 0) as [[m fc] r2] eqn:E2. apply digits_length in E2.
  apply H. simpl. lia.
Qed.

Lemma scan_number_length s x r :
  scan_number s = Some (x, r) → String.length r < String.length s.
Proof.
  unfold scan_number.
  assert (H : ∀ neg r0, String.length r0 <= String.length s →
    match scan_decimal r0 with
    | Some d =>
        if (1 <=? int_count d)%Z && (negb (lead_zero d) || (int_count d =? 1)%Z)
           && (negb (has_point d) || (1 <=? frac_count d)%Z)
        then Some (decimal_value neg d, rest d) else None
    | None => None
    end = Some (x, r) → String.length r < String.length s).
  { intros neg r0 L. destruct (scan_decimal r0) as [d|] eqn:E; [| discriminate].
    apply scan_decimal_length in E.
    destruct (1 <=? int_count d)%Z eqn:E1; simpl; [| discriminate].
    destruct (_ && _); [| discriminate]. intros [= _ <-]. lia. }
  destruct s as [|a s]; [apply H; lia |].
  destruct a as [[] [] [] [] [] [] [] []]; try (apply H; simpl; lia).
Qed.

Lemma scalar_length s v r : scalar s = Parsed v r → String.length r < String.length s.
Proof.
  unfold scalar.
  destruct (strip_prefix "true" s) eqn:E1.
  { intros [= _ <-]. apply strip_prefix_length in E1. simpl in E1. lia. }
  destruct (strip_prefix "false" s) eqn:E2.
  { intros [= _ <-]. apply strip_prefix_length in E2. simpl in E2. lia. }
  destruct (strip_prefix "null" s) eqn:E3.
  { intros [= _ <-]. apply strip_prefix_length in E3. simpl in E3. lia. }
  destruct (scan_number s) as [[x r0]|] eqn:E4; [| discriminate].
  intros [= _ <-]. apply scan_number_length in E4. exact E4.
Qed.

Lemma parse_shrinks f :
  (∀ s v r, parse_value f s = Parsed v r → String.length r < String.length s)
  ∧ (∀ s acc v r, parse_elements f s acc = Parsed v r → String.length r < String.length s)
  ∧ (∀ s acc v r, parse_members f s acc = Parsed v r → String.length r < String.length s).
Proof.
  induction f as [|f (IHv & IHe & IHm)]; [repeat split; intros; discriminate |].
  repeat split.
  - intros s v r. simpl. pose proof (skip_ws_length s) as L.
    destruct (skip_ws s) as [|c r0]; [discriminate |]. simpl in L.
    destruct (code c =? 34)%Z.
    { destruct (scan_string r0) as [[t r1]|] eqn:E; [| discriminate].
      intros [= _ <-]. apply scan_string_length in E. lia. }
    destruct (code c =? 91)%Z.
    { pose proof (skip_ws_length r0) as L0.
      destruct (skip_ws r0) as [|c1 r1]; [discriminate |]. simpl in L0.
      destruct (code c1 =? 93)%Z; [intros [= _ <-]; lia |].
      intros H. apply IHe in H. lia. }
    destruct (code c =? 123)%Z.
    { pose proof (skip_ws_length r0) as L0.
      destruct (skip_ws r0) as [|c1 r1]; [discriminate |]. simpl in L0.
      destruct (code c1 =? 125)%Z; [intros [= _ <-]; lia |].
      intros H. apply IHm in H. lia. }
    intros H. apply scalar_length in H. simpl in H. lia.
  - intros s acc v r. simpl.
    destruct (parse_value f s) as [v0 r0| |] eqn:E; try discriminate.
    apply IHv in E. pose proof (skip_ws_length r0) as L.
    destruct (skip_ws r0) as [|c r1]; [discriminate |]. simpl in L.
    destruct (code c =? 44)%Z; [intros H; apply IHe in H; lia |].
    destruct (code c =? 93)%Z; [| discriminate]. intros [= _ <-]. lia.
  - intros s acc v r. simpl. pose proof (skip_ws_length s) as L.
    destruct (skip_ws s) as [|q r0]; [discriminate |]. simpl in L.
    destruct (code q =? 34)%Z; [| discriminate].
    destruct (scan_string r0) as [[k r1]|] eqn:E; [| discriminate].
    apply scan_string_length in E. pose proof (skip_ws_length r1) as L1.
    destruct (skip_ws r1) as [|c1 r2]; [discriminate |]. simpl in L1.
    destruct (code c1 =? 58)%Z; [| discriminate].
    destruct (parse_value f r2) as [v0 r3| |] eqn:E2; try discriminate.
    apply IHv in E2. pose proof (skip_ws_length r3) as L3.
    destruct (skip_ws r3) as [|c r4]; [discriminate |]. simpl in L3.
    destruct (code c =? 44)%Z; [intros H; apply IHm in H; lia |].
    destruct (code c =? 125)%Z; [| discriminate]. intros [= _ <-]. lia.
Qed.

Lemma parse_enough f :
  (∀ s, 2 * String.length s < f → parse_value f s ≠ OutOfFuel)
  ∧ (∀ s acc, 2 * String.length s + 1 < f → parse_elements f s acc ≠ OutOfFuel)
  ∧ (∀ s acc, 2 * String.length s + 1 < f → parse_members f s acc ≠ OutOfFuel).
Proof.
  induction f as [|f (IHv & IHe & IHm)]; [repeat split; intros; lia |].
  repeat split.
  - intros s Hf. simpl. pose proof (skip_ws_length s) as L.
    destruct (skip_ws s) as [|c r0]; [discriminate |]. simpl in L.
    destruct (code c =? 34)%Z.
    { destruct (scan_string r0) as [[t r1]|]; discriminate. }
    destruct (code c =? 91)%Z.
    { pose proof (skip_ws_length r0) as L0.
      destruct (skip_ws r0) as [|c1 r1]; [discriminate |].
      destruct (code c1 =? 93)%Z; [discriminate |]. apply IHe. lia. }
    destruct (code c =? 123)%Z.
    { pose proof (skip_ws_length r0) as L0.
      destruct (skip_ws r0) as [|c1 r1]; [discriminate |].
      destruct (code c1 =? 125)%Z; [discriminate |]. apply IHm. lia. }
    unfold scalar.
    destruct (strip_prefix "true" _); [discriminate |].
    destruct (strip_prefix "false" _); [discriminate |].
    destruct (strip_prefix "null" _); [discriminate |].
    destruct (scan_number _) as [[x r1]|]; discriminate.
  - intros s acc Hf. simpl.
    destruct (parse_value f s) as [v0 r0| |] eqn:E; [| discriminate | exfalso; apply (IHv s); [lia | exact E]].
    apply (proj1 (parse_shrinks f)) in E. pose proof (skip_ws_length r0) as L.
    destruct (skip_ws r0) as [|c r1]; [discriminate |]. simpl in L.
    destruct (code c =? 44)%Z; [apply IHe; lia |].
    destruct (code c =? 93)%Z; discriminate.
  - intros s acc Hf. simpl. pose proof (skip_ws_length s) as L.
    destruct (skip_ws s) as [|q r0]; [discriminate |]. simpl in L.
    destruct (code q =? 34)%Z; [| discriminate].
    destruct (scan_string r0) as [[k r1]|] eqn:E; [| discriminate].
    apply scan_string_length in E. pose proof (skip_ws_length r1) as L1.
    destruct (skip_ws r1) as [|c1 r2]; [discriminate |]. simpl in L1.
    destruct (code c1 =? 58)%Z; [| discriminate].
    destruct (parse_value f r2) as [v0 r3| |] eqn:E2; [| discriminate | exfalso; apply (IHv r2); [lia | exact E2]].
    apply (proj1 (parse_shrinks f)) in E2. pose proof (skip_ws_length r3) as L3.
    destruct (skip_ws r3) as [|c r4]; [discriminate |]. simpl in L3.
    destruct (code c =? 44)%Z; [apply IHm; lia |].
    destruct (code c =? 125)%Z; discriminate.
Qed.

Lemma parse_fuel_suffices s : parse_value (parse_fuel s) s ≠ OutOfFuel.
Proof. apply (proj1 (parse_enough (parse_fuel s))). unfold parse_fuel. lia. Qed.

End Fuel.

(* ================================================================== *)
(** ** Reasoning about the effects                                     *)
(* ================================================================== *)

Section Within.
Context (R : world → world → Prop) `{!PreOrder R}.

Lemma within_ret {A} (a : A) : within R (ret a).
Proof. intros w. simpl. reflexivity. Qed.

Lemma within_lift {A} (c : completion A) : within R (lift c).
Proof. intros w. simpl. reflexivity. Qed.

Lemma within_bind {A B} (m : M A) (k : A → M B) :
  within R m → (∀ a, within R (k a)) → within R (m ≫= k).
Proof.
  intros Hm Hk w. unfold mbind, M_bind, bind.
  specialize (Hm w). destruct (m w) as [w1 [a|]]; simpl in *.
  - etrans; [exact Hm | apply Hk].
  - exact Hm.
Qed.

Lemma within_try_catch {A} (body handler : M A) :
  within R body → within R handler → within R (try_catch body handler).
Proof.
  intros Hb Hh w. unfold try_catch.
  specialize (Hb w). destruct (body w) as [w1 [a|]]; simpl in *.
  - exact Hb.
  - etrans; [exact Hb | apply Hh].
Qed.

Lemma within_when (b : bool) (m : M unit) :
  within R m → within R (when b m).
Proof. intros Hm. destruct b; simpl; [exact Hm | apply within_ret]. Qed.

End Within.

#[global] Instance frame_preorder K : PreOrder (frame K).
Proof.
  split.
  - intros w k _. reflexivity.
  - intros w1 w2 w3 H12 H23 k Hk. rewrite (H23 k Hk). apply (H12 k Hk).
Qed.

Lemma assign_frame (K : string → Prop) k v : K k → within (frame K) (assign k v).
Proof.
  intros Hk w j Hj. unfold assign.
  destruct (String.eqb k "__proto__"); simpl; [reflexivity |].
  apply lookup_insert_ne. intros ->. exact (Hj Hk).
Qed.

(** *** Computations that cannot throw *)

Lemma no_throw_ret {A} (a : A) : no_throw (ret a).
Proof. intros w. exists a. reflexivity. Qed.

Lemma no_throw_assign k v : no_throw (assign k v).
Proof.
  intros w. exists tt. unfold assign. destruct (String.eqb k "__proto__"); reflexivity.
Qed.

Lemma no_throw_bind {A B} (m : M A) (k : A → M B) :
  no_throw m → (∀ a, no_throw (k a)) → no_throw (m ≫= k).
Proof.
  intros Hm Hk w. unfold mbind, M_bind, bind.
  destruct (Hm w) as [a Ha]. destruct (m w) as [w1 c]. simpl in Ha. subst c.
  apply Hk.
Qed.

Lemma no_throw_try_catch {A} (body handler : M A) :
  no_throw handler → no_throw (try_catch body handler).
Proof.
  intros Hh w. unfold try_catch.
  destruct (body w) as [w1 [a|]]; [exists a; reflexivity | apply Hh].
Qed.

Lemma no_throw_stamp topic now : no_throw (stamp topic now).
Proof.
  unfold stamp. apply no_throw_bind; [apply no_throw_assign | intros _; apply no_throw_assign].
Qed.

Lemma no_throw_esp32_numeric topic t now : no_throw (esp32_numeric topic t now).
Proof.
  unfold esp32_numeric. destruct (negb _); [| apply no_throw_ret].
  apply no_throw_bind; [| intros _; apply no_throw_stamp].
  repeat match goal with
         | |- no_throw (if ?b then _ else _) => destruct b
         end; first [apply no_throw_assign | apply no_throw_ret].
Qed.

Lemma no_throw_flat_numeric topic t now : no_throw (flat_numeric topic t now).
Proof.
  unfold flat_numeric. destruct (negb _); [| apply no_throw_ret].
  apply no_throw_bind; [| intros _; apply no_throw_stamp].
  repeat match goal with
         | |- no_throw (if ?b then _ else _) => destruct b
         end; apply no_throw_assign.
Qed.

Lemma no_throw_on_message topic payload now : no_throw (on_message topic payload now).
Proof.
  unfold on_message. destruct (startsWith topic "esp32/").
  - apply no_throw_try_catch, no_throw_esp32_numeric.
  - apply no_throw_flat_numeric.
Qed.

(** *** Topics *)

Lemma prefix_excludes (topic c : string) :
  startsWith topic "esp32/" = false → startsWith c "esp32/" = true →
  String.eqb topic c = false.
Proof.
  intros Hn Hc. destruct (String.eqb_spec topic c) as [->|]; [| reflexivity].
  rewrite Hc in Hn. discriminate.
Qed.

Lemma delivered_not (topic k : string) :
  delivered topic = true → delivered k = false → topic ≠ k.
Proof. intros Ht Hk ->. rewrite Hk in Ht. discriminate. Qed.

(* ================================================================== *)
(** ** The handler never throws                                        *)
(* ================================================================== *)

(** X23. For every topic and every payload, on every record, the message
    handler ends normally: whatever [JSON.parse], a property read or a
    conversion throws inside the [try] block is caught, and neither the
    [catch] block nor the numeric branch can throw. *)
Theorem handler_never_throws (topic payload now : string) (s : gmap string value) :
  (handle topic payload now s).2 = Normal tt.
Proof.
  unfold handle.
  destruct (no_throw_on_message topic payload now (World s [])) as [[] H].
  destruct (on_message topic payload now (World s [])) as [w c].
  exact H.
Qed.

(* ================================================================== *)
(** ** What each block of the handler assigns                          *)
(* ================================================================== *)

Section Blocks.
Context (R : world → world → Prop) `{!PreOrder R}.

Lemma within_lift_bind {A B} (c : completion A) (k : A → M B) :
  (∀ a, c = Normal a → within R (k a)) → within R (lift c ≫= k).
Proof.
  intros H w. unfold mbind, M_bind, bind, lift. destruct c as [a|]; simpl.
  - apply (H a eq_refl).
  - reflexivity.
Qed.

Lemma map_temperature_within obj :
  (∀ v x, get obj "temperature" = Normal (Some v) →
          within R (assign "temperature" (VNum x))) →
  within R (map_temperature obj).
Proof.
  intros H. unfold map_temperature. apply within_lift_bind.
  intros [v|] E; [| apply within_ret; assumption].
  apply within_when; [assumption |]. apply within_lift_bind. intros t _.
  apply within_when; [assumption |]. eapply H, E.
Qed.

Lemma map_humidity_within obj :
  (∀ v x, get obj "humidity" = Normal (Some v) →
          within R (assign "humidity" (VNum x))) →
  within R (map_humidity obj).
Proof.
  intros H. unfold map_humidity. apply within_lift_bind.
  intros [v|] E; [| apply within_ret; assumption].
  apply within_when; [assumption |]. apply within_lift_bind. intros t _.
  apply within_when; [assumption |]. eapply H, E.
Qed.

Lemma map_gas_within obj :
  (∀ v x, get obj "gas_mq135" = Normal (Some v)
          ∨ get obj "co2_eq_ppm" = Normal (Some v) →
          within R (assign "co2_eq_ppm" (VNum x))) →
  within R (map_gas obj).
Proof.
  intros H. unfold map_gas. apply within_lift_bind. intros [v|] E.
  - apply within_lift_bind. intros g _. apply within_when; [assumption |].
    eapply H. left. exact E.
  - apply within_lift_bind. intros [v|] E2; [| apply within_ret; assumption].
    apply within_lift_bind. intros g _. apply within_when; [assumption |].
    eapply H. right. exact E2.
Qed.

Lemma map_relay_pin_within obj :
  (∀ v x, get obj "relay_pin" = Normal (Some v) →
          recognized_relay v = true ∨ (∃ t, v = JStr t) →
          x = num_one ∨ x = num_zero →
          within R (assign "relay_pin" (VNum x))) →
  within R (map_relay_pin obj).
Proof.
  intros H. unfold map_relay_pin. apply within_lift_bind.
  intros [v|] E; [| apply within_ret; assumption].
  destruct (is_number v num_one || _ || _) eqn:E1.
  - apply (H v _ E); [| left; reflexivity].
    destruct v; simpl in *; rewrite ?orb_false_r in *; try discriminate; eauto.
    left. rewrite E1. apply orb_true_r.
  - destruct (is_number v num_zero || _ || _) eqn:E0.
    + apply (H v _ E); [| right; reflexivity].
      destruct v; simpl in *; rewrite ?orb_false_r in *; try discriminate; eauto.
      left. rewrite E0. reflexivity.
    + destruct v; try (apply within_ret; assumption).
      apply (H _ _ E); [right; eauto |].
      destruct (String.eqb _ _); auto.
Qed.

Lemma map_state_within obj :
  (∀ v x, get obj "state" = Normal (Some v) → x = num_one ∨ x = num_zero →
          within R (assign "relay_pin" (VNum x))) →
  within R (map_state obj).
Proof.
  intros H. unfold map_state. apply within_lift_bind.
  intros [v|] E; [| apply within_ret; assumption].
  apply within_lift_bind. intros t _. apply (H _ _ E).
  destruct (String.eqb _ _); auto.
Qed.

Lemma map_status_within obj :
  (∀ v t, get obj "status" = Normal (Some v) →
          within R (assign "device_status" (VStr t))) →
  within R (map_status obj).
Proof.
  intros H. unfold map_status. apply within_lift_bind.
  intros [v|] E; [| apply within_ret; assumption].
  apply within_lift_bind. intros t _. apply (H _ _ E).
Qed.

Lemma map_fields_within obj :
  (∀ v x, get obj "temperature" = Normal (Some v) →
          within R (assign "temperature" (VNum x))) →
  (∀ v x, get obj "humidity" = Normal (Some v) →
          within R (assign "humidity" (VNum x))) →
  (∀ v x, get obj "gas_mq135" = Normal (Some v)
          ∨ get obj "co2_eq_ppm" = Normal (Some v) →
          within R (assign "co2_eq_ppm" (VNum x))) →
  (∀ v x, get obj "relay_pin" = Normal (Some v) →
          recognized_relay v = true ∨ (∃ t, v = JStr t) →
          x = num_one ∨ x = num_zero →
          within R (assign "relay_pin" (VNum x))) →
  (∀ v x, get obj "state" = Normal (Some v) → x = num_one ∨ x = num_zero →
          within R (assign "relay_pin" (VNum x))) →
  (∀ v t, get obj "status" = Normal (Some v) →
          within R (assign "device_status" (VStr t))) →
  within R (map_fields obj).
Proof.
  intros Ht Hh Hg Hr Hs Hd. unfold map_fields.
  apply within_bind; [assumption | apply map_temperature_within, Ht | intros _].
  apply within_bind; [assumption | apply map_humidity_within, Hh | intros _].
  apply within_bind; [assumption | apply map_gas_within, Hg | intros _].
  apply within_bind; [assumption | apply map_relay_pin_within, Hr | intros _].
  apply within_bind; [assumption | apply map_state_within, Hs | intros _].
  apply map_status_within, Hd.
Qed.

(** When every assignment stays inside [R], so does the handler. *)
Lemma on_message_within topic payload now :
  (∀ k v, within R (assign k v)) → within R (on_message topic payload now).
Proof.
  intros H. unfold on_message, esp32_json, esp32_numeric, flat_numeric, stamp.
  destruct (startsWith topic "esp32/").
  - apply within_try_catch; [assumption | |].
    + apply within_lift_bind. intros obj _.
      apply within_bind; [assumption | | intros _].
      * apply map_fields_within; intros; apply H.
      * apply within_bind; [assumption | apply H | intros _; apply H].
    + destruct (negb _); [| apply within_ret; assumption].
      apply within_bind; [assumption | | intros _].
      * repeat match goal with
               | |- within _ (if ?b then _ else _) => destruct b
               end; first [apply H | apply within_ret; assumption].
      * apply within_bind; [assumption | apply H | intros _; apply H].
  - destruct (negb _); [| apply within_ret; assumption].
    apply within_bind; [assumption | | intros _].
    + repeat match goal with
             | |- within _ (if ?b then _ else _) => destruct b
             end; apply H.
    + apply within_bind; [assumption | apply H | intros _; apply H].
Qed.

End Blocks.

(* ================================================================== *)
(** ** The handler as a whole                                          *)
(* ================================================================== *)

Section Handler.
Context (R : world → world → Prop) `{!PreOrder R}.

(** When every assignment the handler can make stays inside [R], so
    does the handler. *)
Lemma on_message_within_assigns topic payload now :
  (∀ k v, assigns topic now k v → within R (assign k v)) →
  within R (on_message topic payload now).
Proof.
  intros H. unfold on_message, esp32_json, esp32_numeric, flat_numeric, stamp.
  assert (Hs : within R (assign "last_topic" (VStr topic) ;; assign "timestamp" (VStr now))).
  { apply within_bind; [assumption | | intros _]; apply H; constructor. }
  destruct (startsWith topic "esp32/") eqn:Ep.
  - apply within_try_catch; [assumption | |].
    + apply within_lift_bind; [assumption |]. intros obj _.
      apply within_bind; [assumption | | intros _; exact Hs].
      apply map_fields_within; [assumption | ..]; intros; try apply H; try constructor.
      * destruct H2; subst; constructor.
      * destruct H1; subst; constructor.
    + destruct (negb _); [| apply within_ret; assumption].
      apply within_bind; [assumption | | intros _; exact Hs].
      repeat match goal with
             | |- within _ (if ?b then _ else _) => destruct b
             end; first [apply H; constructor | apply within_ret; assumption].
  - destruct (negb _); [| apply within_ret; assumption].
    apply within_bind; [assumption | | intros _; exact Hs].
    repeat match goal with
           | |- within _ (if ?b then _ else _) => destruct b
           end; apply H; constructor; assumption.
Qed.

End Handler.

#[global] Instance keeps_preorder I : PreOrder (keeps I).
Proof.
  split.
  - intros w H. exact H.
  - intros w1 w2 w3 H12 H23 H. apply H23, H12, H.
Qed.

Lemma step_keeps (I : gmap string value → Prop) topic payload now s :
  within (keeps I) (on_message topic payload now) → I s → I (after topic payload now s).
Proof.
  intros H Hs. unfold after, handle.
  specialize (H (World s [])). unfold keeps in H. simpl in H.
  destruct (on_message topic payload now (World s [])) as [w c]. simpl in *.
  apply H, Hs.
Qed.

(** *** The relay state stays binary *)

Lemma assign_relay_ok k v :
  k ≠ "relay_pin" ∨ v = VNum num_zero ∨ v = VNum num_one →
  within (keeps relay_ok) (assign k v).
Proof.
  intros Hkv w. unfold keeps, assign, relay_ok.
  destruct (String.eqb k "__proto__"); simpl; [tauto |].
  destruct (decide (k = "relay_pin")) as [->|Hne].
  - rewrite lookup_insert_eq. destruct Hkv as [?|[->| ->]]; [done | auto | auto].
  - rewrite lookup_insert_ne by done. tauto.
Qed.

Lemma on_message_relay_ok topic payload now :
  topic ≠ "relay_pin" → within (keeps relay_ok) (on_message topic payload now).
Proof.
  intros Ht. apply on_message_within_assigns; [apply _ |].
  intros k v Hkv. apply assign_relay_ok.
  destruct Hkv; first [left; discriminate | right; solve [auto] | left; exact Ht].
Qed.

Lemma relay_ok_reachable s : reachable s → relay_ok s.
Proof.
  induction 1 as [| s topic payload now Hr IH Hd].
  - left. reflexivity.
  - apply step_keeps; [| exact IH].
    apply on_message_relay_ok. apply (delivered_not _ _ Hd). reflexivity.
Qed.

(** *** Declared properties are never removed *)

Lemma assign_has_declared k v : within (keeps has_declared) (assign k v).
Proof.
  intros w H f Hf. unfold assign.
  destruct (String.eqb k "__proto__"); simpl; [apply H, Hf |].
  destruct (decide (k = f)) as [->|Hne].
  - rewrite lookup_insert_eq. eauto.
  - rewrite lookup_insert_ne by done. apply H, Hf.
Qed.

Lemma has_declared_reachable s : reachable s → has_declared s.
Proof.
  induction 1 as [| s topic payload now Hr IH Hd].
  - intros f Hf. unfold declared in Hf.
    repeat (apply elem_of_cons in Hf as [->|Hf]; [eexists; reflexivity |]).
    apply elem_of_nil in Hf. destruct Hf.
  - apply step_keeps; [| exact IH].
    apply on_message_within; [apply _ |]. intros k v. apply assign_has_declared.
Qed.

(* ================================================================== *)
(** ** The relay state is binary in every reachable record (C4)        *)
(* ================================================================== *)

(** C4. In every record reachable from the initial one by handling
    delivered messages, [relay_pin] is missing, or exactly 0, or
    exactly 1. *)
Theorem relay_pin_is_binary (s : gmap string value) :
  reachable s →
  s !! "relay_pin" = None
  ∨ s !! "relay_pin" = Some (VNum num_zero)
  ∨ s !! "relay_pin" = Some (VNum num_one).
Proof. intros H. exact (relay_ok_reachable s H). Qed.

(** The theorem at the record reached by [{"state":"ON"}] on
    [esp32/state]. *)
Lemma relay_pin_is_binary_witness :
  let s := after "esp32/state" (object1 "state" (quoted "ON")) sample_now latestAirData in
  s !! "relay_pin" = None
  ∨ s !! "relay_pin" = Some (VNum num_zero)
  ∨ s !! "relay_pin" = Some (VNum num_one).
Proof.
  apply (relay_pin_is_binary
           (after "esp32/state" (object1 "state" (quoted "ON")) sample_now latestAirData)).
  apply reach_message; [apply reach_init | vm_compute; reflexivity].
Defined.

(** The invariant leans on the subscriptions: the name [relay_pin] is no
    topic they deliver, and a number sent on it would be stored as it
    is. *)
Example relay_pin_leans_on_subscriptions :
  delivered "relay_pin" = false
  ∧ after "relay_pin" "5" sample_now latestAirData !! "relay_pin"
    = Some (VNum (string_to_number "5")).
Proof. split; vm_compute; reflexivity. Qed.

(* ================================================================== *)
(** ** Absent fields in the response bodies (C3)                       *)
(* ================================================================== *)

Lemma shows_member connected broker r f s v :
  shows r f = true → s !! f = Some v →
  member f (respond connected broker r s) = Some (to_json v).
Proof.
  intros Hr Hf. destruct r; simpl in Hr; try discriminate; simpl.
  - rewrite lookup_fmap, Hf. reflexivity.
  - apply orb_true_iff in Hr as [E|E]; apply String.eqb_eq in E; subst f;
      unfold pick; simpl; rewrite ?Hf; simpl.
    + destruct (s !! "timestamp"); simpl; by simplify_map_eq.
    + destruct (s !! "temperature"); simpl; by simplify_map_eq.
  - apply orb_true_iff in Hr as [E|E]; apply String.eqb_eq in E; subst f;
      unfold pick; simpl; rewrite ?Hf; simpl.
    + destruct (s !! "timestamp"); simpl; by simplify_map_eq.
    + destruct (s !! "humidity"); simpl; by simplify_map_eq.
  - apply orb_true_iff in Hr as [E|E]; apply String.eqb_eq in E; subst f;
      unfold pick; simpl; rewrite ?Hf; simpl.
    + destruct (s !! "timestamp"); simpl; by simplify_map_eq.
    + destruct (s !! "co2_eq_ppm"); simpl; by simplify_map_eq.
Qed.

(** C3, as the code has it. In every reachable record, a property the
    initial record declares (temperature, humidity, co2_eq_ppm,
    timestamp, device_status, last_topic) that is absent is written as
    JSON [null] in the body of every route that shows it. *)
Theorem absent_fields_in_bodies (connected : bool) (broker : string) (r : route)
    (f : string) (s : gmap string value) :
  reachable s → f ∈ declared → absent f s → shows r f = true →
  member f (respond connected broker r s) = Some JNull.
Proof.
  intros Hr Hf Ha Hs.
  destruct (has_declared_reachable s Hr f Hf) as [v Hv].
  destruct Ha as [Ha|Ha]; rewrite Hv in Ha; [discriminate |].
  injection Ha as ->. apply (shows_member _ _ _ _ _ _ Hs Hv).
Qed.

(** The theorem at the initial record, for [temperature] and
    [/api/air/temperature]. *)
Lemma absent_fields_in_bodies_witness :
  member "temperature" (respond true sample_broker Temperature latestAirData) = Some JNull.
Proof.
  apply (absent_fields_in_bodies true sample_broker Temperature "temperature" latestAirData).
  - apply reach_init.
  - apply elem_of_cons. left. reflexivity.
  - right. reflexivity.
  - reflexivity.
Defined.

(** C3 as stated fails for [relay_pin]: in the initial record it is
    absent, and the body of [/api/air/latest] has no such member. *)
Lemma relay_pin_missing_from_latest :
  absent "relay_pin" latestAirData
  ∧ member "relay_pin" (respond true sample_broker Latest latestAirData) = None.
Proof. split; [left |]; vm_compute; reflexivity. Qed.

(* ================================================================== *)
(** ** Rejected payloads (C6)                                          *)
(* ================================================================== *)

(** C6. A payload that, trimmed as the handler trims it, parses neither
    as JSON nor as a number changes nothing, whatever the topic: the
    record after the message is the record before it, and no property
    was assigned. *)
Theorem rejected_payload_changes_nothing (topic payload now : string)
    (s : gmap string value) :
  JSON_parse (trim payload) = Throw →
  isNaN (string_to_number (trim payload)) = true →
  handle topic payload now s = (s, [], Normal tt).
Proof.
  intros Hj Hn. unfold handle, on_message.
  destruct (startsWith topic "esp32/").
  - unfold try_catch, esp32_json, esp32_numeric, mbind, M_bind, bind, lift.
    rewrite Hj, Hn. reflexivity.
  - unfold flat_numeric. rewrite Hn. reflexivity.
Qed.

(** The theorem for ["not-a-number"] on the topic [TOPIC_TEMP]. *)
Lemma rejected_payload_witness :
  handle TOPIC_TEMP "not-a-number" sample_now latestAirData = (latestAirData, [], Normal tt).
Proof.
  apply (rejected_payload_changes_nothing TOPIC_TEMP "not-a-number" sample_now latestAirData);
    vm_compute; reflexivity.
Defined.

(* ================================================================== *)
(** ** The topic [TOPIC_CO2] with payload 412 (C2)                     *)
(* ================================================================== *)

(** C2 at its failing input. [TOPIC_CO2] starts with [esp32/], so the
    handler parses ["412"] as JSON, finds none of its keys in the number
    412 and only stamps the record: [co2_eq_ppm] stays [null]. The same
    payload on [esp32/co2] does the same, and on [home/air/co2_eq_ppm]
    the number is stored under the topic. *)
Theorem legacy_co2_topic_is_not_stored (now : string) :
  after TOPIC_CO2 "412" now latestAirData !! "co2_eq_ppm" = Some VNull
  ∧ names_assigned TOPIC_CO2 "412" now latestAirData = ["timestamp"; "last_topic"]
  ∧ after "esp32/co2" "412" now latestAirData !! "co2_eq_ppm" = Some VNull
  ∧ after "home/air/co2_eq_ppm" "412" now latestAirData !! "co2_eq_ppm" = Some VNull
  ∧ names_assigned "home/air/co2_eq_ppm" "412" now latestAirData
    = ["timestamp"; "last_topic"; "home/air/co2_eq_ppm"].
Proof. repeat split; vm_compute; reflexivity. Qed.

(** The earlier copy of the handler, with its own [TOPIC_CO2], does
    store the number. *)
Example earlier_copy_stores_co2 :
  store (Earlier.on_message Earlier.TOPIC_CO2 "412" sample_now
           (World Earlier.latestAirData [])).1 !! "co2_eq_ppm"
  = Some (VNum (string_to_number "412")).
Proof. vm_compute. reflexivity. Qed.

(* ================================================================== *)
(** ** Numeric payloads outside [esp32/] (C10)                         *)
(* ================================================================== *)

Lemma stamp_run topic now w :
  stamp topic now w
  = (World (<["timestamp" := VStr now]> (<["last_topic" := VStr topic]> (store w)))
       ("timestamp" :: "last_topic" :: assigned w), Normal tt).
Proof. reflexivity. Qed.

Lemma flat_numeric_run topic t now w :
  topic ≠ "__proto__" →
  startsWith topic "esp32/" = false →
  isNaN (string_to_number t) = false →
  flat_numeric topic t now w
  = (World (<["timestamp" := VStr now]>
              (<["last_topic" := VStr topic]>
                 (<[topic := VNum (string_to_number t)]> (store w))))
       ("timestamp" :: "last_topic" :: topic :: assigned w), Normal tt).
Proof.
  intros Hp Hs Hn. unfold flat_numeric. rewrite Hn. simpl negb. cbv iota.
  rewrite !(prefix_excludes topic) by (assumption || reflexivity).
  unfold mbind, M_bind, bind, assign at 1.
  apply String.eqb_neq in Hp. rewrite Hp. apply stamp_run.
Qed.

Lemma delivered_not_reserved topic : delivered topic = true → topic ∉ reserved.
Proof.
  intros Hd H. unfold reserved in H.
  repeat (apply elem_of_cons in H as [->|H]; [discriminate |]).
  apply elem_of_nil in H. exact H.
Qed.

(** For every topic that does not start with [esp32/] and is none of
    the names [timestamp], [last_topic] and [__proto__], and every
    payload that reads as a number, the handler stores that number under
    the topic itself, sets [timestamp] to the current time and
    [last_topic] to the topic, and assigns nothing else; the topic is
    none of [TOPIC_TEMP], [TOPIC_HUM], [TOPIC_CO2] (which all start with
    [esp32/]), so the exact-match branches are not taken. *)
Lemma numeric_topic_is_stored (topic payload now : string)
    (s : gmap string value) :
  startsWith topic "esp32/" = false →
  topic ∉ reserved →
  isNaN (string_to_number (trim payload)) = false →
  after topic payload now s !! topic = Some (VNum (string_to_number (trim payload)))
  ∧ after topic payload now s !! "timestamp" = Some (VStr now)
  ∧ after topic payload now s !! "last_topic" = Some (VStr topic)
  ∧ names_assigned topic payload now s = ["timestamp"; "last_topic"; topic]
  ∧ (topic ≠ TOPIC_TEMP ∧ topic ≠ TOPIC_HUM ∧ topic ≠ TOPIC_CO2)
  ∧ (∀ k, k ≠ topic → k ≠ "timestamp" → k ≠ "last_topic" →
          after topic payload now s !! k = s !! k).
Proof.
  intros Hs Hr Hn. unfold reserved in Hr.
  assert (Ht : topic ≠ "timestamp") by (intros ->; apply Hr; set_solver).
  assert (Hl : topic ≠ "last_topic") by (intros ->; apply Hr; set_solver).
  assert (Hp : topic ≠ "__proto__") by (intros ->; apply Hr; set_solver).
  unfold after, names_assigned, handle, on_message. rewrite Hs.
  rewrite (flat_numeric_run topic (trim payload) now _ Hp Hs Hn). simpl.
  repeat split.
  - by simplify_map_eq.
  - by simplify_map_eq.
  - by simplify_map_eq.
  - intros ->. discriminate.
  - intros ->. discriminate.
  - intros ->. discriminate.
  - intros k H1 H2 H3. by simplify_map_eq.
Qed.

(** C10. For every topic the subscriptions deliver that does not start
    with [esp32/], and every payload that reads as a number, the handler
    stores that number under the topic itself, sets [timestamp] to the
    current time and [last_topic] to the topic, and assigns nothing
    else; the topic is none of [TOPIC_TEMP], [TOPIC_HUM], [TOPIC_CO2]
    (which all start with [esp32/]), so the exact-match branches are
    not taken. *)
Theorem unknown_numeric_topic_is_stored (topic payload now : string)
    (s : gmap string value) :
  delivered topic = true →
  startsWith topic "esp32/" = false →
  isNaN (string_to_number (trim payload)) = false →
  after topic payload now s !! topic = Some (VNum (string_to_number (trim payload)))
  ∧ after topic payload now s !! "timestamp" = Some (VStr now)
  ∧ after topic payload now s !! "last_topic" = Some (VStr topic)
  ∧ names_assigned topic payload now s = ["timestamp"; "last_topic"; topic]
  ∧ (topic ≠ TOPIC_TEMP ∧ topic ≠ TOPIC_HUM ∧ topic ≠ TOPIC_CO2)
  ∧ (∀ k, k ≠ topic → k ≠ "timestamp" → k ≠ "last_topic" →
          after topic payload now s !! k = s !! k).
Proof.
  intros Hd Hs Hn.
  apply numeric_topic_is_stored; [exact Hs | | exact Hn].
  apply delivered_not_reserved, Hd.
Qed.

(** The theorem for the payload 1013 on [home/air/pressure]. *)
Lemma unknown_numeric_topic_witness :
  let s := after "home/air/pressure" "1013" sample_now latestAirData in
  s !! "home/air/pressure" = Some (VNum (string_to_number (trim "1013")))
  ∧ s !! "timestamp" = Some (VStr sample_now)
  ∧ s !! "last_topic" = Some (VStr "home/air/pressure")
  ∧ names_assigned "home/air/pressure" "1013" sample_now latestAirData
    = ["timestamp"; "last_topic"; "home/air/pressure"]
  ∧ ("home/air/pressure" ≠ TOPIC_TEMP ∧ "home/air/pressure" ≠ TOPIC_HUM
     ∧ "home/air/pressure" ≠ TOPIC_CO2)
  ∧ (∀ k, k ≠ "home/air/pressure" → k ≠ "timestamp" → k ≠ "last_topic" →
          s !! k = latestAirData !! k).
Proof.
  apply (unknown_numeric_topic_is_stored "home/air/pressure" "1013" sample_now
           latestAirData).
  - vm_compute. reflexivity.
  - reflexivity.
  - vm_compute. reflexivity.
Defined.

(** The same for the payload 1013 on [sensor/pressure], a topic the
    handler would file in the same way if it were handed one. *)
Example sensor_pressure_is_stored :
  let s := after "sensor/pressure" "1013" sample_now latestAirData in
  s !! "sensor/pressure" = Some (VNum (string_to_number (trim "1013")))
  ∧ s !! "timestamp" = Some (VStr sample_now)
  ∧ s !! "last_topic" = Some (VStr "sensor/pressure")
  ∧ names_assigned "sensor/pressure" "1013" sample_now latestAirData
    = ["timestamp"; "last_topic"; "sensor/pressure"].
Proof. repeat split; vm_compute; reflexivity. Qed.

(** The three names are left out for a reason: a number handed in under
    the topic [timestamp] is overwritten by the stamp at once. No such
    topic is delivered. *)
Example timestamp_topic_is_overwritten :
  startsWith "timestamp" "esp32/" = false
  ∧ delivered "timestamp" = false
  ∧ isNaN (string_to_number (trim "5")) = false
  ∧ after "timestamp" "5" sample_now latestAirData !! "timestamp" = Some (VStr sample_now).
Proof. repeat split; vm_compute; reflexivity. Qed.

(* ================================================================== *)
(** ** The text of a JSON object is not a number                       *)
(* ================================================================== *)

Lemma parse_elements_array f s acc v r :
  parse_elements f s acc = Parsed v r → ∃ xs, v = JArr xs.
Proof.
  revert s acc. induction f as [|f IH]; intros s acc; simpl; [discriminate |].
  destruct (parse_value f s) as [v0 r0| |]; try discriminate.
  destruct (skip_ws r0) as [|c r1]; [discriminate |].
  destruct (code c =? 44); [apply IH |].
  destruct (code c =? 93); [| discriminate].
  intros [= <- _]. eauto.
Qed.

Lemma scalar_not_object s ms r : scalar s ≠ Parsed (JObj ms) r.
Proof.
  unfold scalar.
  destruct (strip_prefix "true" s); [discriminate |].
  destruct (strip_prefix "false" s); [discriminate |].
  destruct (strip_prefix "null" s); [discriminate |].
  destruct (scan_number s) as [[x r0]|]; discriminate.
Qed.

Lemma code_brace c : (code c =? 123) = true → c = "{"%char.
Proof.
  intros H. apply Z.eqb_eq in H. unfold code in H.
  rewrite <- (ascii_N_embedding c).
  replace (N_of_ascii c) with 123%N by lia. reflexivity.
Qed.

Lemma parse_value_object f s ms r :
  parse_value f s = Parsed (JObj ms) r → ∃ r0, skip_ws s = String "{" r0.
Proof.
  destruct f as [|f]; simpl; [discriminate |].
  destruct (skip_ws s) as [|c r0]; [discriminate |].
  destruct (code c =? 34).
  { destruct (scan_string r0) as [[t r1]|]; discriminate. }
  destruct (code c =? 91).
  { destruct (skip_ws r0) as [|c1 r1]; [discriminate |].
    destruct (code c1 =? 93); [discriminate |].
    intros H. apply parse_elements_array in H as [xs H]. discriminate. }
  destruct (code c =? 123) eqn:E.
  { intros _. apply code_brace in E as ->. eauto. }
  intros H. destruct (scalar_not_object _ _ _ H).
Qed.

Lemma json_ws_ws1 a : json_ws a = true → ws1 a = true.
Proof.
  unfold json_ws, ws1. intros H.
  repeat (apply orb_true_iff in H as [H|H]); apply Z.eqb_eq in H; rewrite H; reflexivity.
Qed.

Lemma skip_ws_brace s r : skip_ws s = String "{" r → trim_from false s = String "{" r.
Proof.
  induction s as [|a s IH]; simpl skip_ws; [discriminate |].
  destruct (json_ws a) eqn:E.
  - intros H. cbn [trim_from]. rewrite (json_ws_ws1 a E). apply IH, H.
  - intros [= -> ->]. destruct r as [|b [|c r]]; reflexivity.
Qed.

Lemma brace_not_numeric s r : trim_from false s = String "{" r → string_to_number s = NaN.
Proof. intros H. unfold string_to_number. rewrite H. reflexivity. Qed.

Lemma object_not_numeric t ms :
  JSON_parse t = Normal (JObj ms) → isNaN (string_to_number t) = true.
Proof.
  unfold JSON_parse. intros H.
  destruct (parse_value (parse_fuel t) t) as [v r| |] eqn:E; try discriminate.
  destruct (String.eqb (skip_ws r) ""); [| discriminate].
  injection H as ->. apply parse_value_object in E as [r0 E].
  rewrite (brace_not_numeric t r0); [reflexivity |]. apply skip_ws_brace, E.
Qed.

(** On an [esp32/] topic with a payload that parses, the handler is the
    field mapping followed by the stamp; the [catch] block runs when the
    mapping throws, and for the text of an object it does nothing. *)
Lemma on_message_object topic payload now ms w :
  startsWith topic "esp32/" = true →
  JSON_parse (trim payload) = Normal (JObj ms) →
  on_message topic payload now w
  = match map_fields (JObj ms) w with
    | (w1, Normal _) => stamp topic now w1
    | (w1, Throw) => (w1, Normal tt)
    end.
Proof.
  intros Hs Hj. unfold on_message. rewrite Hs.
  unfold try_catch, esp32_json, esp32_numeric, mbind, M_bind, bind, lift.
  rewrite Hj, (object_not_numeric _ _ Hj). simpl.
  destruct (map_fields (JObj ms) w) as [w1 [[]|]]; [| reflexivity].
  destruct (stamp topic now w1) as [w2 [[]|]] eqn:E; [reflexivity |].
  rewrite stamp_run in E. discriminate.
Qed.

(* ================================================================== *)
(** ** A structured update touches only the fields of its keys (C7)    *)
(* ================================================================== *)

(** Outside [esp32/] the text of an object is not a number, and the
    handler does nothing. *)
Lemma on_message_object_flat topic payload now ms w :
  startsWith topic "esp32/" = false →
  JSON_parse (trim payload) = Normal (JObj ms) →
  on_message topic payload now w = (w, Normal tt).
Proof.
  intros Hs Hj. unfold on_message, flat_numeric.
  rewrite Hs, (object_not_numeric _ _ Hj). reflexivity.
Qed.

Lemma get_own ms name v : get (JObj ms) name = Normal (Some v) → own name ms ≠ None.
Proof. simpl. intros [= ->]. discriminate. Qed.

(** C7. For every payload that parses as a JSON object, on any topic,
    a property [k] of the record other than [timestamp] and
    [last_topic] that is the canonical field of none of the keys present
    in the object has the same value after the message as before it. *)
Theorem structured_update_frame (topic payload now : string) (s : gmap string value)
    (ms : list (string * json)) (k : string) :
  JSON_parse (trim payload) = Normal (JObj ms) →
  k ≠ "timestamp" → k ≠ "last_topic" →
  (∀ key, own key ms ≠ None → canonical_field key ≠ Some k) →
  after topic payload now s !! k = s !! k.
Proof.
  intros Hj Ht Hl Hc.
  unfold after, handle.
  destruct (startsWith topic "esp32/") eqn:Hs;
    [| rewrite (on_message_object_flat _ _ _ _ _ Hs Hj); reflexivity].
  rewrite (on_message_object _ _ _ _ _ Hs Hj).
  assert (Hm : within (frame (λ j, j ≠ k)) (map_fields (JObj ms))).
  { apply map_fields_within; [apply _ | ..]; intros; apply assign_frame; intros <-.
    - apply (Hc "temperature"); [eapply get_own; eassumption | reflexivity].
    - apply (Hc "humidity"); [eapply get_own; eassumption | reflexivity].
    - destruct H as [H|H].
      + apply (Hc "gas_mq135"); [eapply get_own; eassumption | reflexivity].
      + apply (Hc "co2_eq_ppm"); [eapply get_own; eassumption | reflexivity].
    - apply (Hc "relay_pin"); [eapply get_own; eassumption | reflexivity].
    - apply (Hc "state"); [eapply get_own; eassumption | reflexivity].
    - apply (Hc "status"); [eapply get_own; eassumption | reflexivity]. }
  specialize (Hm (World s []) k). simpl in Hm.
  destruct (map_fields (JObj ms) (World s [])) as [w1 [[]|]]; simpl in *.
  - rewrite !lookup_insert_ne by done. apply Hm. tauto.
  - apply Hm. tauto.
Qed.

(** The theorem for [{"temperature": 23.5, "humidity": 60}] on
    [esp32/telemetry]: [co2_eq_ppm] keeps its value. *)
Lemma structured_update_frame_witness :
  after "esp32/telemetry" sample_telemetry sample_now latestAirData !! "co2_eq_ppm"
  = latestAirData !! "co2_eq_ppm".
Proof.
  eapply (structured_update_frame "esp32/telemetry" sample_telemetry sample_now
            latestAirData _ "co2_eq_ppm").
  - vm_compute. reflexivity.
  - discriminate.
  - discriminate.
  - intros key. cbn [own].
    destruct (String.eqb "humidity" key) eqn:E1.
    { apply String.eqb_eq in E1 as <-. intros _ H. vm_compute in H. discriminate H. }
    destruct (String.eqb "temperature" key) eqn:E2.
    { apply String.eqb_eq in E2 as <-. intros _ H. vm_compute in H. discriminate H. }
    intros H. destruct H. reflexivity.
Defined.

(* ================================================================== *)
(** ** The two names of the gas reading (C8)                           *)
(* ================================================================== *)

(** The field mapping reads seven keys of the object and nothing else. *)
Lemma map_fields_gas_alias v ms1 ms2 :
  own "gas_mq135" ms1 = Some (JNum v) →
  own "gas_mq135" ms2 = None → own "co2_eq_ppm" ms2 = Some (JNum v) →
  (∀ key, key ∈ other_keys → own key ms1 = own key ms2) →
  map_fields (JObj ms1) = map_fields (JObj ms2).
Proof.
  intros Hg1 Hg2 Hc2 Ho.
  assert (Ht : own "temperature" ms1 = own "temperature" ms2) by (apply Ho; set_solver).
  assert (Hh : own "humidity" ms1 = own "humidity" ms2) by (apply Ho; set_solver).
  assert (Hr : own "relay_pin" ms1 = own "relay_pin" ms2) by (apply Ho; set_solver).
  assert (Hs : own "state" ms1 = own "state" ms2) by (apply Ho; set_solver).
  assert (Hd : own "status" ms1 = own "status" ms2) by (apply Ho; set_solver).
  unfold map_fields, map_temperature, map_humidity, map_gas, map_relay_pin, map_state,
    map_status.
  cbn [get]. rewrite Ht, Hh, Hr, Hs, Hd, Hg1, Hg2, Hc2. reflexivity.
Qed.

(** C8. For every number [v] and every prior record, on any topic, two
    structured updates, one carrying [gas_mq135 = v] and the other
    carrying [co2_eq_ppm = v] (and no [gas_mq135]), that agree on the
    other keys leave the same value in [co2_eq_ppm]. *)
Theorem gas_alias_equivalence (topic p1 p2 now : string) (s : gmap string value)
    (v : number) (ms1 ms2 : list (string * json)) :
  JSON_parse (trim p1) = Normal (JObj ms1) →
  JSON_parse (trim p2) = Normal (JObj ms2) →
  own "gas_mq135" ms1 = Some (JNum v) →
  own "gas_mq135" ms2 = None → own "co2_eq_ppm" ms2 = Some (JNum v) →
  (∀ key, key ∈ other_keys → own key ms1 = own key ms2) →
  after topic p1 now s !! "co2_eq_ppm" = after topic p2 now s !! "co2_eq_ppm".
Proof.
  intros H1 H2 Hg1 Hg2 Hc2 Ho. unfold after, handle.
  destruct (startsWith topic "esp32/") eqn:Hs.
  - rewrite (on_message_object _ _ _ _ _ Hs H1), (on_message_object _ _ _ _ _ Hs H2).
    rewrite (map_fields_gas_alias v ms1 ms2 Hg1 Hg2 Hc2 Ho). reflexivity.
  - rewrite (on_message_object_flat _ _ _ _ _ Hs H1), (on_message_object_flat _ _ _ _ _ Hs H2).
    reflexivity.
Qed.

(** The theorem for [{"gas_mq135":450}] and [{"co2_eq_ppm":450}] on
    [esp32/telemetry]. *)
Lemma gas_alias_equivalence_witness :
  after "esp32/telemetry" (object1 "gas_mq135" "450") sample_now latestAirData !! "co2_eq_ppm"
  = after "esp32/telemetry" (object1 "co2_eq_ppm" "450") sample_now latestAirData
      !! "co2_eq_ppm".
Proof.
  eapply (gas_alias_equivalence "esp32/telemetry" (object1 "gas_mq135" "450")
            (object1 "co2_eq_ppm" "450") sample_now latestAirData).
  - vm_compute. reflexivity.
  - vm_compute. reflexivity.
  - reflexivity.
  - reflexivity.
  - reflexivity.
  - intros key H. unfold other_keys in H.
    repeat (apply elem_of_cons in H as [->|H]; [reflexivity |]).
    apply elem_of_nil in H. destruct H.
Defined.

(** Both payloads do store the number. *)
Lemma gas_alias_value :
  after "esp32/telemetry" (object1 "gas_mq135" "450") sample_now latestAirData !! "co2_eq_ppm"
  = Some (VNum (string_to_number "450"))
  ∧ after "esp32/telemetry" (object1 "co2_eq_ppm" "450") sample_now latestAirData
      !! "co2_eq_ppm"
    = Some (VNum (string_to_number "450")).
Proof. split; vm_compute; reflexivity. Qed.

(* ================================================================== *)
(** ** Relay values the specification does not recognize (C5)          *)
(* ================================================================== *)

Lemma bind_normal {A B} (m : M A) (k : A → M B) w w2 b :
  (m ≫= k) w = (w2, Normal b) → ∃ a w1, m w = (w1, Normal a) ∧ k a w1 = (w2, Normal b).
Proof.
  unfold mbind, M_bind, bind. destruct (m w) as [w1 [a|]]; [eauto | discriminate].
Qed.

Lemma map_state_absent ms : own "state" ms = None → map_state (JObj ms) = ret tt.
Proof. intros H. unfold map_state. cbn [get]. rewrite H. reflexivity. Qed.

Lemma toUpperCase_digit t d :
  toUpperCase t ≠ String d "" → upper_ascii d = d → t ≠ String d "".
Proof. intros H Hd ->. apply H. simpl. rewrite Hd. reflexivity. Qed.

(** An unrecognized string makes the relay block assign 0. *)
Lemma map_relay_pin_string ms t w :
  own "relay_pin" ms = Some (JStr t) → recognized_relay (JStr t) = false →
  map_relay_pin (JObj ms) w = assign "relay_pin" (VNum num_zero) w.
Proof.
  intros Ho Hr. unfold map_relay_pin. cbn [get]. rewrite Ho.
  simpl in Hr. repeat (apply orb_false_iff in Hr as [Hr ?]).
  assert (E1 : String.eqb t "1" = false).
  { apply String.eqb_neq, toUpperCase_digit; [apply String.eqb_neq; assumption | reflexivity]. }
  assert (E0 : String.eqb t "0" = false).
  { apply String.eqb_neq, toUpperCase_digit; [apply String.eqb_neq; assumption | reflexivity]. }
  unfold mbind, M_bind, bind, lift. simpl. rewrite E1, E0, Hr. reflexivity.
Qed.

Lemma relay_pin_untouched topic payload now s ms v :
  startsWith topic "esp32/" = true →
  JSON_parse (trim payload) = Normal (JObj ms) →
  own "relay_pin" ms = Some v → own "state" ms = None →
  recognized_relay v = false → (∀ t, v ≠ JStr t) →
  after topic payload now s !! "relay_pin" = s !! "relay_pin".
Proof.
  intros Hs Hj Ho Hst Hr Hn.
  unfold after, handle. rewrite (on_message_object _ _ _ _ _ Hs Hj).
  assert (Hm : within (frame (λ j, j ≠ "relay_pin")) (map_fields (JObj ms))).
  { apply map_fields_within; [apply _ | ..]; intros.
    - apply assign_frame. discriminate.
    - apply assign_frame. discriminate.
    - apply assign_frame. discriminate.
    - exfalso. cbn [get] in H. rewrite Ho in H. injection H as <-.
      destruct H0 as [H0|[t H0]]; [congruence | exact (Hn t H0)].
    - exfalso. cbn [get] in H. rewrite Hst in H. discriminate.
    - apply assign_frame. discriminate. }
  specialize (Hm (World s []) "relay_pin"). simpl in Hm.
  destruct (map_fields (JObj ms) (World s [])) as [w1 [[]|]]; simpl in *.
  - rewrite !lookup_insert_ne by done. apply Hm. tauto.
  - apply Hm. tauto.
Qed.

Lemma relay_pin_coerced topic payload now s ms t :
  startsWith topic "esp32/" = true →
  JSON_parse (trim payload) = Normal (JObj ms) →
  own "relay_pin" ms = Some (JStr t) → own "state" ms = None →
  recognized_relay (JStr t) = false →
  (map_fields (JObj ms) (World s [])).2 = Normal tt →
  after topic payload now s !! "relay_pin" = Some (VNum num_zero).
Proof.
  intros Hs Hj Ho Hst Hr Hc.
  unfold after, handle. rewrite (on_message_object _ _ _ _ _ Hs Hj).
  destruct (map_fields (JObj ms) (World s [])) as [w6 c] eqn:E. simpl in Hc. subst c.
  rewrite stamp_run. simpl. rewrite !lookup_insert_ne by done.
  unfold map_fields in E.
  apply bind_normal in E as (? & w1 & _ & E).
  apply bind_normal in E as (? & w2 & _ & E).
  apply bind_normal in E as (? & w3 & _ & E).
  apply bind_normal in E as (? & w4 & E4 & E).
  apply bind_normal in E as (? & w5 & E5 & E).
  rewrite (map_relay_pin_string ms t w3 Ho Hr) in E4.
  rewrite (map_state_absent ms Hst) in E5.
  unfold assign in E4. simpl in E4. unfold ret in E5.
  assert (E5' : w5 = w4) by congruence.
  assert (E4' : store w4 !! "relay_pin" = Some (VNum num_zero)).
  { replace w4 with (World (<["relay_pin":=VNum num_zero]> (store w3))
                       ("relay_pin" :: assigned w3)) by congruence.
    apply lookup_insert_eq. }
  subst w5.
  assert (Hm : within (frame (λ j, j = "device_status")) (map_status (JObj ms))).
  { apply map_status_within; [apply _ |]. intros. apply assign_frame. reflexivity. }
  specialize (Hm w4 "relay_pin").
  rewrite E in Hm. simpl in Hm. rewrite Hm by discriminate. exact E4'.
Qed.

(** C5, as the code has it. For a structured update without a [state]
    key whose [relay_pin] value is not a recognized representation: a
    value that is not a string (another number, [null], an array, an
    object) leaves [relay_pin] as it was; a string is not dropped but
    read as OFF, so that [relay_pin] is 0 once the mapping has run to
    its end. *)
Theorem unrecognized_relay_value (topic payload now : string) (s : gmap string value)
    (ms : list (string * json)) (v : json) :
  startsWith topic "esp32/" = true →
  JSON_parse (trim payload) = Normal (JObj ms) →
  own "relay_pin" ms = Some v → own "state" ms = None →
  recognized_relay v = false →
  match v with
  | JStr _ =>
      (map_fields (JObj ms) (World s [])).2 = Normal tt →
      after topic payload now s !! "relay_pin" = Some (VNum num_zero)
  | _ => after topic payload now s !! "relay_pin" = s !! "relay_pin"
  end.
Proof.
  intros Hs Hj Ho Hst Hr.
  destruct v; try (eapply relay_pin_untouched; eauto; discriminate).
  eapply relay_pin_coerced; eauto.
Qed.

(** The theorem for [{"relay_pin":2}] on [esp32/state], after the relay
    was switched on. *)
Lemma unrecognized_relay_value_witness :
  let s := after "esp32/state" (object1 "state" (quoted "ON")) sample_now latestAirData in
  after "esp32/state" (object1 "relay_pin" "2") sample_now s !! "relay_pin"
  = s !! "relay_pin".
Proof.
  eapply (unrecognized_relay_value "esp32/state" (object1 "relay_pin" "2") sample_now
            (after "esp32/state" (object1 "state" (quoted "ON")) sample_now latestAirData)
            _ (JNum (string_to_number "2"))).
  - reflexivity.
  - vm_compute. reflexivity.
  - vm_compute. reflexivity.
  - reflexivity.
  - vm_compute. reflexivity.
Defined.

(** C5 as stated fails for strings: after the relay was switched on,
    [{"relay_pin":"banana"}], whose value is none of the recognized
    representations, sets [relay_pin] to 0. *)
Lemma unrecognized_string_switches_relay_off :
  let s := after "esp32/state" (object1 "state" (quoted "ON")) sample_now latestAirData in
  recognized_relay (JStr "banana") = false
  ∧ s !! "relay_pin" = Some (VNum num_one)
  ∧ after "esp32/state" (object1 "relay_pin" (quoted "banana")) sample_now s !! "relay_pin"
    = Some (VNum num_zero).
Proof. repeat split; vm_compute; reflexivity. Qed.

(* ================================================================== *)
(** ** When the record is stamped (C1)                                 *)
(* ================================================================== *)

#[global] Instance quiet_preorder : PreOrder quiet.
Proof.
  split.
  - intros w. unfold quiet. tauto.
  - intros w1 w2 w3 (A1 & B1 & C1 & D1) (A2 & B2 & C2 & D2). unfold quiet.
    repeat split; [congruence | congruence | auto | auto].
Qed.

Lemma assign_quiet k v :
  k ≠ "timestamp" → k ≠ "last_topic" → within quiet (assign k v).
Proof.
  intros Ht Hl w. unfold assign, quiet.
  destruct (String.eqb k "__proto__"); simpl; [tauto |].
  rewrite !lookup_insert_ne by done.
  repeat split; intros H; apply elem_of_cons in H as [H|H]; congruence.
Qed.

Lemma map_fields_quiet obj : within quiet (map_fields obj).
Proof.
  apply map_fields_within; [apply _ | ..]; intros; apply assign_quiet; discriminate.
Qed.

Lemma quiet_unstamped s w1 : quiet (World s []) w1 → unstamped s (store w1) (assigned w1).
Proof.
  intros (A & B & C & D). simpl in *. unfold unstamped. repeat split; try assumption.
  - intros H. apply C in H. apply elem_of_nil in H. exact H.
  - intros H. apply D in H. apply elem_of_nil in H. exact H.
Qed.

Lemma stamp_stamped topic now w :
  stamped topic now (store (stamp topic now w).1) (assigned (stamp topic now w).1).
Proof.
  rewrite stamp_run. simpl. unfold stamped. repeat split.
  - apply elem_of_cons. left. reflexivity.
  - apply elem_of_cons. right. apply elem_of_cons. left. reflexivity.
  - apply lookup_insert_eq.
  - rewrite lookup_insert_ne by done. apply lookup_insert_eq.
Qed.

Lemma stamped_not_unstamped topic now s s1 l :
  stamped topic now s1 l → unstamped s s1 l → False.
Proof. intros (H & _) (H1 & _). exact (H1 H). Qed.

(** The [try] block either throws, having left [timestamp] and
    [last_topic] alone, or ends with the stamp. *)
Lemma esp32_json_run topic t now w :
  (∃ w1, quiet w w1 ∧ esp32_json topic t now w = (w1, Throw))
  ∨ (∃ w1, esp32_json topic t now w = stamp topic now w1).
Proof.
  unfold esp32_json, mbind, M_bind, bind, lift.
  destruct (JSON_parse t) as [obj|].
  - pose proof (map_fields_quiet obj w) as Hq.
    destruct (map_fields obj w) as [w1 [[]|]]; simpl in Hq; eauto.
  - left. exists w. split; [reflexivity | reflexivity].
Qed.

(** The [catch] block stamps when the payload is a number and does
    nothing otherwise. *)
Lemma esp32_numeric_run topic t now w :
  if isNaN (string_to_number t)
  then esp32_numeric topic t now w = (w, Normal tt)
  else ∃ w1, esp32_numeric topic t now w = stamp topic now w1.
Proof.
  unfold esp32_numeric. destruct (isNaN (string_to_number t)); simpl; [reflexivity |].
  unfold mbind, M_bind, bind.
  repeat match goal with
         | |- context [if ?b then _ else _] => destruct b
         end; eauto.
Qed.

(** C1, as the code has it. For every delivered message, [timestamp]
    and [last_topic] are either both set (to the current time and to the
    topic) or both left as they were. Outside [esp32/] they are set if
    and only if a data field was assigned. On an [esp32/] topic they are
    set if and only if the [try] block ran to its end or the payload is
    a number, whether or not a data field was assigned. *)
Theorem stamp_exactly_when_accepted (topic payload now : string)
    (s : gmap string value) :
  delivered topic = true →
  let s1 := after topic payload now s in
  let l := names_assigned topic payload now s in
  (stamped topic now s1 l ∨ unstamped s s1 l)
  ∧ (stamped topic now s1 l ↔
     if startsWith topic "esp32/"
     then (esp32_json topic (trim payload) now (World s [])).2 = Normal tt
          ∨ isNaN (string_to_number (trim payload)) = false
     else data_written l).
Proof.
  intros Hd s1 l. subst s1 l. unfold after, names_assigned, handle, on_message.
  destruct (startsWith topic "esp32/") eqn:Hs.
  - unfold try_catch.
    destruct (esp32_json_run topic (trim payload) now (World s [])) as [(w1 & Hq & E)|(w1 & E)];
      rewrite E.
    + pose proof (esp32_numeric_run topic (trim payload) now w1) as Hn.
      destruct (isNaN (string_to_number (trim payload))).
      * rewrite Hn. simpl. pose proof (quiet_unstamped s w1 Hq) as Hu.
        split; [right; exact Hu |]. split.
        -- intros H. destruct (stamped_not_unstamped _ _ _ _ _ H Hu).
        -- intros [H|H]; discriminate.
      * destruct Hn as [w2 Hn]. rewrite Hn.
        pose proof (stamp_stamped topic now w2) as H.
        destruct (stamp topic now w2) as [w3 c]. simpl in *. split; [left; exact H |].
        split; [intros _; right; reflexivity | intros _; exact H].
    + pose proof (stamp_stamped topic now w1) as H. rewrite stamp_run in *. simpl in *.
      split; [left; exact H |]. split; [intros _; left; reflexivity | intros _; exact H].
  - assert (Hp : topic ≠ "__proto__") by (apply (delivered_not _ _ Hd); reflexivity).
    assert (Ht : topic ≠ "timestamp") by (apply (delivered_not _ _ Hd); reflexivity).
    assert (Hl : topic ≠ "last_topic") by (apply (delivered_not _ _ Hd); reflexivity).
    destruct (isNaN (string_to_number (trim payload))) eqn:Hn.
    + unfold flat_numeric. rewrite Hn. simpl. split.
      * right. unfold unstamped. repeat split; try reflexivity; apply not_elem_of_nil.
      * split.
        -- intros (H & _). apply elem_of_nil in H. destruct H.
        -- intros (k & H & _). apply elem_of_nil in H. destruct H.
    + rewrite (flat_numeric_run topic (trim payload) now _ Hp Hs Hn).
      pose proof (stamp_stamped topic now
                    (World (<[topic:=VNum (string_to_number (trim payload))]> s) [topic])) as H.
      rewrite stamp_run in H. simpl in *. split; [left; exact H |].
      split; [| intros _; exact H].
      intros _. exists topic. split; [| split; assumption].
      apply elem_of_cons. right. apply elem_of_cons. right. apply elem_of_cons. left.
      reflexivity.
Qed.

(** The theorem for [{"temperature": 23.5, "humidity": 60}] on
    [esp32/telemetry]. *)
Lemma stamp_exactly_when_accepted_witness :
  let s1 := after "esp32/telemetry" sample_telemetry sample_now latestAirData in
  let l := names_assigned "esp32/telemetry" sample_telemetry sample_now latestAirData in
  (stamped "esp32/telemetry" sample_now s1 l ∨ unstamped latestAirData s1 l)
  ∧ (stamped "esp32/telemetry" sample_now s1 l ↔
     if startsWith "esp32/telemetry" "esp32/"
     then (esp32_json "esp32/telemetry" (trim sample_telemetry) sample_now
             (World latestAirData [])).2 = Normal tt
          ∨ isNaN (string_to_number (trim sample_telemetry)) = false
     else data_written l).
Proof.
  apply (stamp_exactly_when_accepted "esp32/telemetry" sample_telemetry sample_now
           latestAirData).
  vm_compute. reflexivity.
Defined.

(** C1 as stated fails: [{}] on [esp32/telemetry] assigns no data field,
    and [timestamp] and [last_topic] are set all the same. *)
Lemma empty_object_is_stamped :
  delivered "esp32/telemetry" = true
  ∧ names_assigned "esp32/telemetry" "{}" sample_now latestAirData
    = ["timestamp"; "last_topic"]
  ∧ after "esp32/telemetry" "{}" sample_now latestAirData !! "timestamp"
    = Some (VStr sample_now)
  ∧ after "esp32/telemetry" "{}" sample_now latestAirData !! "last_topic"
    = Some (VStr "esp32/telemetry").
Proof. repeat split; vm_compute; reflexivity. Qed.

Local Open Scope list_scope.

(* ================================================================== *)
(** ** The handler never reads the record                              *)
(* ================================================================== *)

Lemma written_app l2 l1 (s : gmap string value) :
  written (l2 ++ l1) s = written l2 (written l1 s).
Proof. unfold written. apply foldr_app. Qed.

Lemma written_union l (s : gmap string value) : written l s = list_to_map l ∪ s.
Proof.
  induction l as [|[k v] l IH]; simpl.
  - symmetry. apply (left_id_L ∅ (∪)).
  - rewrite IH. apply insert_union_l.
Qed.

Lemma written_elem l (s : gmap string value) k :
  k ∈ l.*1 → written l s !! k = (list_to_map l : gmap string value) !! k.
Proof.
  intros H. rewrite written_union.
  destruct ((list_to_map l : gmap string value) !! k) as [v|] eqn:E.
  - apply lookup_union_Some_l. exact E.
  - apply not_elem_of_list_to_map in E. destruct (E H).
Qed.

Lemma written_not_elem l (s : gmap string value) k :
  k ∉ l.*1 → written l s !! k = s !! k.
Proof.
  intros H. rewrite written_union. apply lookup_union_r.
  apply not_elem_of_list_to_map. exact H.
Qed.

Lemma written_twice l (s : gmap string value) : written l (written l s) = written l s.
Proof.
  rewrite !written_union, (assoc_L (∪)), (idemp_L (∪)). reflexivity.
Qed.

Lemma oblivious_ret {A} (a : A) : oblivious (ret a).
Proof. exists [], (Normal a). intros [s l]. reflexivity. Qed.

Lemma oblivious_lift {A} (c : completion A) : oblivious (lift c).
Proof. exists [], c. intros [s l]. reflexivity. Qed.

Lemma oblivious_assign k v : oblivious (assign k v).
Proof.
  unfold assign. destruct (String.eqb k "__proto__").
  - exists [], (Normal tt). intros [s l]. reflexivity.
  - exists [(k, v)], (Normal tt). intros w. reflexivity.
Qed.

Lemma oblivious_bind {A B} (m : M A) (k : A → M B) :
  oblivious m → (∀ a, oblivious (k a)) → oblivious (m ≫= k).
Proof.
  intros (l1 & c1 & H1) Hk. unfold mbind, M_bind, bind.
  destruct c1 as [a|].
  - destruct (Hk a) as (l2 & c2 & H2). exists (l2 ++ l1)%list, c2. intros w.
    rewrite H1, H2. simpl. rewrite written_app, fmap_app, <- app_assoc. reflexivity.
  - exists l1, Throw. intros w. rewrite H1. reflexivity.
Qed.

Lemma oblivious_try_catch {A} (body handler : M A) :
  oblivious body → oblivious handler → oblivious (try_catch body handler).
Proof.
  intros (l1 & c1 & H1) (l2 & c2 & H2). unfold try_catch.
  destruct c1 as [a|].
  - exists l1, (Normal a). intros w. rewrite H1. reflexivity.
  - exists (l2 ++ l1)%list, c2. intros w.
    rewrite H1, H2. simpl. rewrite written_app, fmap_app, <- app_assoc. reflexivity.
Qed.

Lemma oblivious_when b m : oblivious m → oblivious (when b m).
Proof. intros H. destruct b; [exact H | apply oblivious_ret]. Qed.

(** Takes a goal [oblivious m] apart along the shape of [m]. *)
Ltac oblivious_walk :=
  repeat first
    [ apply oblivious_ret
    | apply oblivious_lift
    | apply oblivious_assign
    | apply oblivious_when
    | apply oblivious_try_catch
    | apply oblivious_bind; [| intros ?]
    | match goal with
      | |- oblivious (match ?x with _ => _ end) => destruct x
      end ].

Lemma oblivious_on_message topic payload now : oblivious (on_message topic payload now).
Proof.
  unfold on_message, esp32_json, esp32_numeric, flat_numeric, stamp, map_fields,
    map_temperature, map_humidity, map_gas, map_relay_pin, map_state, map_status.
  oblivious_walk.
Qed.

Lemma oblivious_map_fields obj : oblivious (map_fields obj).
Proof.
  unfold map_fields, map_temperature, map_humidity, map_gas, map_relay_pin, map_state,
    map_status.
  oblivious_walk.
Qed.

(** What a message does to a record, read off the handler alone. *)
Lemma handle_written topic payload now :
  ∃ l c, ∀ s, handle topic payload now s = (written l s, l.*1, c).
Proof.
  destruct (oblivious_on_message topic payload now) as (l & c & H).
  exists l, c. intros s. unfold handle. rewrite H. simpl. rewrite app_nil_r. reflexivity.
Qed.

(** X1. The handler never reads [latestAirData] (but to log it): the
    names it assigns, the values it gives them and the way it ends are
    the same on every record. *)
Theorem handler_ignores_the_record (topic payload now : string)
    (s s' : gmap string value) :
  names_assigned topic payload now s = names_assigned topic payload now s'
  ∧ (handle topic payload now s).2 = (handle topic payload now s').2
  ∧ ∀ k, k ∈ names_assigned topic payload now s →
         after topic payload now s !! k = after topic payload now s' !! k.
Proof.
  destruct (handle_written topic payload now) as (l & c & H).
  unfold names_assigned, after. rewrite (H s), (H s'). simpl.
  repeat split. intros k Hk. rewrite !(written_elem _ _ _ Hk). reflexivity.
Qed.

(** X2. A property that is not among the names assigned keeps its value. *)
Theorem unassigned_properties_keep_their_value (topic payload now : string)
    (s : gmap string value) (k : string) :
  k ∉ names_assigned topic payload now s →
  after topic payload now s !! k = s !! k.
Proof.
  destruct (handle_written topic payload now) as (l & c & H).
  unfold names_assigned, after. rewrite (H s). simpl. apply written_not_elem.
Qed.

Lemma unassigned_properties_witness :
  after "esp32/telemetry" sample_telemetry sample_now latestAirData !! "co2_eq_ppm"
  = latestAirData !! "co2_eq_ppm".
Proof.
  apply (unassigned_properties_keep_their_value "esp32/telemetry" sample_telemetry
           sample_now latestAirData "co2_eq_ppm").
  vm_compute. intros H.
  repeat (apply elem_of_cons in H as [H|H]; [discriminate H |]).
  apply elem_of_nil in H. exact H.
Defined.

(** *** The shape of every message

    What a message does is a list of data assignments that does not
    depend on the time, followed or not by the stamp. *)

Lemma writer_assign k v :
  ∃ l, ∀ w, assign k v w = (World (written l (store w)) (l.*1 ++ assigned w)%list, Normal tt).
Proof.
  unfold assign. destruct (String.eqb k "__proto__").
  - exists []. intros [s l]. reflexivity.
  - exists [(k, v)]. intros w. reflexivity.
Qed.

Lemma writer_ret :
  ∃ l, ∀ w, ret tt w = (World (written l (store w)) (l.*1 ++ assigned w)%list, Normal tt).
Proof. exists []. intros [s l]. reflexivity. Qed.

Lemma stamp_after (pre : M unit) l1 l topic :
  (∀ w, pre w = (World (written l (store w)) (l.*1 ++ assigned w)%list, Normal tt)) →
  ∀ now w,
    (pre ;; stamp topic now) (World (written l1 (store w)) (l1.*1 ++ assigned w)%list)
    = (World (written (stamping true topic now ++ l ++ l1) (store w))
         ((stamping true topic now ++ l ++ l1).*1 ++ assigned w)%list, Normal tt).
Proof.
  intros H now w. unfold mbind, M_bind, bind. rewrite H, stamp_run. simpl.
  rewrite written_app, !fmap_app, <- !app_assoc. reflexivity.
Qed.

Lemma handle_shape topic payload :
  ∃ l b, ∀ now s,
    handle topic payload now s
    = (written (stamping b topic now ++ l) s, (stamping b topic now ++ l).*1, Normal tt).
Proof.
  assert (Hpre : ∀ (pre : M unit) l1 l,
    (∀ w, pre w = (World (written l (store w)) (l.*1 ++ assigned w)%list, Normal tt)) →
    ∀ now s, (let '(w, c) := (pre ;; stamp topic now) (World (written l1 s) (l1.*1 ++ [])%list)
              in (store w, assigned w, c))
             = (written (stamping true topic now ++ l ++ l1) s,
                (stamping true topic now ++ l ++ l1).*1, Normal tt)).
  { intros pre l1 l H now s.
    pose proof (stamp_after pre l1 l topic H now (World s [])) as E. simpl in E.
    rewrite E. simpl. rewrite app_nil_r. reflexivity. }
  assert (Hnum : ∀ l1, ∃ l b, ∀ now s,
    (let '(w, c) := esp32_numeric topic (trim payload) now
                      (World (written l1 s) (l1.*1 ++ [])%list)
     in (store w, assigned w, c))
    = (written (stamping b topic now ++ l) s, (stamping b topic now ++ l).*1, Normal tt)).
  { intros l1. unfold esp32_numeric.
    destruct (negb (isNaN (string_to_number (trim payload)))).
    - assert (∃ l, ∀ w,
        (if String.eqb topic "esp32/temperature"
         then assign "temperature" (VNum (string_to_number (trim payload)))
         else if String.eqb topic "esp32/humidity"
         then assign "humidity" (VNum (string_to_number (trim payload)))
         else if String.eqb topic "esp32/co2"
         then assign "co2_eq_ppm" (VNum (string_to_number (trim payload)))
         else ret tt) w
        = (World (written l (store w)) (l.*1 ++ assigned w)%list, Normal tt)) as [l Hl].
      { repeat match goal with
               | |- context [if ?b then _ else _] => destruct b
               end; first [apply writer_assign | apply writer_ret]. }
      exists (l ++ l1)%list, true. intros now s. apply (Hpre _ l1 l Hl).
    - exists l1, false. intros now s. simpl. rewrite app_nil_r. reflexivity. }
  unfold handle, on_message. destruct (startsWith topic "esp32/").
  - unfold try_catch, esp32_json. unfold mbind at 1, M_bind at 1, bind at 1, lift.
    destruct (JSON_parse (trim payload)) as [obj|].
    + destruct (oblivious_map_fields obj) as (l1 & c1 & H1).
      destruct c1 as [[]|].
      * exists l1, true. intros now s.
        pose proof (Hpre (map_fields obj) [] l1 H1 now s) as H. simpl in H.
        rewrite app_nil_r in H.
        destruct ((map_fields obj ;; stamp topic now) (World s [])) as [w [[]|]] eqn:E;
          simpl in *; [exact H | ].
        destruct (stamp topic now w) in H; discriminate H.
      * destruct (Hnum l1) as (l & b & H). exists l, b. intros now s.
        unfold mbind, M_bind, bind. rewrite H1. simpl. apply H.
    + destruct (Hnum []) as (l & b & H). exists l, b. intros now s. apply (H now s).
  - unfold flat_numeric.
    destruct (negb (isNaN (string_to_number (trim payload)))).
    + assert (∃ l, ∀ w,
        (if String.eqb topic TOPIC_TEMP
         then assign "temperature" (VNum (string_to_number (trim payload)))
         else if String.eqb topic TOPIC_HUM
         then assign "humidity" (VNum (string_to_number (trim payload)))
         else if String.eqb topic TOPIC_CO2
         then assign "co2_eq_ppm" (VNum (string_to_number (trim payload)))
         else assign topic (VNum (string_to_number (trim payload)))) w
        = (World (written l (store w)) (l.*1 ++ assigned w)%list, Normal tt)) as [l Hl].
      { repeat match goal with
               | |- context [if ?b then _ else _] => destruct b
               end; apply writer_assign. }
      exists l, true. intros now s.
      pose proof (Hpre _ [] l Hl now s) as H. simpl in H. rewrite app_nil_r in H. exact H.
    + exists [], false. intros now s. reflexivity.
Qed.

Lemma stamping_names b topic now now' :
  (stamping b topic now).*1 = (stamping b topic now').*1.
Proof. destruct b; reflexivity. Qed.

(** X3. A message delivered again at a later time leaves the record that
    the later delivery alone leaves; handled twice at one time it
    leaves what handling it once leaves. *)
Theorem redelivery_is_absorbed (topic payload now now' : string)
    (s : gmap string value) :
  after topic payload now' (after topic payload now s) = after topic payload now' s.
Proof.
  destruct (handle_shape topic payload) as (l & b & H).
  unfold after. rewrite !H. simpl. apply map_eq. intros k.
  destruct (decide (k ∈ (stamping b topic now' ++ l).*1)) as [Hk|Hk].
  - rewrite !(written_elem _ _ _ Hk). reflexivity.
  - rewrite !(written_not_elem _ _ _ Hk). apply written_not_elem.
    rewrite fmap_app, (stamping_names b topic now now'), <- fmap_app. exact Hk.
Qed.

(* ================================================================== *)
(** ** What the reachable records hold                                 *)
(* ================================================================== *)

Section Checked.
Context (R : world → world → Prop) `{!PreOrder R}.

Lemma within_when_true (b : bool) (m : M unit) :
  (b = true → within R m) → within R (when b m).
Proof.
  intros H. destruct b; simpl; [apply H; reflexivity | apply within_ret; assumption].
Qed.

(** When every assignment the handler can make, under the check that
    guards it, stays inside [R], so does the handler. *)
Lemma on_message_within_checked topic payload now :
  (∀ k v, checked_assigns topic now k v → within R (assign k v)) →
  within R (on_message topic payload now).
Proof.
  intros H.
  unfold on_message, esp32_json, esp32_numeric, flat_numeric, stamp, map_fields,
    map_temperature, map_humidity, map_gas, map_relay_pin, map_state, map_status.
  destruct (startsWith topic "esp32/") eqn:Ep.
  - repeat first
      [ apply within_ret; assumption
      | apply within_try_catch; [assumption | |]
      | apply within_lift_bind; [assumption | intros ? ?]
      | apply within_bind; [assumption | | intros _]
      | apply within_when_true; [intros ?]
      | match goal with
        | |- within _ (match ?x with _ => _ end) => destruct x eqn:?
        end ];
      apply H;
      repeat match goal with
             | E : negb _ = true |- _ => apply negb_true_iff in E
             | |- context [if ?b then num_one else num_zero] => destruct b
             end;
      constructor; assumption.
  - destruct (negb _) eqn:En; [| apply within_ret; assumption].
    apply negb_true_iff in En.
    apply within_bind; [assumption | | intros _].
    + repeat match goal with
             | |- within _ (if ?b then _ else _) => destruct b
             end; apply H; constructor; assumption.
    + apply within_bind; [assumption | | intros _]; apply H; constructor.
Qed.

End Checked.

Lemma checked_value topic now k v :
  checked_assigns topic now k v → v ≠ VNull.
Proof. intros []; discriminate. Qed.

Lemma assign_reading_ok f k v :
  (k = f → ∃ x, v = VNum x ∧ isNaN x = false) → within (keeps (reading_ok f)) (assign k v).
Proof.
  intros Hkv w. unfold keeps, assign, reading_ok.
  destruct (String.eqb k "__proto__"); simpl; [tauto |].
  destruct (decide (k = f)) as [->|Hne].
  - intros _. destruct (Hkv eq_refl) as (x & -> & Hx). right. exists x.
    rewrite lookup_insert_eq. auto.
  - rewrite lookup_insert_ne by done. tauto.
Qed.

Lemma assign_text_ok f k v :
  (k = f → ∃ t, v = VStr t) → within (keeps (text_ok f)) (assign k v).
Proof.
  intros Hkv w. unfold keeps, assign, text_ok.
  destruct (String.eqb k "__proto__"); simpl; [tauto |].
  destruct (decide (k = f)) as [->|Hne].
  - intros _. destruct (Hkv eq_refl) as (t & ->). right. exists t.
    apply lookup_insert_eq.
  - rewrite lookup_insert_ne by done. tauto.
Qed.

Lemma reading_ok_step f topic payload now s :
  f ∈ ["temperature"; "humidity"; "co2_eq_ppm"] → topic ≠ f →
  reading_ok f s → reading_ok f (after topic payload now s).
Proof.
  intros Hf Ht. apply step_keeps.
  apply on_message_within_checked; [apply _ |].
  intros k v Hkv. apply assign_reading_ok. intros ->.
  destruct Hkv; eauto;
    repeat (apply elem_of_cons in Hf as [Hf|Hf]; [discriminate Hf |]);
    apply elem_of_nil in Hf; destruct Hf.
Qed.

Lemma text_ok_step topic payload now s :
  topic ≠ "device_status" →
  text_ok "device_status" s → text_ok "device_status" (after topic payload now s).
Proof.
  intros Ht. apply step_keeps.
  apply on_message_within_checked; [apply _ |].
  intros k v Hkv. apply assign_text_ok. intros ->.
  inversion Hkv; subst; eauto. congruence.
Qed.

Lemma reading_ok_reachable f s :
  f ∈ ["temperature"; "humidity"; "co2_eq_ppm"] → reachable s → reading_ok f s.
Proof.
  intros Hf. induction 1 as [| s topic payload now Hr IH Hd].
  - repeat (apply elem_of_cons in Hf as [->|Hf]; [left; reflexivity |]).
    apply elem_of_nil in Hf. destruct Hf.
  - apply reading_ok_step; [exact Hf | | exact IH].
    apply (delivered_not _ _ Hd).
    repeat (apply elem_of_cons in Hf as [->|Hf]; [reflexivity |]).
    apply elem_of_nil in Hf. destruct Hf.
Qed.

Lemma text_ok_reachable s : reachable s → text_ok "device_status" s.
Proof.
  induction 1 as [| s topic payload now Hr IH Hd].
  - left. reflexivity.
  - apply text_ok_step; [| exact IH]. apply (delivered_not _ _ Hd). reflexivity.
Qed.

(** X4. In every reachable record the three readings are [null] or numbers
    other than [NaN], and [device_status] is [null] or text. *)
Theorem readings_are_numbers (s : gmap string value) :
  reachable s →
  reading_ok "temperature" s ∧ reading_ok "humidity" s ∧ reading_ok "co2_eq_ppm" s
  ∧ text_ok "device_status" s.
Proof.
  intros Hr. repeat split;
    [apply reading_ok_reachable; [set_solver | exact Hr] ..
    | apply text_ok_reachable, Hr].
Qed.

Lemma readings_are_numbers_witness :
  let s := after "esp32/telemetry" sample_telemetry sample_now latestAirData in
  reading_ok "temperature" s ∧ reading_ok "humidity" s ∧ reading_ok "co2_eq_ppm" s
  ∧ text_ok "device_status" s.
Proof.
  apply (readings_are_numbers
           (after "esp32/telemetry" sample_telemetry sample_now latestAirData)).
  apply reach_message; [apply reach_init | vm_compute; reflexivity].
Defined.

(* ================================================================== *)
(** ** The stamp and the values, over the reachable records            *)
(* ================================================================== *)

Lemma stamped_or_unstamped topic payload now s :
  delivered topic = true →
  stamped topic now (after topic payload now s) (names_assigned topic payload now s)
  ∨ unstamped s (after topic payload now s) (names_assigned topic payload now s).
Proof.
  intros Hd. unfold after, names_assigned, handle, on_message.
  destruct (startsWith topic "esp32/") eqn:Hs.
  - unfold try_catch.
    destruct (esp32_json_run topic (trim payload) now (World s [])) as [(w1 & Hq & E)|(w1 & E)];
      rewrite E.
    + pose proof (esp32_numeric_run topic (trim payload) now w1) as Hn.
      destruct (isNaN (string_to_number (trim payload))).
      * rewrite Hn. simpl. right. apply quiet_unstamped, Hq.
      * destruct Hn as [w2 Hn]. rewrite Hn.
        pose proof (stamp_stamped topic now w2) as H.
        destruct (stamp topic now w2) as [w3 c]. left. exact H.
    + pose proof (stamp_stamped topic now w1) as H. rewrite stamp_run in *. simpl in *.
      left. exact H.
  - assert (Hp : topic ≠ "__proto__") by (apply (delivered_not _ _ Hd); reflexivity).
    destruct (isNaN (string_to_number (trim payload))) eqn:Hn.
    + unfold flat_numeric. rewrite Hn. simpl. right.
      unfold unstamped. repeat split; try reflexivity; apply not_elem_of_nil.
    + rewrite (flat_numeric_run topic (trim payload) now _ Hp Hs Hn).
      pose proof (stamp_stamped topic now
                    (World (<[topic:=VNum (string_to_number (trim payload))]> s) [topic])) as H.
      rewrite stamp_run in H. left. exact H.
Qed.

(** X5. In every reachable record [timestamp] and [last_topic] are both
    [null], or both text, [last_topic] being a topic the subscriptions
    deliver. *)
Theorem stamp_fields_go_together (s : gmap string value) :
  reachable s →
  (s !! "timestamp" = Some VNull ∧ s !! "last_topic" = Some VNull)
  ∨ ∃ now topic, s !! "timestamp" = Some (VStr now) ∧ s !! "last_topic" = Some (VStr topic)
                 ∧ delivered topic = true.
Proof.
  induction 1 as [| s topic payload now Hr IH Hd].
  - left. split; reflexivity.
  - destruct (stamped_or_unstamped topic payload now s Hd) as [(_ & _ & Ht & Hl)|(_ & _ & Ht & Hl)].
    + right. exists now, topic. auto.
    + rewrite Ht, Hl. exact IH.
Qed.

Lemma stamp_fields_go_together_witness :
  let s := after "esp32/telemetry" sample_telemetry sample_now latestAirData in
  (s !! "timestamp" = Some VNull ∧ s !! "last_topic" = Some VNull)
  ∨ ∃ now topic, s !! "timestamp" = Some (VStr now) ∧ s !! "last_topic" = Some (VStr topic)
                 ∧ delivered topic = true.
Proof.
  apply (stamp_fields_go_together
           (after "esp32/telemetry" sample_telemetry sample_now latestAirData)).
  apply reach_message; [apply reach_init | vm_compute; reflexivity].
Defined.

Lemma assign_holds_value f k v :
  v ≠ VNull → within (keeps (holds_value f)) (assign k v).
Proof.
  intros Hv w. unfold keeps, assign, holds_value.
  destruct (String.eqb k "__proto__"); simpl; [tauto |].
  destruct (decide (k = f)) as [->|Hne].
  - intros _. exists v. rewrite lookup_insert_eq. auto.
  - rewrite lookup_insert_ne by done. tauto.
Qed.

(** X6. No message, on any topic, takes a value away: a property that holds
    a number or text holds one after the message too. *)
Theorem values_are_never_reset (topic payload now k : string) (s : gmap string value) :
  holds_value k s → holds_value k (after topic payload now s).
Proof.
  apply step_keeps. apply on_message_within_checked; [apply _ |].
  intros k' v Hkv. apply assign_holds_value. eapply checked_value, Hkv.
Qed.

Lemma values_are_never_reset_witness :
  holds_value "temperature"
    (after "esp32/state" "{}" sample_now
       (after "esp32/telemetry" sample_telemetry sample_now latestAirData)).
Proof.
  apply (values_are_never_reset "esp32/state" "{}" sample_now "temperature").
  eexists. split; [vm_compute; reflexivity | discriminate].
Defined.

(* ================================================================== *)
(** ** Payloads that carry no key                                      *)
(* ================================================================== *)

(** X7. On an [esp32/] topic, a payload that is JSON but neither an object
    nor [null] (a number, a string, a boolean, an array) has none of the
    keys: nothing but the stamp is written, also on [esp32/temperature]
    and the like. *)
Theorem keyless_payload_only_stamps (topic payload now : string) (v : json)
    (s : gmap string value) :
  startsWith topic "esp32/" = true →
  JSON_parse (trim payload) = Normal v → keyless v = true →
  handle topic payload now s
  = (<["timestamp" := VStr now]> (<["last_topic" := VStr topic]> s),
     ["timestamp"; "last_topic"], Normal tt).
Proof.
  intros Hs Hj Hk. unfold handle, on_message. rewrite Hs.
  unfold try_catch, esp32_json, mbind, M_bind, bind, lift. rewrite Hj.
  destruct v; try discriminate Hk; reflexivity.
Qed.

Lemma keyless_payload_witness :
  handle "esp32/temperature" "23.5" sample_now latestAirData
  = (<["timestamp" := VStr sample_now]> (<["last_topic" := VStr "esp32/temperature"]> latestAirData),
     ["timestamp"; "last_topic"], Normal tt).
Proof.
  apply (keyless_payload_only_stamps "esp32/temperature" "23.5" sample_now
           (JNum (string_to_number "23.5")) latestAirData);
    vm_compute; reflexivity.
Defined.

Lemma parse_members_object f s acc v r :
  parse_members f s acc = Parsed v r → ∃ ms, v = JObj ms.
Proof.
  revert s acc. induction f as [|f IH]; intros s acc; simpl; [discriminate |].
  destruct (skip_ws s) as [|q r0]; [discriminate |].
  destruct (code q =? 34); [| discriminate].
  destruct (scan_string r0) as [[k r1]|]; [| discriminate].
  destruct (skip_ws r1) as [|c1 r2]; [discriminate |].
  destruct (code c1 =? 58); [| discriminate].
  destruct (parse_value f r2) as [v0 r3| |]; try discriminate.
  destruct (skip_ws r3) as [|c r4]; [discriminate |].
  destruct (code c =? 44); [apply IH |].
  destruct (code c =? 125); [| discriminate].
  intros [= <- _]. eauto.
Qed.

Lemma scalar_null s r : scalar s = Parsed JNull r → ∃ r0, s = String "n" r0.
Proof.
  unfold scalar.
  destruct (strip_prefix "true" s); [discriminate |].
  destruct (strip_prefix "false" s); [discriminate |].
  destruct (strip_prefix "null" s) eqn:E.
  - intros _. destruct s as [|c r0]; cbn [strip_prefix] in E; [discriminate E |].
    revert E. destruct (Ascii.eqb_spec "n" c) as [<-|?]; [eauto | discriminate].
  - destruct (scan_number s) as [[x r0]|]; discriminate.
Qed.

Lemma parse_value_null f s r :
  parse_value f s = Parsed JNull r → ∃ r0, skip_ws s = String "n" r0.
Proof.
  destruct f as [|f]; simpl; [discriminate |].
  destruct (skip_ws s) as [|c r0]; [discriminate |].
  destruct (code c =? 34).
  { destruct (scan_string r0) as [[t r1]|]; discriminate. }
  destruct (code c =? 91).
  { destruct (skip_ws r0) as [|c1 r1]; [discriminate |].
    destruct (code c1 =? 93); [discriminate |].
    intros H. apply parse_elements_array in H as [xs H]. discriminate. }
  destruct (code c =? 123).
  { destruct (skip_ws r0) as [|c1 r1]; [discriminate |].
    destruct (code c1 =? 125); [discriminate |].
    intros H. apply parse_members_object in H as [ms H]. discriminate. }
  intros H. apply scalar_null in H as [r1 [= -> ->]]. eauto.
Qed.

Lemma skip_ws_n s r : skip_ws s = String "n" r → trim_from false s = String "n" r.
Proof.
  induction s as [|a s IH]; simpl skip_ws; [discriminate |].
  destruct (json_ws a) eqn:E.
  - intros H. cbn [trim_from]. rewrite (json_ws_ws1 a E). apply IH, H.
  - intros [= -> ->]. destruct r as [|b [|c r]]; reflexivity.
Qed.

Lemma null_not_numeric t :
  JSON_parse t = Normal JNull → isNaN (string_to_number t) = true.
Proof.
  unfold JSON_parse. intros H.
  destruct (parse_value (parse_fuel t) t) as [v r| |] eqn:E; try discriminate.
  destruct (String.eqb (skip_ws r) ""); [| discriminate].
  injection H as ->. apply parse_value_null in E as [r0 E].
  apply skip_ws_n in E. unfold string_to_number. rewrite E. reflexivity.
Qed.

(** X8. A payload that is the JSON [null] changes nothing, on any topic:
    reading the first key of [null] throws, and the text is no number. *)
Theorem null_payload_changes_nothing (topic payload now : string)
    (s : gmap string value) :
  JSON_parse (trim payload) = Normal JNull →
  handle topic payload now s = (s, [], Normal tt).
Proof.
  intros Hj. pose proof (null_not_numeric _ Hj) as Hn.
  unfold handle, on_message. destruct (startsWith topic "esp32/").
  - unfold try_catch, esp32_json, esp32_numeric, mbind, M_bind, bind, lift.
    rewrite Hj, Hn. reflexivity.
  - unfold flat_numeric. rewrite Hn. reflexivity.
Qed.

Lemma null_payload_witness :
  handle "esp32/telemetry" " null " sample_now latestAirData = (latestAirData, [], Normal tt).
Proof.
  apply (null_payload_changes_nothing "esp32/telemetry" " null " sample_now latestAirData).
  vm_compute. reflexivity.
Defined.

(* ================================================================== *)
(** ** Payloads that are no JSON                                       *)
(* ================================================================== *)

(** X9. On an [esp32/] topic, a payload that is no JSON but reads as a
    number is taken by the [catch] block: the number goes to the field
    of the topic, if the topic is one of the three the block knows, and
    the record is stamped. *)
Theorem numeric_fallback (topic payload now : string) (s : gmap string value) :
  startsWith topic "esp32/" = true →
  JSON_parse (trim payload) = Throw →
  isNaN (string_to_number (trim payload)) = false →
  handle topic payload now s
  = (<["timestamp" := VStr now]>
       (<["last_topic" := VStr topic]>
          (match fallback_field topic with
           | Some f => <[f := VNum (string_to_number (trim payload))]> s
           | None => s
           end)),
     "timestamp" :: "last_topic"
       :: match fallback_field topic with Some f => [f] | None => [] end,
     Normal tt).
Proof.
  intros Hs Hj Hn. unfold handle, on_message. rewrite Hs.
  unfold try_catch, esp32_json, esp32_numeric, mbind, M_bind, bind, lift.
  rewrite Hj, Hn. unfold fallback_field. simpl negb. cbv iota.
  repeat match goal with
         | |- context [String.eqb topic ?c] => destruct (String.eqb topic c)
         end; reflexivity.
Qed.

Lemma numeric_fallback_witness :
  handle "esp32/temperature" "+23.5" sample_now latestAirData
  = (<["timestamp" := VStr sample_now]>
       (<["last_topic" := VStr "esp32/temperature"]>
          (<["temperature" := VNum (string_to_number "+23.5")]> latestAirData)),
     ["timestamp"; "last_topic"; "temperature"], Normal tt).
Proof.
  apply (numeric_fallback "esp32/temperature" "+23.5" sample_now latestAirData);
    vm_compute; reflexivity.
Defined.

(** X10. A payload of white space only is read as the number 0, not
    rejected: the record is stamped, and 0 goes where a number on that
    topic goes. *)
Theorem blank_payload_reads_zero (topic payload now : string) (s : gmap string value) :
  trim payload = "" → topic ∉ reserved →
  after topic payload now s !! "timestamp" = Some (VStr now)
  ∧ match numeric_target topic with
    | Some f => after topic payload now s !! f = Some (VNum num_zero)
    | None => True
    end.
Proof.
  intros Hb Hr. unfold after, numeric_target.
  assert (Hp : topic ≠ "__proto__") by set_solver.
  assert (Ht : topic ≠ "timestamp") by set_solver.
  assert (Hl : topic ≠ "last_topic") by set_solver.
  destruct (startsWith topic "esp32/") eqn:Hs.
  - unfold handle, on_message. rewrite Hs, Hb.
    unfold try_catch, esp32_json, esp32_numeric, mbind, M_bind, bind, lift.
    change (JSON_parse "") with (@Throw json).
    change (string_to_number "") with num_zero. simpl negb. cbv iota.
    unfold fallback_field.
    repeat match goal with
           | |- context [String.eqb topic ?c] => destruct (String.eqb topic c)
           end;
      simpl; (split; [apply lookup_insert_eq |]); try exact I;
      rewrite !lookup_insert_ne by done; apply lookup_insert_eq.
  - unfold handle, on_message. rewrite Hs, Hb.
    rewrite (flat_numeric_run topic "" now _ Hp Hs eq_refl). simpl.
    split; [apply lookup_insert_eq |].
    rewrite !lookup_insert_ne by done. apply lookup_insert_eq.
Qed.

Lemma blank_payload_witness :
  after "esp32/humidity" "  " sample_now latestAirData !! "timestamp" = Some (VStr sample_now)
  ∧ match numeric_target "esp32/humidity" with
    | Some f => after "esp32/humidity" "  " sample_now latestAirData !! f
                = Some (VNum num_zero)
    | None => True
    end.
Proof.
  apply (blank_payload_reads_zero "esp32/humidity" "  " sample_now latestAirData).
  - vm_compute. reflexivity.
  - unfold reserved. intros H.
    repeat (apply elem_of_cons in H as [H|H]; [discriminate H |]).
    apply elem_of_nil in H. exact H.
Defined.

(* ================================================================== *)
(** ** What a structured update writes                                 *)
(* ================================================================== *)

Lemma map_temperature_lookup ms w k :
  store (map_temperature (JObj ms) w).1 !! k
  = if decide (k = "temperature")
    then updated (reading true (own "temperature" ms)) (store w !! k)
    else store w !! k.
Proof.
  unfold map_temperature, reading, mbind, M_bind, bind, lift, when. simpl.
  destruct (own "temperature" ms) as [v|]; simpl; [| case_decide; reflexivity].
  destruct (is_null v); simpl; [case_decide; reflexivity |].
  destruct (to_number v) as [x|]; simpl; [| case_decide; reflexivity].
  destruct (isNaN x); simpl; [case_decide; reflexivity |].
  case_decide; subst; [apply lookup_insert_eq | apply lookup_insert_ne; done].
Qed.

Lemma map_humidity_lookup ms w k :
  store (map_humidity (JObj ms) w).1 !! k
  = if decide (k = "humidity")
    then updated (reading true (own "humidity" ms)) (store w !! k)
    else store w !! k.
Proof.
  unfold map_humidity, reading, mbind, M_bind, bind, lift, when. simpl.
  destruct (own "humidity" ms) as [v|]; simpl; [| case_decide; reflexivity].
  destruct (is_null v); simpl; [case_decide; reflexivity |].
  destruct (to_number v) as [x|]; simpl; [| case_decide; reflexivity].
  destruct (isNaN x); simpl; [case_decide; reflexivity |].
  case_decide; subst; [apply lookup_insert_eq | apply lookup_insert_ne; done].
Qed.

Lemma map_gas_lookup ms w k :
  store (map_gas (JObj ms) w).1 !! k
  = if decide (k = "co2_eq_ppm")
    then updated (gas_reading ms) (store w !! k)
    else store w !! k.
Proof.
  unfold map_gas, gas_reading, reading, mbind, M_bind, bind, lift, when. simpl.
  destruct (own "gas_mq135" ms) as [v|]; simpl.
  - destruct (to_number v) as [x|]; simpl; [| case_decide; reflexivity].
    destruct (isNaN x); simpl; [case_decide; reflexivity |].
    case_decide; subst; [apply lookup_insert_eq | apply lookup_insert_ne; done].
  - destruct (own "co2_eq_ppm" ms) as [v|]; simpl; [| case_decide; reflexivity].
    destruct (to_number v) as [x|]; simpl; [| case_decide; reflexivity].
    destruct (isNaN x); simpl; [case_decide; reflexivity |].
    case_decide; subst; [apply lookup_insert_eq | apply lookup_insert_ne; done].
Qed.

Lemma map_relay_pin_lookup ms w k :
  store (map_relay_pin (JObj ms) w).1 !! k
  = if decide (k = "relay_pin")
    then updated (own "relay_pin" ms ≫= relay_reading) (store w !! k)
    else store w !! k.
Proof.
  unfold map_relay_pin, mbind at 1, M_bind, bind, lift. simpl.
  destruct (own "relay_pin" ms) as [v|]; simpl; [| case_decide; reflexivity].
  destruct v as [|b|x|t|xs|ms']; simpl; rewrite ?orb_false_r.
  - case_decide; reflexivity.
  - destruct b; simpl;
      (case_decide; subst; [apply lookup_insert_eq | apply lookup_insert_ne; done]).
  - destruct (num_eq x num_one) eqn:E1; simpl.
    + case_decide; subst; [apply lookup_insert_eq | apply lookup_insert_ne; done].
    + destruct (num_eq x num_zero); simpl;
        case_decide; subst;
        first [apply lookup_insert_eq | apply lookup_insert_ne; done | reflexivity].
  - destruct (String.eqb t "1") eqn:E1; simpl.
    + case_decide; subst; [apply lookup_insert_eq | apply lookup_insert_ne; done].
    + destruct (String.eqb t "0") eqn:E0; simpl.
      * apply String.eqb_eq in E0. subst t.
        case_decide; subst; [apply lookup_insert_eq | apply lookup_insert_ne; done].
      * case_decide; subst; [apply lookup_insert_eq | apply lookup_insert_ne; done].
  - case_decide; reflexivity.
  - case_decide; reflexivity.
Qed.

Lemma map_state_lookup ms w w1 k :
  map_state (JObj ms) w = (w1, Normal tt) →
  store w1 !! k
  = if decide (k = "relay_pin")
    then match own "state" ms with
         | Some v => match to_string v with
                     | Normal t => Some (VNum (on_off t))
                     | Throw => store w !! k
                     end
         | None => store w !! k
         end
    else store w !! k.
Proof.
  unfold map_state, on_off, mbind, M_bind, bind, lift. simpl.
  destruct (own "state" ms) as [v|]; simpl.
  - destruct (to_string v) as [t|]; simpl; [| discriminate].
    intros [= <-]. simpl.
    case_decide; subst; [apply lookup_insert_eq | apply lookup_insert_ne; done].
  - intros [= <-]. case_decide; reflexivity.
Qed.

Lemma map_status_lookup ms w w1 k :
  map_status (JObj ms) w = (w1, Normal tt) →
  store w1 !! k
  = if decide (k = "device_status")
    then match own "status" ms with
         | Some v => match to_string v with
                     | Normal t => Some (VStr t)
                     | Throw => store w !! k
                     end
         | None => store w !! k
         end
    else store w !! k.
Proof.
  unfold map_status, mbind, M_bind, bind, lift. simpl.
  destruct (own "status" ms) as [v|]; simpl.
  - destruct (to_string v) as [t|]; simpl; [| discriminate].
    intros [= <-]. simpl.
    case_decide; subst; [apply lookup_insert_eq | apply lookup_insert_ne; done].
  - intros [= <-]. case_decide; reflexivity.
Qed.

(** A mapping that runs to its end ran each of its six blocks to its
    end. *)
Lemma map_fields_blocks ms w w6 :
  map_fields (JObj ms) w = (w6, Normal tt) →
  ∃ w1 w2 w3 w4 w5,
    map_temperature (JObj ms) w = (w1, Normal tt)
    ∧ map_humidity (JObj ms) w1 = (w2, Normal tt)
    ∧ map_gas (JObj ms) w2 = (w3, Normal tt)
    ∧ map_relay_pin (JObj ms) w3 = (w4, Normal tt)
    ∧ map_state (JObj ms) w4 = (w5, Normal tt)
    ∧ map_status (JObj ms) w5 = (w6, Normal tt).
Proof.
  unfold map_fields. intros H.
  apply bind_normal in H as ([] & w1 & E1 & H).
  apply bind_normal in H as ([] & w2 & E2 & H).
  apply bind_normal in H as ([] & w3 & E3 & H).
  apply bind_normal in H as ([] & w4 & E4 & H).
  apply bind_normal in H as ([] & w5 & E5 & H).
  exists w1, w2, w3, w4, w5. auto 10.
Qed.

(** The record after a structured update whose mapping ran to its end:
    outside the stamp, the record the mapping left. *)
Lemma after_mapping topic payload now ms s :
  startsWith topic "esp32/" = true →
  JSON_parse (trim payload) = Normal (JObj ms) →
  (map_fields (JObj ms) (World s [])).2 = Normal tt →
  ∃ w6, map_fields (JObj ms) (World s []) = (w6, Normal tt)
        ∧ ∀ k, k ≠ "timestamp" → k ≠ "last_topic" →
               after topic payload now s !! k = store w6 !! k.
Proof.
  intros Hs Hj Hc. unfold after, handle. rewrite (on_message_object _ _ _ _ _ Hs Hj).
  destruct (map_fields (JObj ms) (World s [])) as [w6 c]. simpl in Hc. subst c.
  exists w6. split; [reflexivity |]. intros k Ht Hl. rewrite stamp_run. simpl.
  rewrite !lookup_insert_ne by done. reflexivity.
Qed.

Ltac through E L :=
  let H := fresh in
  pose proof L as H; rewrite E in H; simpl in H; rewrite H; clear H;
  try (rewrite decide_False by discriminate).

Ltac through_end E L :=
  rewrite (L _ _ _ _ E); try (rewrite decide_False by discriminate).

Lemma gas_after topic payload now ms s :
  startsWith topic "esp32/" = true →
  JSON_parse (trim payload) = Normal (JObj ms) →
  (map_fields (JObj ms) (World s [])).2 = Normal tt →
  after topic payload now s !! "co2_eq_ppm"
  = updated (gas_reading ms) (s !! "co2_eq_ppm").
Proof.
  intros Hs Hj Hc.
  destruct (after_mapping topic payload now ms s Hs Hj Hc) as (w6 & E & Ha).
  destruct (map_fields_blocks _ _ _ E) as (w1 & w2 & w3 & w4 & w5 & E1 & E2 & E3 & E4 & E5 & E6).
  rewrite !Ha by discriminate.
  through_end E6 map_status_lookup. through_end E5 map_state_lookup.
  through E4 (map_relay_pin_lookup ms w3 "co2_eq_ppm").
  through E3 (map_gas_lookup ms w2 "co2_eq_ppm").
  through E2 (map_humidity_lookup ms w1 "co2_eq_ppm").
  through E1 (map_temperature_lookup ms (World s []) "co2_eq_ppm").
  reflexivity.
Qed.

(** X11. After a structured update whose mapping ran to its end, the three
    readings are the numbers read from the payload, or the earlier ones
    where the payload gives none. [temperature] and [humidity] skip a
    JSON [null]; the gas reading comes from [gas_mq135] when that key is
    there, whatever it holds, and from [co2_eq_ppm] otherwise. *)
Theorem structured_update_readings (topic payload now : string)
    (ms : list (string * json)) (s : gmap string value) :
  startsWith topic "esp32/" = true →
  JSON_parse (trim payload) = Normal (JObj ms) →
  (map_fields (JObj ms) (World s [])).2 = Normal tt →
  after topic payload now s !! "temperature"
  = updated (reading true (own "temperature" ms)) (s !! "temperature")
  ∧ after topic payload now s !! "humidity"
    = updated (reading true (own "humidity" ms)) (s !! "humidity")
  ∧ after topic payload now s !! "co2_eq_ppm"
    = updated (gas_reading ms) (s !! "co2_eq_ppm").
Proof.
  intros Hs Hj Hc.
  split; [| split; [| apply gas_after; assumption]].
  - destruct (after_mapping topic payload now ms s Hs Hj Hc) as (w6 & E & Ha).
    destruct (map_fields_blocks _ _ _ E)
      as (w1 & w2 & w3 & w4 & w5 & E1 & E2 & E3 & E4 & E5 & E6).
    rewrite !Ha by discriminate.
    through_end E6 map_status_lookup. through_end E5 map_state_lookup.
    through E4 (map_relay_pin_lookup ms w3 "temperature").
    through E3 (map_gas_lookup ms w2 "temperature").
    through E2 (map_humidity_lookup ms w1 "temperature").
    through E1 (map_temperature_lookup ms (World s []) "temperature").
    reflexivity.
  - destruct (after_mapping topic payload now ms s Hs Hj Hc) as (w6 & E & Ha).
    destruct (map_fields_blocks _ _ _ E)
      as (w1 & w2 & w3 & w4 & w5 & E1 & E2 & E3 & E4 & E5 & E6).
    rewrite !Ha by discriminate.
    through_end E6 map_status_lookup. through_end E5 map_state_lookup.
    through E4 (map_relay_pin_lookup ms w3 "humidity").
    through E3 (map_gas_lookup ms w2 "humidity").
    through E2 (map_humidity_lookup ms w1 "humidity").
    through E1 (map_temperature_lookup ms (World s []) "humidity").
    reflexivity.
Qed.

Lemma structured_update_readings_witness :
  let ms := [("temperature", JNum (string_to_number "23.5"));
             ("humidity", JNum (string_to_number "60"))] in
  after "esp32/telemetry" sample_telemetry sample_now latestAirData !! "temperature"
  = updated (reading true (own "temperature" ms)) (latestAirData !! "temperature")
  ∧ after "esp32/telemetry" sample_telemetry sample_now latestAirData !! "humidity"
    = updated (reading true (own "humidity" ms)) (latestAirData !! "humidity")
  ∧ after "esp32/telemetry" sample_telemetry sample_now latestAirData !! "co2_eq_ppm"
    = updated (gas_reading ms) (latestAirData !! "co2_eq_ppm").
Proof.
  apply (structured_update_readings "esp32/telemetry" sample_telemetry sample_now
           [("temperature", JNum (string_to_number "23.5"));
            ("humidity", JNum (string_to_number "60"))] latestAirData);
    vm_compute; reflexivity.
Defined.

(** X12. A [null] under [gas_mq135] is not skipped as it is for
    [temperature] and [humidity]: it is read as the number 0, also when
    the payload has a [co2_eq_ppm] key as well. *)
Theorem null_gas_reads_zero (topic payload now : string)
    (ms : list (string * json)) (s : gmap string value) :
  startsWith topic "esp32/" = true →
  JSON_parse (trim payload) = Normal (JObj ms) →
  (map_fields (JObj ms) (World s [])).2 = Normal tt →
  own "gas_mq135" ms = Some JNull →
  after topic payload now s !! "co2_eq_ppm" = Some (VNum num_zero).
Proof.
  intros Hs Hj Hc Hg.
  rewrite (gas_after topic payload now ms s Hs Hj Hc).
  unfold gas_reading. rewrite Hg. reflexivity.
Qed.

Lemma null_gas_reads_zero_witness :
  after "esp32/telemetry" (object1 "gas_mq135" "null") sample_now
    (after "esp32/telemetry" (object1 "gas_mq135" "450") sample_now latestAirData)
    !! "co2_eq_ppm"
  = Some (VNum num_zero).
Proof.
  apply (null_gas_reads_zero "esp32/telemetry" (object1 "gas_mq135" "null") sample_now
           [("gas_mq135", JNull)]);
    vm_compute; reflexivity.
Defined.

Lemma relay_after topic payload now ms s :
  startsWith topic "esp32/" = true →
  JSON_parse (trim payload) = Normal (JObj ms) →
  (map_fields (JObj ms) (World s [])).2 = Normal tt →
  after topic payload now s !! "relay_pin"
  = match own "state" ms with
    | Some v => match to_string v with
                | Normal t => Some (VNum (on_off t))
                | Throw => None
                end
    | None => updated (own "relay_pin" ms ≫= relay_reading) (s !! "relay_pin")
    end
  ∧ after topic payload now s !! "device_status"
    = match own "status" ms with
      | Some v => match to_string v with
                  | Normal t => Some (VStr t)
                  | Throw => None
                  end
      | None => s !! "device_status"
      end.
Proof.
  intros Hs Hj Hc.
  destruct (after_mapping topic payload now ms s Hs Hj Hc) as (w6 & E & Ha).
  destruct (map_fields_blocks _ _ _ E) as (w1 & w2 & w3 & w4 & w5 & E1 & E2 & E3 & E4 & E5 & E6).
  rewrite !Ha by discriminate. split.
  - through_end E6 map_status_lookup.
    rewrite (map_state_lookup _ _ _ "relay_pin" E5).
    rewrite decide_True by reflexivity.
    assert (Hrp : store w4 !! "relay_pin"
                  = updated (own "relay_pin" ms ≫= relay_reading) (s !! "relay_pin")).
    { through E4 (map_relay_pin_lookup ms w3 "relay_pin").
      through E3 (map_gas_lookup ms w2 "relay_pin").
      through E2 (map_humidity_lookup ms w1 "relay_pin").
      through E1 (map_temperature_lookup ms (World s []) "relay_pin").
      reflexivity. }
    revert E5. unfold map_state, mbind, M_bind, bind, lift. simpl.
    destruct (own "state" ms) as [v|]; [| intros _; exact Hrp].
    destruct (to_string v); [reflexivity | discriminate].
  - rewrite (map_status_lookup _ _ _ "device_status" E6).
    rewrite decide_True by reflexivity.
    assert (Hds : store w5 !! "device_status" = s !! "device_status").
    { through_end E5 map_state_lookup.
      through E4 (map_relay_pin_lookup ms w3 "device_status").
      through E3 (map_gas_lookup ms w2 "device_status").
      through E2 (map_humidity_lookup ms w1 "device_status").
      through E1 (map_temperature_lookup ms (World s []) "device_status").
      reflexivity. }
    revert E6. unfold map_status, mbind, M_bind, bind, lift. simpl.
    destruct (own "status" ms) as [v|]; [| intros _; exact Hds].
    destruct (to_string v); [reflexivity | discriminate].
Qed.

(** X13. Without a [state] key, the relay follows the value under
    [relay_pin] by its kind: a boolean, the numbers 1 and 0 and any text
    set it (1 for the text 1 and for ON in any case, 0 for any other
    text); without the key, or with any other value, it stays as it
    was. *)
Theorem relay_pin_by_kind (topic payload now : string)
    (ms : list (string * json)) (s : gmap string value) :
  startsWith topic "esp32/" = true →
  JSON_parse (trim payload) = Normal (JObj ms) →
  (map_fields (JObj ms) (World s [])).2 = Normal tt →
  own "state" ms = None →
  after topic payload now s !! "relay_pin"
  = updated (own "relay_pin" ms ≫= relay_reading) (s !! "relay_pin").
Proof.
  intros Hs Hj Hc Hn.
  destruct (relay_after topic payload now ms s Hs Hj Hc) as (H & _).
  rewrite H, Hn. reflexivity.
Qed.

Lemma relay_pin_by_kind_witness :
  after "esp32/state" (object1 "relay_pin" "true") sample_now latestAirData !! "relay_pin"
  = updated (own "relay_pin" [("relay_pin", JBool true)] ≫= relay_reading)
      (latestAirData !! "relay_pin").
Proof.
  apply (relay_pin_by_kind "esp32/state" (object1 "relay_pin" "true") sample_now
           [("relay_pin", JBool true)] latestAirData);
    vm_compute; reflexivity.
Defined.

(** X14. A [state] key decides the relay whatever [relay_pin] says: 1 when
    its text is ON in any case, 0 for any other value. *)
Theorem state_overrides_relay_pin (topic payload now t : string) (v : json)
    (ms : list (string * json)) (s : gmap string value) :
  startsWith topic "esp32/" = true →
  JSON_parse (trim payload) = Normal (JObj ms) →
  (map_fields (JObj ms) (World s [])).2 = Normal tt →
  own "state" ms = Some v → to_string v = Normal t →
  after topic payload now s !! "relay_pin" = Some (VNum (on_off t)).
Proof.
  intros Hs Hj Hc Hv Ht.
  destruct (relay_after topic payload now ms s Hs Hj Hc) as (H & _).
  rewrite H, Hv, Ht. reflexivity.
Qed.

Lemma state_overrides_relay_pin_witness :
  after "esp32/state"
    ("{" +:+ quoted "relay_pin" +:+ ":1," +:+ quoted "state" +:+ ":" +:+ quoted "off" +:+ "}")
    sample_now latestAirData !! "relay_pin"
  = Some (VNum (on_off "off")).
Proof.
  apply (state_overrides_relay_pin "esp32/state" _ sample_now "off" (JStr "off")
           [("relay_pin", JNum (string_to_number "1")); ("state", JStr "off")]);
    vm_compute; reflexivity.
Defined.

(** X15. The value under [status] is stored as text, whatever its kind: a
    number by its digits, [null] as the text null. *)
Theorem status_is_stored_as_text (topic payload now t : string) (v : json)
    (ms : list (string * json)) (s : gmap string value) :
  startsWith topic "esp32/" = true →
  JSON_parse (trim payload) = Normal (JObj ms) →
  (map_fields (JObj ms) (World s [])).2 = Normal tt →
  own "status" ms = Some v → to_string v = Normal t →
  after topic payload now s !! "device_status" = Some (VStr t).
Proof.
  intros Hs Hj Hc Hv Ht.
  destruct (relay_after topic payload now ms s Hs Hj Hc) as (_ & H).
  rewrite H, Hv, Ht. reflexivity.
Qed.

Lemma status_is_stored_as_text_witness :
  after "esp32/state" (object1 "status" "null") sample_now latestAirData !! "device_status"
  = Some (VStr "null").
Proof.
  apply (status_is_stored_as_text "esp32/state" (object1 "status" "null") sample_now
           "null" JNull [("status", JNull)]);
    vm_compute; reflexivity.
Defined.

(* ================================================================== *)
(** ** The routes read the record                                      *)
(* ================================================================== *)

Lemma pick_lookup a b s f :
  pick [a; b] s !! f = if decide (f = a ∨ f = b) then to_json <$> s !! f else None.
Proof.
  unfold pick. simpl.
  destruct (s !! a) as [va|] eqn:Ea, (s !! b) as [vb|] eqn:Eb; simpl;
    case_decide as H;
    try (destruct H as [->| ->]; rewrite ?Ea, ?Eb; simpl);
    simplify_map_eq; try reflexivity;
    destruct (decide (a = b)); simplify_map_eq; reflexivity.
Qed.

(** X16. Every route but the health route answers from the record alone: a
    member it shows is the member [/api/air/latest] has under that name,
    and it has no other member. *)
Theorem routes_answer_from_the_record (connected : bool) (broker : string) (r : route)
    (f : string) (s : gmap string value) :
  r ≠ MqttHealth →
  member f (respond connected broker r s)
  = if shows r f then member f (respond connected broker Latest s) else None.
Proof.
  intros Hr. destruct r; simpl; try reflexivity; try congruence;
    rewrite pick_lookup, lookup_fmap;
    case_decide as H.
  all: try (destruct H as [->| ->]; reflexivity).
  all: repeat match goal with
              | |- context [String.eqb ?x ?c] => destruct (String.eqb_spec x c) as [->|?]
              end; simpl; try reflexivity; exfalso; apply H; auto.
Qed.

Lemma routes_answer_witness :
  member "humidity" (respond true sample_broker Temperature latestAirData)
  = if shows Temperature "humidity"
    then member "humidity" (respond true sample_broker Latest latestAirData) else None.
Proof.
  apply (routes_answer_from_the_record true sample_broker Temperature "humidity" latestAirData).
  discriminate.
Defined.

(** X17. In every reachable record, a reading shows in a response body as
    [null] or as a finite number: a stored infinity is written [null]. *)
Theorem bodies_hold_finite_readings (connected : bool) (broker : string) (r : route)
    (f : string) (s : gmap string value) :
  reachable s → f ∈ ["temperature"; "humidity"; "co2_eq_ppm"] → shows r f = true →
  member f (respond connected broker r s) = Some JNull
  ∨ ∃ x, member f (respond connected broker r s) = Some (JNum x) ∧ is_finite x = true.
Proof.
  intros Hr Hf Hs.
  destruct (reading_ok_reachable f s Hf Hr) as [H|(x & H & Hx)].
  - left. rewrite (shows_member _ _ _ _ _ _ Hs H). reflexivity.
  - rewrite (shows_member _ _ _ _ _ _ Hs H). simpl.
    destruct (is_finite x) eqn:E; [right; eauto | left; reflexivity].
Qed.

Lemma bodies_hold_finite_readings_witness :
  let s := after "esp32/temperature" "Infinity" sample_now latestAirData in
  member "temperature" (respond true sample_broker Temperature s) = Some JNull
  ∨ ∃ x, member "temperature" (respond true sample_broker Temperature s) = Some (JNum x)
         ∧ is_finite x = true.
Proof.
  apply (bodies_hold_finite_readings true sample_broker Temperature "temperature"
           (after "esp32/temperature" "Infinity" sample_now latestAirData)).
  - apply reach_message; [apply reach_init | vm_compute; reflexivity].
  - apply elem_of_cons. left. reflexivity.
  - reflexivity.
Defined.

(* ================================================================== *)
(** ** The earlier copy of the handler                                 *)
(* ================================================================== *)

(** X18. The earlier handler stamps exactly when it stored a reading, and it
    stores one exactly for a numeric payload on one of its three
    topics. *)
Theorem earlier_stamp_with_reading (topic payload now : string) (s : gmap string value) :
  ("timestamp" ∈ earlier_assigned topic payload now s
   ↔ ∃ f, f ∈ ["temperature"; "humidity"; "co2_eq_ppm"]
          ∧ f ∈ earlier_assigned topic payload now s)
  ∧ ("timestamp" ∈ earlier_assigned topic payload now s
     ↔ isNaN (string_to_number payload) = false ∧ topic ∈ earlier_topics.*1).
Proof.
  unfold earlier_assigned, Earlier.on_message, earlier_topics.
  destruct (isNaN (string_to_number payload)); simpl.
  { split; split.
    - intros H. apply elem_of_nil in H. destruct H.
    - intros (f & _ & H). apply elem_of_nil in H. destruct H.
    - intros H. apply elem_of_nil in H. destruct H.
    - intros [H _]. discriminate H. }
  destruct (String.eqb_spec topic Earlier.TOPIC_TEMP) as [->|H1].
  { simpl. split; split; intros _; [exists "temperature" | | |]; set_solver. }
  destruct (String.eqb_spec topic Earlier.TOPIC_HUM) as [->|H2].
  { simpl. split; split; intros _; [exists "humidity" | | |]; set_solver. }
  destruct (String.eqb_spec topic Earlier.TOPIC_CO2) as [->|H3].
  { simpl. split; split; intros _; [exists "co2_eq_ppm" | | |]; set_solver. }
  simpl. split; split.
  - intros H. apply elem_of_nil in H. destruct H.
  - intros (f & _ & H). apply elem_of_nil in H. destruct H.
  - intros H. apply elem_of_nil in H. destruct H.
  - intros [_ H].
    apply elem_of_cons in H as [H|H]; [destruct (H1 H) |].
    apply elem_of_cons in H as [H|H]; [destruct (H2 H) |].
    apply elem_of_cons in H as [H|H]; [destruct (H3 H) |].
    apply elem_of_nil in H. destruct H.
Qed.

Lemma flat_topic_after topic f payload now s :
  startsWith topic "esp32/" = false → topic ∉ reserved →
  f ≠ topic → f ≠ "timestamp" → f ≠ "last_topic" →
  after topic payload now s !! f = s !! f
  ∧ after topic payload now s !! topic
    = if isNaN (string_to_number (trim payload)) then s !! topic
      else Some (VNum (string_to_number (trim payload))).
Proof.
  intros Hs Hr Hf Ht Hl.
  assert (Hp : topic ≠ "__proto__") by set_solver.
  assert (Ht' : topic ≠ "timestamp") by set_solver.
  assert (Hl' : topic ≠ "last_topic") by set_solver.
  unfold after, handle, on_message. rewrite Hs.
  destruct (isNaN (string_to_number (trim payload))) eqn:Hm.
  - unfold flat_numeric. rewrite Hm. simpl. split; reflexivity.
  - rewrite (flat_numeric_run topic (trim payload) now _ Hp Hs Hm). simpl. split.
    + rewrite !lookup_insert_ne by done. reflexivity.
    + rewrite !lookup_insert_ne by done. apply lookup_insert_eq.
Qed.

Lemma reserved_spec topic :
  topic ≠ "timestamp" → topic ≠ "last_topic" → topic ≠ "__proto__" → topic ∉ reserved.
Proof.
  intros H1 H2 H3 H. unfold reserved in H.
  repeat (apply elem_of_cons in H as [H|H]; [congruence |]).
  apply elem_of_nil in H. exact H.
Qed.

(** X19. On the three topics of the earlier copy, a numeric payload updated
    the reading there; the current handler leaves the reading as it was
    and files the number under the name of the topic. *)
Theorem legacy_topics_no_longer_feed_readings (topic f payload now : string)
    (s : gmap string value) :
  (topic, f) ∈ earlier_topics →
  isNaN (string_to_number payload) = false →
  earlier_after topic payload now s !! f = Some (VNum (string_to_number payload))
  ∧ after topic payload now s !! f = s !! f
  ∧ after topic payload now s !! topic
    = if isNaN (string_to_number (trim payload)) then s !! topic
      else Some (VNum (string_to_number (trim payload))).
Proof.
  intros Ht Hn. unfold earlier_topics in Ht.
  apply elem_of_cons in Ht as [Ht|Ht]; [| apply elem_of_cons in Ht as [Ht|Ht];
    [| apply elem_of_cons in Ht as [Ht|Ht]; [| apply elem_of_nil in Ht; destruct Ht]]];
    injection Ht as -> ->.
  all: split;
    [ unfold earlier_after, Earlier.on_message; rewrite Hn; simpl;
      rewrite lookup_insert_ne by done; apply lookup_insert_eq
    | apply flat_topic_after;
      [reflexivity | apply reserved_spec; discriminate | discriminate ..] ].
Qed.

Lemma legacy_topics_witness :
  earlier_after "home/air/co2_eq_ppm" "412" sample_now latestAirData !! "co2_eq_ppm"
  = Some (VNum (string_to_number "412"))
  ∧ after "home/air/co2_eq_ppm" "412" sample_now latestAirData !! "co2_eq_ppm"
    = latestAirData !! "co2_eq_ppm"
  ∧ after "home/air/co2_eq_ppm" "412" sample_now latestAirData !! "home/air/co2_eq_ppm"
    = if isNaN (string_to_number (trim "412")) then latestAirData !! "home/air/co2_eq_ppm"
      else Some (VNum (string_to_number (trim "412"))).
Proof.
  apply (legacy_topics_no_longer_feed_readings "home/air/co2_eq_ppm" "co2_eq_ppm" "412"
           sample_now latestAirData).
  - unfold earlier_topics. apply elem_of_cons. right. apply elem_of_cons. right.
    apply elem_of_cons. left. reflexivity.
  - vm_compute. reflexivity.
Defined.

(* ================================================================== *)
(** ** Writes that do not wait for the stamp                           *)
(* ================================================================== *)

Lemma after_temperature_block ms w :
  store (map_fields (JObj ms) w).1 !! "temperature"
  = store (map_temperature (JObj ms) w).1 !! "temperature".
Proof.
  unfold map_fields. unfold mbind at 1, M_bind, bind.
  destruct (map_temperature (JObj ms) w) as [w1 [[]|]]; [| reflexivity].
  simpl.
  assert (H : within (frame (λ k, k ≠ "temperature"))
                (map_humidity (JObj ms) ;; map_gas (JObj ms) ;; map_relay_pin (JObj ms) ;;
                 map_state (JObj ms) ;; map_status (JObj ms))).
  { apply within_bind; [apply _ | | intros _].
    { apply map_humidity_within; [apply _ |]. intros. apply assign_frame. discriminate. }
    apply within_bind; [apply _ | | intros _].
    { apply map_gas_within; [apply _ |]. intros. apply assign_frame. discriminate. }
    apply within_bind; [apply _ | | intros _].
    { apply map_relay_pin_within; [apply _ |]. intros. apply assign_frame. discriminate. }
    apply within_bind; [apply _ | | intros _].
    { apply map_state_within; [apply _ |]. intros. apply assign_frame. discriminate. }
    apply map_status_within; [apply _ |]. intros. apply assign_frame. discriminate. }
  apply (H w1). intros E. apply E. reflexivity.
Qed.

(** X20. The temperature of a structured update is stored before the other
    keys are looked at: it is in the record also when a later key makes
    the mapping throw and the record goes without its stamp. *)
Theorem temperature_is_stored_first (topic payload now : string)
    (ms : list (string * json)) (s : gmap string value) :
  startsWith topic "esp32/" = true →
  JSON_parse (trim payload) = Normal (JObj ms) →
  after topic payload now s !! "temperature"
  = updated (reading true (own "temperature" ms)) (s !! "temperature").
Proof.
  intros Hs Hj. unfold after, handle. rewrite (on_message_object _ _ _ _ _ Hs Hj).
  pose proof (after_temperature_block ms (World s [])) as H.
  rewrite (map_temperature_lookup ms (World s []) "temperature") in H.
  rewrite decide_True in H by reflexivity. simpl in H. rewrite <- H.
  destruct (map_fields (JObj ms) (World s [])) as [w1 [[]|]]; [| reflexivity].
  rewrite stamp_run. simpl. rewrite !lookup_insert_ne by done. reflexivity.
Qed.

Lemma temperature_is_stored_first_witness :
  let payload := "{" +:+ quoted "temperature" +:+ ":23.5," +:+ quoted "status" +:+ ":{"
                 +:+ quoted "toString" +:+ ":1}}" in
  after "esp32/telemetry" payload sample_now latestAirData !! "temperature"
  = updated (reading true
               (own "temperature"
                  [("temperature", JNum (string_to_number "23.5"));
                   ("status", JObj [("toString", JNum (string_to_number "1"))])]))
      (latestAirData !! "temperature").
Proof.
  apply (temperature_is_stored_first "esp32/telemetry" _ sample_now
           [("temperature", JNum (string_to_number "23.5"));
            ("status", JObj [("toString", JNum (string_to_number "1"))])] latestAirData);
    vm_compute; reflexivity.
Defined.

(** X21. A message on a delivered topic outside [esp32/] (the topics under
    [home/air], and the bare [esp32]) updates none of the readings, nor
    the relay, nor the device status, whatever its payload. *)
Theorem home_air_messages_update_no_field (topic payload now f : string)
    (s : gmap string value) :
  delivered topic = true → startsWith topic "esp32/" = false →
  f ∈ ["temperature"; "humidity"; "co2_eq_ppm"; "device_status"; "relay_pin"] →
  after topic payload now s !! f = s !! f.
Proof.
  intros Hd Hs Hf.
  apply (flat_topic_after topic f payload now s Hs (delivered_not_reserved _ Hd)).
  - intros ->.
    repeat (apply elem_of_cons in Hf as [Hf|Hf];
            [rewrite Hf in Hd; vm_compute in Hd; discriminate Hd |]).
    apply elem_of_nil in Hf. exact Hf.
  - intros ->. repeat (apply elem_of_cons in Hf as [Hf|Hf]; [discriminate Hf |]).
    apply elem_of_nil in Hf. exact Hf.
  - intros ->. repeat (apply elem_of_cons in Hf as [Hf|Hf]; [discriminate Hf |]).
    apply elem_of_nil in Hf. exact Hf.
Qed.

Lemma home_air_messages_witness :
  after "home/air/temperature" "23.5" sample_now latestAirData !! "temperature"
  = latestAirData !! "temperature".
Proof.
  apply (home_air_messages_update_no_field "home/air/temperature" "23.5" sample_now
           "temperature" latestAirData).
  - vm_compute. reflexivity.
  - vm_compute. reflexivity.
  - apply elem_of_cons. left. reflexivity.
Defined.

(* ================================================================== *)
(** ** The topics the subscriptions deliver                            *)
(* ================================================================== *)

Lemma code_slash c : (code c =? 47) = true → c = "/"%char.
Proof.
  intros H. apply Z.eqb_eq in H. unfold code in H.
  rewrite <- (ascii_N_embedding c).
  replace (N_of_ascii c) with 47%N by lia. reflexivity.
Qed.

Lemma levels_nonempty s : levels s ≠ [].
Proof.
  destruct s as [|c r]; simpl; [discriminate |].
  destruct (code c =? 47); [discriminate |].
  destruct (levels r); discriminate.
Qed.

(** The first level of a topic is the topic itself, or what stands
    before its first [/]. *)
Lemma levels_head s l ls :
  levels s = l :: ls →
  (ls = [] ∧ s = l) ∨ ∃ r, s = l +:+ String "/" r ∧ levels r = ls.
Proof.
  revert l ls. induction s as [|c r IH]; intros l ls; simpl.
  - intros [= <- <-]. left. auto.
  - destruct (code c =? 47) eqn:E.
    + intros [= <- <-]. right. exists r. apply code_slash in E as ->. auto.
    + destruct (levels r) as [|l' ls'] eqn:Er; [destruct (levels_nonempty r Er) |].
      intros [= <- <-].
      destruct (IH l' ls' eq_refl) as [[-> ->]|(r' & -> & Hr)].
      * left. auto.
      * right. exists r'. auto.
Qed.

Lemma levels_prefix (p : string) r :
  (∀ c, In c (list_ascii_of_string p) → (code c =? 47) = false) →
  levels (p +:+ String "/" r) = p :: levels r.
Proof.
  induction p as [|c p IH]; intros H; simpl.
  - reflexivity.
  - rewrite (H c) by (simpl; auto). rewrite IH by (intros; apply H; simpl; auto).
    reflexivity.
Qed.

Lemma startsWith_app p r : startsWith (p +:+ r) p = true.
Proof. unfold startsWith. induction p as [|c p IH]; simpl.
  - destruct r; reflexivity.
  - rewrite IH. destruct (ascii_dec c c); [reflexivity | congruence].
Qed.

Lemma startsWith_split s p : startsWith s p = true → ∃ r, s = p +:+ r.
Proof.
  unfold startsWith. revert s. induction p as [|c p IH]; intros s; simpl.
  - intros _. exists s. reflexivity.
  - destruct s as [|d s]; simpl; [discriminate |].
    destruct (ascii_dec c d) as [->|]; [| discriminate].
    intros H. destruct (IH s H) as [r ->]. exists r. reflexivity.
Qed.

Lemma levels_match_cons x f t :
  x ≠ "#" → x ≠ "+" →
  levels_match (x :: f) t
  = match t with
    | [] => false
    | y :: t1 => String.eqb x y && levels_match f t1
    end.
Proof.
  intros H1 H2. apply String.eqb_neq in H1, H2. cbn [levels_match].
  rewrite H1, H2. reflexivity.
Qed.

(** X22. The subscriptions deliver the topics [esp32] and [home/air] and
    those below them, and no other. *)
Theorem delivered_topics (topic : string) :
  delivered topic = true
  ↔ topic = "esp32" ∨ startsWith topic "esp32/" = true
    ∨ topic = "home/air" ∨ startsWith topic "home/air/" = true.
Proof.
  unfold delivered, subscriptions. cbn [existsb]. rewrite orb_false_r.
  change (levels "home/air/#") with ["home"; "air"; "#"].
  change (levels "esp32/#") with ["esp32"; "#"].
  rewrite !levels_match_cons by discriminate.
  split.
  - intros H. destruct (levels topic) as [|l1 ls1] eqn:E1; [discriminate H |].
    apply orb_true_iff in H as [H|H].
    + apply andb_true_iff in H as [Ha H]. apply String.eqb_eq in Ha. subst l1.
      rewrite levels_match_cons in H by discriminate.
      destruct ls1 as [|l2 ls2]; [discriminate H |].
      apply andb_true_iff in H as [Hb _]. apply String.eqb_eq in Hb. subst l2.
      destruct (levels_head _ _ _ E1) as [[? _]|(r & -> & E2)]; [discriminate |].
      destruct (levels_head _ _ _ E2) as [[_ ->]|(r' & -> & _)].
      * right. right. left. reflexivity.
      * right. right. right. apply (startsWith_app "home/air/" r').
    + apply andb_true_iff in H as [Ha _]. apply String.eqb_eq in Ha. subst l1.
      destruct (levels_head _ _ _ E1) as [[_ ->]|(r & -> & _)].
      * left. reflexivity.
      * right. left. apply (startsWith_app "esp32/" r).
  - intros [->|[H|[->|H]]]; try reflexivity.
    + apply startsWith_split in H as [r ->].
      change ("esp32/" +:+ r) with ("esp32" +:+ String "/" r).
      rewrite levels_prefix; [apply orb_true_r |].
      intros c Hc. simpl in Hc. repeat (destruct Hc as [<-|Hc]; [reflexivity |]). destruct Hc.
    + apply startsWith_split in H as [r ->].
      change ("home/air/" +:+ r) with ("home" +:+ String "/" ("air" +:+ String "/" r)).
      rewrite !levels_prefix; [reflexivity | |];
      intros c Hc; simpl in Hc; repeat (destruct Hc as [<-|Hc]; [reflexivity |]); destruct Hc.
Qed.

(* ================================================================== *)
(** ** The console report (C9)                                         *)
(* ================================================================== *)

Lemma esp32_numeric_reported_run topic t now w :
  esp32_numeric_reported topic t now w
  = ((esp32_numeric topic t now w).1,
     Normal (if isNaN (string_to_number t) then Ignored else Updated)).
Proof.
  unfold esp32_numeric_reported, esp32_numeric.
  destruct (isNaN (string_to_number t)); simpl negb; cbv iota; [reflexivity |].
  unfold mbind, M_bind, bind, ret.
  repeat match goal with
         | |- context [String.eqb topic ?c] => destruct (String.eqb topic c)
         end; reflexivity.
Qed.

Lemma flat_numeric_reported_run topic t now w :
  flat_numeric_reported topic t now w
  = ((flat_numeric topic t now w).1,
     Normal (if isNaN (string_to_number t) then Ignored else Updated)).
Proof.
  unfold flat_numeric_reported, flat_numeric.
  destruct (isNaN (string_to_number t)); simpl negb; cbv iota; [reflexivity |].
  unfold mbind, M_bind, bind, ret, assign.
  repeat match goal with
         | |- context [String.eqb topic ?c] => destruct (String.eqb topic c)
         end; reflexivity.
Qed.

(** The handler with its report does to the record what the handler
    does, and its report is the console call the run ends in. *)
Lemma on_message_reported_run topic payload now w :
  on_message_reported topic payload now w
  = ((on_message topic payload now w).1,
     Normal (if startsWith topic "esp32/"
             then match (esp32_json topic (trim payload) now w).2 with
                  | Normal _ => Updated
                  | Throw => if isNaN (string_to_number (trim payload))
                             then Ignored else Updated
                  end
             else if isNaN (string_to_number (trim payload)) then Ignored else Updated)).
Proof.
  unfold on_message_reported, on_message.
  destruct (startsWith topic "esp32/").
  - unfold try_catch, esp32_json_reported.
    unfold mbind at 1, M_bind at 1, bind at 1.
    destruct (esp32_json topic (trim payload) now w) as [w1 [[]|]]; [reflexivity |].
    apply esp32_numeric_reported_run.
  - apply flat_numeric_reported_run.
Qed.

Lemma flat_numeric_stamps topic t now w :
  isNaN (string_to_number t) = false →
  ∃ w1, flat_numeric topic t now w = stamp topic now w1.
Proof.
  intros Hn. unfold flat_numeric. rewrite Hn. simpl negb. cbv iota.
  unfold mbind, M_bind, bind, assign.
  repeat match goal with
         | |- context [String.eqb ?a ?c] => destruct (String.eqb a c)
         end; eauto.
Qed.

(** X24. The report tells whether the record was stamped: an update sets
    [timestamp] and [last_topic], an ignored message leaves both. *)
Theorem report_matches_stamp (topic payload now : string) (s : gmap string value) :
  match reported topic payload now s with
  | Normal Updated =>
      stamped topic now (after topic payload now s) (names_assigned topic payload now s)
  | Normal Ignored =>
      unstamped s (after topic payload now s) (names_assigned topic payload now s)
  | Throw => False
  end.
Proof.
  unfold reported. rewrite on_message_reported_run. cbn [snd].
  unfold after, names_assigned, handle, on_message.
  destruct (startsWith topic "esp32/") eqn:Hs.
  - unfold try_catch.
    destruct (esp32_json_run topic (trim payload) now (World s [])) as [(w1 & Hq & E)|(w1 & E)];
      rewrite E.
    + cbn [snd]. pose proof (esp32_numeric_run topic (trim payload) now w1) as Hn.
      destruct (isNaN (string_to_number (trim payload))).
      * rewrite Hn. simpl. apply quiet_unstamped, Hq.
      * destruct Hn as [w2 Hn]. rewrite Hn.
        pose proof (stamp_stamped topic now w2) as H.
        destruct (stamp topic now w2) as [w3 c]. exact H.
    + pose proof (stamp_stamped topic now w1) as H. rewrite stamp_run in *. exact H.
  - destruct (isNaN (string_to_number (trim payload))) eqn:Hn.
    + unfold flat_numeric. rewrite Hn. simpl.
      unfold unstamped. repeat split; try reflexivity; apply not_elem_of_nil.
    + destruct (flat_numeric_stamps topic (trim payload) now (World s []) Hn) as [w1 E].
      rewrite E. pose proof (stamp_stamped topic now w1) as H. rewrite stamp_run in *. exact H.
Qed.

(** C9 at its failing input. The payload
    [{"temperature":23.5,"status":{"toString":1}}] on [esp32/telemetry]
    is JSON, [String(obj.status)] throws in the [try] block after
    [temperature] was assigned, and the [catch] block, finding no
    number, reports the message as ignored: the handler ends normally
    and leaves the record without its stamp, but the temperature is
    stored. *)
Theorem ignored_message_is_half_applied (now : string) :
  delivered "esp32/telemetry" = true
  ∧ reported "esp32/telemetry" sample_half_applied now latestAirData = Normal Ignored
  ∧ (handle "esp32/telemetry" sample_half_applied now latestAirData).2 = Normal tt
  ∧ names_assigned "esp32/telemetry" sample_half_applied now latestAirData = ["temperature"]
  ∧ latestAirData !! "temperature" = Some VNull
  ∧ after "esp32/telemetry" sample_half_applied now latestAirData !! "temperature"
    = Some (VNum (string_to_number "23.5"))
  ∧ after "esp32/telemetry" sample_half_applied now latestAirData !! "timestamp"
    = Some VNull.
Proof. repeat split; vm_compute; reflexivity. Qed.

(** X25. A message reported as ignored is dropped whole, unless it is an
    object on an [esp32/] topic: outside that case the record is as it
    was and nothing was assigned. *)
Theorem ignored_text_is_dropped (topic payload now : string) (s : gmap string value) :
  reported topic payload now s = Normal Ignored →
  startsWith topic "esp32/" = false ∨ (∀ ms, JSON_parse (trim payload) ≠ Normal (JObj ms)) →
  handle topic payload now s = (s, [], Normal tt).
Proof.
  unfold reported. rewrite on_message_reported_run. cbn [snd].
  intros Hr Hc. revert Hr. unfold handle, on_message.
  destruct (startsWith topic "esp32/") eqn:Hs.
  - destruct Hc as [Hc|Hc]; [discriminate Hc |].
    unfold try_catch, esp32_json, esp32_numeric, mbind, M_bind, bind, lift.
    destruct (JSON_parse (trim payload)) as [v|] eqn:Hj.
    + destruct v as [| | | | |ms]; try (intros Hr; discriminate Hr).
      * rewrite (null_not_numeric _ Hj). reflexivity.
      * destruct (Hc ms eq_refl).
    + destruct (isNaN (string_to_number (trim payload)));
        [reflexivity | intros Hr; discriminate Hr].
  - unfold flat_numeric.
    destruct (isNaN (string_to_number (trim payload)));
      [reflexivity | intros Hr; discriminate Hr].
Qed.

Lemma ignored_text_is_dropped_witness :
  handle "esp32/telemetry" "not-a-number" sample_now latestAirData
  = (latestAirData, [], Normal tt).
Proof.
  apply (ignored_text_is_dropped "esp32/telemetry" "not-a-number" sample_now latestAirData).
  - vm_compute. reflexivity.
  - right. intros ms H. vm_compute in H. discriminate H.
Defined.
